(** * holodok22bot: the per-user persistence engine

    A shallow embedding of the load / dispatch / save cycle of the bot:

    - [src/database.py]    : [YDBClient] (query shaping, [execute_query],
                             [upsert_new_user]);
    - [src/persistence.py] : [PersistentDispatcher] and [YDBPersistence];
    - [src/helpers.py]     : the reply helpers ([reply_message],
                             [reply_or_edit_message]);
    - [src/handlers.py]    : the two handlers that raise the override flags
                             ([on_unknown], [on_error]);
    - [src/index.py]       : [process_update], one invocation per event.

    Python dictionaries are finite maps ([gmap]); Python's [None] inside
    JSON-like data is [JNull]; exceptions are an explicit [Raised] outcome
    of a small state-and-exception monad over the [World] (the in-process
    dispatcher, the remote table, and the log of issued queries). *)

From Stdlib Require Import Ascii String.
From stdpp Require Import gmap strings list fin_maps sorting.

Open Scope string_scope.
Open Scope list_scope.
Open Scope Z_scope.

(* ===================================================================== *)
(** ** JSON-like Python values *)
(* ===================================================================== *)

(** The values that live in [user_data], in conversation states and in the
    stored document.  [JNull] is Python's [None]; [JObj] is a [dict] with
    string keys; numbers are integers (the bot stores no floats). *)
#[warnings="-register-all"]
Inductive json : Type :=
  | JNull
  | JBool (b : bool)
  | JInt (z : Z)
  | JStr (s : string)
  | JArr (l : list json)
  | JObj (m : gmap string json).

(** Python's [==] on these values, read structurally. *)
Global Instance json_eq_dec : EqDecision json.
Proof.
  refine (fix go (a b : json) {struct a} : Decision (a = b) :=
    match a, b with
    | JNull, JNull => left _
    | JBool x, JBool y => cast_if (decide (x = y))
    | JInt x, JInt y => cast_if (decide (x = y))
    | JStr x, JStr y => cast_if (decide (x = y))
    | JArr x, JArr y => cast_if (@list_eq_dec _ go x y)
    | JObj x, JObj y => cast_if (@gmap_eq_dec _ _ _ _ go x y)
    | _, _ => right _
    end); abstract congruence.
Defined.

(** Truth value of an object in a Python condition ([if x:], [x or y]). *)
Definition truthy (v : json) : bool :=
  match v with
  | JNull => false
  | JBool b => b
  | JInt z => negb (z =? 0)
  | JStr s => negb (bool_decide (s = ""))
  | JArr l => negb (bool_decide (l = []))
  | JObj m => negb (bool_decide (m = ∅))
  end.

(** [d.get(k)] on a dict: the value, or [None]. *)
Definition dict_get {K} `{Countable K} (k : K) (d : gmap K json) : json :=
  default JNull (d !! k).

(** [x is not None]. *)
Definition is_not_None (v : json) : bool := negb (bool_decide (v = JNull)).

(* ===================================================================== *)
(** ** The remote table and the statements sent to it *)
(* ===================================================================== *)

Module Ydb.

(** A bound parameter or a cell: [Uint64], [Utf8] or [Json].  A [Json]
    value is kept as the document it encodes; the text codec
    ([ujson.dumps] / [ujson.loads]) sits between the engine and the
    wire and is not part of the model. *)
Inductive Value : Type :=
  | VUint64 (n : Z)
  | VUtf8 (s : string)
  | VJson (j : json).

Global Instance Value_eq_dec : EqDecision Value.
Proof. solve_decision. Defined.

(** A row: column name to cell; an absent column is [NULL]. *)
Abbreviation Row := (gmap string Value).

(** The [users] table.  A list, so that the "more than one row for one
    user id" case that [get_data] guards against can be expressed. *)
Abbreviation Table := (list (gmap string Value)).

Abbreviation Parameters := (list (string * Value)).

Abbreviation ResultSet := (list (gmap string Value)).

Fixpoint param (p : string) (ps : Parameters) : option Value :=
  match ps with
  | [] => None
  | (k, v) :: ps' => if decide (k = p) then Some v else param p ps'
  end.

(** Right-hand side of a [SET] clause. *)
Inductive Expr : Type :=
  | ENull
  | EParam (p : string).

(** The statements of the engine, as the store reads them.  [SOther]
    stands for any other statement a handler may send (its effect on the
    [users] table is arbitrary). *)
Inductive Statement : Type :=
  | SSelect (column table where_column where_param : string)
  | SUpdate (table : string) (sets : list (string * Expr))
            (where_column where_param : string)
  | SUpsert (table : string) (columns values : list string)
  | SOther (effect : Parameters → Table → Table * list ResultSet).

Definition where_eq (column p : string) (ps : Parameters)
    (r : Row) : bool :=
  match param p ps, r !! column with
  | Some v, Some v' => bool_decide (v = v')
  | _, _ => false
  end.

Definition assign (ps : Parameters) (r : Row) (s : string * Expr)
    : Row :=
  match s.2 with
  | ENull => delete s.1 r
  | EParam p =>
      match param p ps with
      | Some v => <[s.1 := v]> r
      | None => delete s.1 r
      end
  end.

Definition project (column : string) (r : Row) : Row :=
  match r !! column with
  | Some v => {[column := v]}
  | None => ∅
  end.

Section Exec.
(** Name of the modelled table and of its primary-key column. *)
Variables (users_table primary_key : string).

Definition upsert_assignments (columns values : list string)
    : list (string * Expr) :=
  zip columns (EParam <$> values).

(** [UPSERT]: rows with the given primary key get the listed columns
    overwritten and keep every other column; without such a row a new
    one is added, holding the listed columns only. *)
Definition upsert (columns values : list string) (ps : Parameters)
    (t : Table) : Table :=
  let sets := upsert_assignments columns values in
  let fresh := foldl (assign ps) ∅ sets in
  let hit (r : Row) :=
    bool_decide (is_Some (fresh !! primary_key)
                 ∧ r !! primary_key = fresh !! primary_key) in
  if existsb hit t
  then (λ r, if hit r then foldl (assign ps) r sets else r) <$> t
  else t ++ [fresh].

Definition exec (s : Statement) (ps : Parameters) (t : Table)
    : Table * list ResultSet :=
  match s with
  | SSelect column table wc wp =>
      if decide (table = users_table)
      then (t, [project column <$> filter (λ r, where_eq wc wp ps r) t])
      else (t, [[]])
  | SUpdate table sets wc wp =>
      if decide (table = users_table)
      then ((λ r, if where_eq wc wp ps r
                  then foldl (assign ps) r sets else r) <$> t, [])
      else (t, [])
  | SUpsert table columns values =>
      if decide (table = users_table)
      then (upsert columns values ps t, [])
      else (t, [])
  | SOther effect => effect ps t
  end.
End Exec.

End Ydb.
Export Ydb.

(** A query as handed to [YDBClient.execute_query]: the text, the bound
    parameters, and the statement the text denotes. *)
Record Query : Type := mkQuery {
  text : string;
  parameters : list (string * Value);
  statement : Statement;
}.

(* ===================================================================== *)
(** ** Outcomes, the world, and the monad of one invocation *)
(* ===================================================================== *)

(** The Python exceptions the engine can meet.  [TelegramError] is an
    exception of a Bot API call, with the text [str] gives for it. *)
Inductive exn : Type :=
  | ValueError (msg : string)
  | LookupError (table : string) (user_id : Z)
  | AttributeError
  | IndexError
  | StoreError
  | TypeError
  | TelegramError (message : string).

Inductive outcome (A : Type) : Type :=
  | Returned (a : A)
  | Raised (e : exn).
Arguments Returned {A} a.
Arguments Raised {A} e.

(** [telegram.User], as far as [upsert_new_user] and the keys need it. *)
Record User : Type := mkUser {
  id : Z;
  first_name : string;
  last_name : option string;
  username : option string;
}.

(** [telegram.Message] and [telegram.CallbackQuery], as far as the reply
    helpers read them: the text of a message ([None] for a media
    message) and the message a callback query belongs to ([None] for an
    inline message); and the Bot API calls the helpers and the handlers
    make on them. *)
Module Tg.

Record Message : Type := mkMessage {
  text : option string;
}.

Record CallbackQuery : Type := mkCallbackQuery {
  message : option Message;
}.

Inductive Method : Type :=
  | answer
  | edit_message_text
  | edit_message_media
  | delete_message
  | reply_text
  | reply_animation
  | reply_audio
  | reply_document
  | reply_photo
  | reply_video
  | send_message.

(** What a call comes to: it returns, or it raises an exception whose
    [str] is [message]. *)
Inductive Delivery : Type :=
  | Delivered
  | Failed (message : string).

End Tg.

(** What Telegram does with each call a callback makes (a callback makes
    each call at most once). *)
Definition Telegram : Type := Tg.Method → Tg.Delivery.

(** [telegram.Update]: the effective user, the id of the effective chat,
    the message reference a [per_message] conversation would key on, the
    callback query and the effective message. *)
Record Update : Type := mkUpdate {
  effective_user : option User;
  effective_chat : option Z;
  callback_message : option Z;
  callback_query : option Tg.CallbackQuery;
  effective_message : option Tg.Message;
}.

(** [telegram.ext.ConversationHandler]: its configuration and its own
    [conversations] dictionary (key tuple to current state). *)
Record ConversationHandler : Type := mkConversationHandler {
  name : string;
  per_user : bool;
  per_chat : bool;
  per_message : bool;
  persistent : bool;
  conversations : gmap (list Z) json;
}.

(** A registered handler: a conversation, or any other kind. *)
Inductive Handler : Type :=
  | Conversation (h : ConversationHandler)
  | Plain.

(** The state of the [YDBPersistence] object: the two dictionaries it
    inherits from [DictPersistence] ([None] until first used). *)
Record YDBPersistence : Type := mkYDBPersistence {
  _user_data : option (gmap Z json);
  _conversations : option (gmap string (gmap (list Z) json));
}.

(** The state of the [PersistentDispatcher]: its persistence object (or
    [None]), [user_data], the sorted [groups] and the [handlers] of each
    group. *)
Record PersistentDispatcher : Type := mkDispatcher {
  persistence : option YDBPersistence;
  user_data : gmap Z json;
  groups : list Z;
  handlers : gmap Z (list Handler);
}.

(** What one invocation can see and change: the process-wide dispatcher,
    the remote [users] table, the outcomes the storage executor will have
    for the coming calls ([true]: it gives up and raises), and the queries
    issued so far. *)
Record World : Type := mkWorld {
  dispatcher : PersistentDispatcher;
  users : Table;
  outages : list bool;
  issued : list Query;
}.

Definition set_persistence (p : option YDBPersistence)
    (d : PersistentDispatcher) : PersistentDispatcher :=
  mkDispatcher p (user_data d) (groups d) (handlers d).

Definition set_user_data (ud : gmap Z json)
    (d : PersistentDispatcher) : PersistentDispatcher :=
  mkDispatcher (persistence d) ud (groups d) (handlers d).

Definition set_handlers (hs : gmap Z (list Handler))
    (d : PersistentDispatcher) : PersistentDispatcher :=
  mkDispatcher (persistence d) (user_data d) (groups d) hs.

Definition set_conversations (c : gmap (list Z) json)
    (h : ConversationHandler) : ConversationHandler :=
  mkConversationHandler (name h) (per_user h) (per_chat h) (per_message h)
                        (persistent h) c.

Definition set_dispatcher (d : PersistentDispatcher) (w : World) : World :=
  mkWorld d (users w) (outages w) (issued w).

(** State and exceptions: a computation maps the world to an outcome and
    the world it leaves behind (also when it raises). *)
Definition M (A : Type) : Type := World → outcome A * World.

Global Instance M_ret : MRet M := λ A a w, (Returned a, w).

Global Instance M_bind : MBind M := λ A B k m w,
  match m w with
  | (Returned a, w') => k a w'
  | (Raised e, w') => (Raised e, w')
  end.

Definition raise {A} (e : exn) : M A := λ w, (Raised e, w).

Definition get_dispatcher : M PersistentDispatcher :=
  λ w, (Returned (dispatcher w), w).

Definition put_dispatcher (d : PersistentDispatcher) : M unit :=
  λ w, (Returned tt, set_dispatcher d w).

(** [try: m except Exception: pass]. *)
Definition swallow {A} (m : M A) : M unit := λ w,
  (Returned tt, (m w).2).

Definition when (b : bool) (m : M unit) : M unit :=
  if b then m else mret tt.

(* ===================================================================== *)
(** ** [src/database.py]: [YDBClient] *)
(* ===================================================================== *)

(** Table and column names set in [YDBClient.__init__]. *)
Definition users_table : string := "users".
Definition user_id_column : string := "user_id".
Definition first_name_column : string := "first_name".
Definition last_name_column : string := "last_name".
Definition username_column : string := "username".
Definition usage_column : string := "usage".
Definition data_column : string := "persistence_data".
Definition meetings_ts_column : string := "meetings_ts".

(** Layout of the triple-quoted query templates. *)
Definition nl : string := String "010"%char "".

Fixpoint spaces (n : nat) : string :=
  match n with
  | O => ""
  | S n' => String " "%char (spaces n')
  end.

Definition line (indent : nat) (s : string) : string :=
  spaces indent +:+ s +:+ nl.

(** [YDBClient.execute_query]: the query goes, unchanged, to the session
    pool's retrying executor.  The executor either gives up (the exception
    propagates and the table is left as it was) or runs the statement once
    against the table, whose rows are keyed by the user id. *)
Definition execute_query (query : Query) : M (list ResultSet) := λ w,
  let log := issued w ++ [query] in
  match outages w with
  | true :: later =>
      (Raised StoreError, mkWorld (dispatcher w) (users w) later log)
  | coming =>
      let '(t, result_sets) :=
        exec users_table user_id_column
             (statement query) (parameters query) (users w) in
      (Returned result_sets, mkWorld (dispatcher w) t (tail coming) log)
  end.

(** [YDBClient.upsert_new_user].  [columns_string] and [values_string]
    are kept as the lists of their comma-separated items ([+= ', x'] adds
    an item) and joined when the text is formatted. *)
Definition upsert_new_user_query (u : User) : Query :=
  let columns := [user_id_column; first_name_column] in
  let values := ["$user_id"; "$first_name"] in
  let declarations :=
    "DECLARE $user_id AS Uint64; DECLARE $first_name AS Utf8;" in
  let parameters :=
    [("$user_id", VUint64 (id u)); ("$first_name", VUtf8 (first_name u))] in
  let '(columns, values, declarations, parameters) :=
    match last_name u with
    | Some l =>
        (columns ++ [last_name_column],
         values ++ ["$last_name"],
         declarations +:+ " DECLARE $last_name AS Utf8;",
         parameters ++ [("$last_name", VUtf8 l)])
    | None => (columns, values, declarations, parameters)
    end in
  let '(columns, values, declarations, parameters) :=
    match username u with
    | Some n =>
        (columns ++ [username_column],
         values ++ ["$username"],
         declarations +:+ " DECLARE $username AS Utf8;",
         parameters ++ [("$username", VUtf8 n)])
    | None => (columns, values, declarations, parameters)
    end in
  let columns_string := String.concat ", " columns in
  let values_string := String.concat ", " values in
  mkQuery
    (nl +:+ line 12 declarations
        +:+ nl
        +:+ line 12 ("UPSERT INTO " +:+ users_table)
        +:+ line 12 ("(" +:+ columns_string +:+ ")")
        +:+ line 12 "VALUES"
        +:+ line 12 ("(" +:+ values_string +:+ ")")
        +:+ spaces 8)
    parameters
    (SUpsert users_table columns values).

Definition upsert_new_user (update : Update) : M unit :=
  match effective_user update with
  | None => raise AttributeError
  | Some u => execute_query (upsert_new_user_query u);; mret tt
  end.

(* ===================================================================== *)
(** ** The library under the engine (python-telegram-bot 13) *)
(* ===================================================================== *)

(** [YDBPersistence] inherits its dictionaries from
    [telegram.ext.DictPersistence], [PersistentDispatcher] extends
    [telegram.ext.Dispatcher], and conversations are the library's
    [ConversationHandler].  The library is a dependency, not part of the
    repository; this module follows the library's code for exactly the
    calls the engine makes.  Data passed through [get_user_data] and
    [update_user_data] is copied by the library, so the dispatcher and the
    persistence object never share a dictionary. *)
Module Ptb.

(** [ConversationHandler.END]. *)
Definition END : json := JInt (-1).

(** [DictPersistence.update_user_data]. *)
Definition update_user_data (user_id : Z) (data : json)
    (p : YDBPersistence) : YDBPersistence :=
  let ud := default ∅ (_user_data p) in
  if decide (dict_get user_id ud = data)
  then mkYDBPersistence (Some ud) (_conversations p)
  else mkYDBPersistence (Some (<[user_id := data]> ud)) (_conversations p).

(** [DictPersistence.update_conversation]: [new_state] may be [None]. *)
Definition update_conversation (name : string) (key : list Z)
    (new_state : json) (p : YDBPersistence) : YDBPersistence :=
  let cs :=
    match _conversations p with
    | Some c => c
    | None => ∅
    end in
  let conv := default ∅ (cs !! name) in
  let cs := <[name := conv]> cs in
  if decide (dict_get key conv = new_state)
  then mkYDBPersistence (_user_data p) (Some cs)
  else mkYDBPersistence (_user_data p)
                        (Some (<[name := <[key := new_state]> conv]> cs)).

(** [DictPersistence.get_user_data]: the (copied) dictionary, created on
    first use. *)
Definition get_user_data (p : YDBPersistence)
    : gmap Z json * YDBPersistence :=
  let ud := default ∅ (_user_data p) in
  (ud, mkYDBPersistence (Some ud) (_conversations p)).

(** [DictPersistence.get_conversations]: a copy of the states stored
    under [name]. *)
Definition get_conversations (name : string) (p : YDBPersistence)
    : gmap (list Z) json * YDBPersistence :=
  let cs := default ∅ (_conversations p) in
  (default ∅ (cs !! name), mkYDBPersistence (_user_data p) (Some cs)).

(** [ConversationHandler._get_key]. *)
Definition _get_key (h : ConversationHandler) (update : Update)
    : outcome (list Z) :=
  let user_part :=
    match effective_user update with
    | Some u => if per_user h then [id u] else []
    | None => []
    end in
  let with_message (key : list Z) :=
    if per_message h
    then match callback_message update with
         | Some m => Returned (key ++ [m])
         | None => Raised AttributeError
         end
    else Returned key in
  if per_chat h
  then match effective_chat update with
       | Some c => with_message ([c] ++ user_part)
       | None => Raised AttributeError
       end
  else with_message user_part.

(** [ConversationHandler._update_state] (handlers do not run
    asynchronously, so [new_state] is never a promise).  The handler
    writes through to the persistence object it was registered with. *)
Definition _update_state (new_state : json) (key : list Z)
    (h : ConversationHandler) (p : option YDBPersistence)
    : ConversationHandler * option YDBPersistence :=
  let write_through := persistent h && negb (bool_decide (name h = "")) in
  if decide (new_state = END)
  then match conversations h !! key with
       | Some _ =>
           (set_conversations (delete key (conversations h)) h,
            if write_through
            then update_conversation (name h) key JNull <$> p
            else p)
       | None => (h, p)
       end
  else if is_not_None new_state
  then (set_conversations (<[key := new_state]> (conversations h)) h,
        if write_through
        then update_conversation (name h) key new_state <$> p
        else p)
  else (h, p).

(** [Dispatcher.add_handler]: a named persistent conversation needs a
    persistence object and starts from the states stored under its
    name; the handler is appended to its group, and [groups] is kept
    sorted. *)
Definition add_handler (handler : Handler) (group : Z)
    (d : PersistentDispatcher) : outcome unit * PersistentDispatcher :=
  let attach : outcome (Handler * option YDBPersistence) :=
    match handler with
    | Conversation h =>
        if persistent h && negb (bool_decide (name h = ""))
        then match persistence d with
             | None => Raised (ValueError
                 "ConversationHandler can't be persistent without persistence")
             | Some p =>
                 let '(c, p') := get_conversations (name h) p in
                 Returned (Conversation (set_conversations c h), Some p')
             end
        else Returned (handler, persistence d)
    | Plain => Returned (handler, persistence d)
    end in
  match attach with
  | Raised e => (Raised e, d)
  | Returned (handler', p') =>
      let gs :=
        match handlers d !! group with
        | Some _ => groups d
        | None => merge_sort Z.le (groups d ++ [group])
        end in
      let members := default [] (handlers d !! group) ++ [handler'] in
      (Returned tt,
       mkDispatcher p' (user_data d) gs (<[group := members]> (handlers d)))
  end.

(** [Dispatcher.update_persistence(update)]: the user's entry of
    [user_data] (created empty if missing, [user_data] being a
    [defaultdict(dict)]) is handed to the persistence object. *)
Definition update_persistence (update : Update)
    (d : PersistentDispatcher) : PersistentDispatcher :=
  match persistence d, effective_user update with
  | Some p, Some u =>
      let entry := default (JObj ∅) (user_data d !! id u) in
      mkDispatcher (Some (update_user_data (id u) entry p))
                   (<[id u := entry]> (user_data d))
                   (groups d) (handlers d)
  | _, _ => d
  end.

(** Visiting [for handler in self.handlers[group]] with a step that may
    replace the handler, change a state of type [S], or raise (the loop
    then stops where it is). *)
Fixpoint visit {S} (step : Handler → S → outcome Handler * S)
    (l : list Handler) (s : S) : option exn * list Handler * S :=
  match l with
  | [] => (None, [], s)
  | h :: rest =>
      match step h s with
      | (Returned h', s1) =>
          let '(e, rest', s2) := visit step rest s1 in
          (e, h' :: rest', s2)
      | (Raised e, s1) => (Some e, h :: rest, s1)
      end
  end.

(** [for group in self.groups: for handler in self.handlers[group]].
    Every group is a key of [handlers] (both are only changed together,
    by [add_handler]). *)
Fixpoint visit_groups {S} (step : Handler → S → outcome Handler * S)
    (gs : list Z) (hs : gmap Z (list Handler)) (s : S)
    : option exn * gmap Z (list Handler) * S :=
  match gs with
  | [] => (None, hs, s)
  | g :: gs' =>
      match hs !! g with
      | None => visit_groups step gs' hs s
      | Some l =>
          match visit step l s with
          | (None, l', s1) => visit_groups step gs' (<[g := l']> hs) s1
          | (Some e, l', s1) => (Some e, <[g := l']> hs, s1)
          end
      end
  end.

End Ptb.

(* ===================================================================== *)
(** ** [src/persistence.py]: [YDBPersistence] *)
(* ===================================================================== *)

(** The query of [YDBPersistence.get_data]. *)
Definition get_data_query (user_id : Z) : Query :=
  let declarations := "DECLARE $user_id AS Uint64;" in
  mkQuery
    (nl +:+ line 12 declarations
        +:+ line 12 ""
        +:+ line 12 ("SELECT " +:+ data_column)
        +:+ line 12 ("FROM " +:+ users_table)
        +:+ line 12 ("WHERE " +:+ user_id_column +:+ " = $user_id")
        +:+ spaces 8)
    [("$user_id", VUint64 user_id)]
    (SSelect data_column users_table user_id_column "$user_id").

(** [YDBPersistence.get_data]. *)
Definition get_data (user_id : Z) : M json :=
  result_sets ← execute_query (get_data_query user_id);
  match result_sets with
  | [] => raise IndexError
  | result_set :: _ =>
      cell ←
        match result_set with
        | [] => mret None
        | [row] => mret (row !! data_column)
        | _ => raise (LookupError users_table user_id)
        end;
      match cell with
      | None => mret (JObj ∅)
      | Some (VJson document) => mret document
      | Some _ => raise (ValueError "Expected object or value")
      end
  end.

(** [YDBPersistence.update_data].  [data.get] and [.items()] need
    dictionaries. *)
Definition update_data (user_id : Z) (data : json) (p : YDBPersistence)
    : outcome unit * YDBPersistence :=
  match data with
  | JObj d =>
      let p :=
        if is_not_None (dict_get "user_data" d)
        then Ptb.update_user_data user_id (dict_get "user_data" d) p
        else p in
      if is_not_None (dict_get "conversations" d)
      then match dict_get "conversations" d with
           | JObj states =>
               (Returned tt,
                map_fold (λ conv_name state,
                            Ptb.update_conversation conv_name [user_id] state)
                         p states)
           | _ => (Raised AttributeError, p)
           end
      else (Returned tt, p)
  | _ => (Raised AttributeError, p)
  end.

(** [YDBPersistence._dump_into_json]: the dictionary [to_dump], which is
    what the [Json] parameter denotes. *)
Definition _dump_into_json (user_id : Z) (p : YDBPersistence) : json :=
  let to_dump : gmap string json := ∅ in
  let to_dump :=
    match _user_data p with
    | Some all_user_data =>
        let user_data := dict_get user_id all_user_data in
        if is_not_None user_data
        then <["user_data" := user_data]> to_dump
        else to_dump
    | None => to_dump
    end in
  let to_dump :=
    match _conversations p with
    | Some all_conversations =>
        let conversations_data : gmap string json :=
          omap (λ conv_data,
                  let state := dict_get [user_id] conv_data in
                  if is_not_None state then Some state else None)
               all_conversations in
        if truthy (JObj conversations_data)
        then <["conversations" := JObj conversations_data]> to_dump
        else to_dump
    | None => to_dump
    end in
  JObj to_dump.

(** The two queries of [YDBPersistence.update_database]. *)
Definition wipe_query (user_id : Z) : Query :=
  let declarations := "DECLARE $user_id AS Uint64;" in
  mkQuery
    (nl +:+ line 16 declarations
        +:+ line 16 ""
        +:+ line 16 ("UPDATE " +:+ users_table)
        +:+ line 16 ("SET " +:+ data_column +:+ " = NULL, "
                     +:+ meetings_ts_column +:+ " = NULL")
        +:+ line 16 ("WHERE " +:+ user_id_column +:+ " = $user_id")
        +:+ spaces 12)
    [("$user_id", VUint64 user_id)]
    (SUpdate users_table [(data_column, ENull); (meetings_ts_column, ENull)]
             user_id_column "$user_id").

Definition save_query (user_id : Z) (document : json) : Query :=
  let declarations := "DECLARE $user_id AS Uint64;" in
  let declarations := declarations +:+ " DECLARE $data AS Json;" in
  let data := "$data" in
  mkQuery
    (nl +:+ line 16 declarations
        +:+ line 16 ""
        +:+ line 16 ("UPDATE " +:+ users_table)
        +:+ line 16 ("SET " +:+ data_column +:+ " = " +:+ data)
        +:+ line 16 ("WHERE " +:+ user_id_column +:+ " = $user_id")
        +:+ spaces 12)
    [("$user_id", VUint64 user_id); ("$data", VJson document)]
    (SUpdate users_table [(data_column, EParam data)]
             user_id_column "$user_id").

(** [YDBPersistence.update_database]; [error] is tested for truth. *)
Definition update_database (user_id : Z) (error : json)
    (p : YDBPersistence) : M unit :=
  (if truthy error
   then execute_query (wipe_query user_id)
   else execute_query (save_query user_id (_dump_into_json user_id p)));;
  mret tt.

(* ===================================================================== *)
(** ** [src/persistence.py]: [PersistentDispatcher] *)
(* ===================================================================== *)

(** [PersistentDispatcher.add_handler]: the library registers the handler
    first, then a conversation is checked against what [YDBPersistence]
    supports. *)
Definition add_handler (handler : Handler) (group : Z)
    (d : PersistentDispatcher) : outcome unit * PersistentDispatcher :=
  match Ptb.add_handler handler group d with
  | (Raised e, d') => (Raised e, d')
  | (Returned _, d') =>
      match persistence d', handler with
      | Some _, Conversation h =>
          if negb (per_user h)
          then (Raised (ValueError
            "YDBPersistence requires per_user=True for ConversationHandler"),
                d')
          else if per_chat h
          then (Raised (ValueError
            "YDBPersistence requires per_chat=False for ConversationHandler"),
                d')
          else if per_message h
          then (Raised (ValueError
            "YDBPersistence requires per_message=False for ConversationHandler"),
                d')
          else if negb (persistent h)
          then (Raised (ValueError "ConversationHandler is not persistent"),
                d')
          else (Returned tt, d')
      | _, _ => (Returned tt, d')
      end
  end.

(** The loop that ends [load_persistence_data]: every persistent
    conversation takes the states stored under its name. *)
Definition reload (handler : Handler) (p : YDBPersistence)
    : outcome Handler * YDBPersistence :=
  match handler with
  | Conversation h =>
      if persistent h
      then let '(c, p') := Ptb.get_conversations (name h) p in
           (Returned (Conversation (set_conversations c h)), p')
      else (Returned handler, p)
  | Plain => (Returned handler, p)
  end.

(** [PersistentDispatcher.load_persistence_data].  [YDBPersistence]
    stores user data only, so the chat, bot and callback branches are
    not taken. *)
Definition load_persistence_data (user_id : Z) : M unit :=
  d ← get_dispatcher;
  match persistence d with
  | None => mret tt
  | Some p =>
      data ← get_data user_id;
      match update_data user_id data p with
      | (Raised e, p) => put_dispatcher (set_persistence (Some p) d);; raise e
      | (Returned _, p) =>
          let '(ud, p) := Ptb.get_user_data p in
          let '(_, hs, p) :=
            Ptb.visit_groups reload (groups d) (handlers d) p in
          put_dispatcher (mkDispatcher (Some p) ud (groups d) hs)
      end
  end.

(** [PersistentDispatcher.update_persistence_database]. *)
Definition update_persistence_database (user_id : Z) (error : json)
    : M unit :=
  d ← get_dispatcher;
  match persistence d with
  | None => mret tt
  | Some p => update_database user_id error p
  end.

(** One step of [end_conversations]. *)
Definition end_conversation (update : Update) (handler : Handler)
    (p : option YDBPersistence) : outcome Handler * option YDBPersistence :=
  match handler with
  | Conversation h =>
      match Ptb._get_key h update with
      | Returned key =>
          let '(h', p') := Ptb._update_state Ptb.END key h p in
          (Returned (Conversation h'), p')
      | Raised e => (Raised e, p)
      end
  | Plain => (Returned handler, p)
  end.

(** [PersistentDispatcher.end_conversations]. *)
Definition end_conversations (update : Update) : M unit :=
  d ← get_dispatcher;
  let '(e, hs, p) :=
    Ptb.visit_groups (end_conversation update)
                     (groups d) (handlers d) (persistence d) in
  put_dispatcher (mkDispatcher p (user_data d) (groups d) hs);;
  match e with
  | Some e => raise e
  | None => mret tt
  end.

(* ===================================================================== *)
(** ** [src/helpers.py]: the replies *)
(* ===================================================================== *)

(** A Bot API call. *)
Definition call (telegram : Telegram) (method : Tg.Method) : outcome unit :=
  match telegram method with
  | Tg.Delivered => Returned tt
  | Tg.Failed message => Raised (TelegramError message)
  end.

(** [part in whole], on strings. *)
Definition contains (part whole : string) : bool :=
  match String.index 0 part whole with
  | Some _ => true
  | None => false
  end.

(** [phrase in str(exception)].  Of the exceptions that reach the
    [except] clauses of the helpers, those of the Bot API and a
    [ValueError] carry their text; an [AttributeError] there is about a
    missing attribute of [None] and a [TypeError] about an unexpected
    keyword argument. *)
Definition said (phrase : string) (e : exn) : bool :=
  match e with
  | TelegramError message => contains phrase message
  | ValueError msg => contains phrase msg
  | _ => false
  end.

(** The [media] argument of the helpers, by its class. *)
Inductive Media : Type :=
  | InputMediaAnimation
  | InputMediaAudio
  | InputMediaDocument
  | InputMediaPhoto
  | InputMediaVideo
  | OtherMedia.

(** [notify_developer(message, bot, context)], given a bot or a
    context: whatever [send_message] does is logged at most. *)
Definition notify_developer (telegram : Telegram) : outcome unit :=
  match call telegram Tg.send_message with
  | _ => Returned tt
  end.

(** A [reply_*] call on [update.effective_message]. *)
Definition reply (telegram : Telegram) (update : Update)
    (method : Tg.Method) : outcome unit :=
  match effective_message update with
  | Some _ => call telegram method
  | None => Raised AttributeError
  end.

(** [reply_message(update, context, text, media, ...)].  The last
    branch calls [notify_developer] with a keyword it does not have.
    An exception is raised again unless it says it timed out. *)
Definition reply_message (telegram : Telegram) (update : Update)
    (text : option string) (media : option Media) : outcome unit :=
  let attempt :=
    match text, media with
    | Some _, _ => reply telegram update Tg.reply_text
    | None, Some InputMediaAnimation =>
        reply telegram update Tg.reply_animation
    | None, Some InputMediaAudio => reply telegram update Tg.reply_audio
    | None, Some InputMediaDocument =>
        reply telegram update Tg.reply_document
    | None, Some InputMediaPhoto => reply telegram update Tg.reply_photo
    | None, Some InputMediaVideo => reply telegram update Tg.reply_video
    | None, _ => Raised TypeError
    end in
  match attempt with
  | Returned _ => Returned tt
  | Raised exception =>
      if said "Timed out" exception then Returned tt
      else Raised exception
  end.

(** An edit of the previous message: when it fails, nothing more is
    done if the message was not modified or the call timed out, and a
    new message is sent otherwise. *)
Definition edit_or_reply (telegram : Telegram) (update : Update)
    (method : Tg.Method) (text : option string) (media : option Media)
    : outcome unit :=
  match call telegram method with
  | Returned _ => Returned tt
  | Raised exception =>
      if said "Message is not modified" exception
         || said "Timed out" exception
      then Returned tt
      else reply_message telegram update text media
  end.

(** The message of the [ValueError] of [reply_or_edit_message], which
    prints the three objects: the text around them. *)
Definition mismatch : string :=
  "update.callback_query.message = {update.callback_query.message}, "
  +:+ "text = {text}, media = {media}".

(** [reply_or_edit_message(update, context, text, media, ...,
    force_new_message)].  What [callback_query.answer()] and
    [delete_message()] raise is dropped by the source. *)
Definition reply_or_edit_message (telegram : Telegram) (update : Update)
    (text : option string) (media : option Media)
    (force_new_message : bool) : outcome unit :=
  match callback_query update with
  | None =>
      match effective_message update with
      | None => Returned tt
      | Some _ => reply_message telegram update text media
      end
  | Some query =>
      if force_new_message
      then reply_message telegram update text media
      else
        match Tg.message query with
        | None => Raised AttributeError
        | Some previous =>
            match Tg.text previous, text, media with
            | Some _, Some _, None =>
                edit_or_reply telegram update Tg.edit_message_text
                              text media
            | None, None, Some _ =>
                edit_or_reply telegram update Tg.edit_message_media
                              text media
            | Some _, None, Some _ =>
                reply_message telegram update text media
            | None, Some _, None =>
                reply_message telegram update text media
            | _, _, _ =>
                Raised (ValueError mismatch)
            end
        end
  end.

(* ===================================================================== *)
(** ** [src/handlers.py]: the handlers that raise the override flags *)
(* ===================================================================== *)

(** A callback, as it changes [context.user_data]: it returns or raises,
    and leaves the dictionary as it made it so far. *)
Definition Callback : Type :=
  gmap string json → outcome unit * gmap string json.

(** [on_top(update, context, text, media, ..., force_new_message)]: the
    reply with the top-level keyboard. *)
Definition on_top (telegram : Telegram) (update : Update)
    (text : option string) (media : option Media)
    (force_new_message : bool) : outcome unit :=
  reply_or_edit_message telegram update text media force_new_message.

(** The text [on_unknown] replies with. *)
Definition did_not_understand : string :=
  "Сорри, не понял тебя ¯\_(ツ)_/¯" +:+ nl +:+ nl
  +:+ "Давай попробуем еще раз. Что хочешь сделать?".

(** [on_unknown]: the reply first; when it went through, the keys of a
    post in the making are dropped and the flag is set. *)
Definition on_unknown (telegram : Telegram) (update : Update)
    : Callback := λ user_data,
  match on_top telegram update (Some did_not_understand) None false with
  | Raised e => (Raised e, user_data)
  | Returned _ =>
      let user_data := delete "post_channel_message" user_data in
      let user_data := delete "post_channel_message_type" user_data in
      let user_data := delete "post_channel_file_id" user_data in
      let user_data := delete "post_channel_full_message" user_data in
      let user_data := delete "post_channel_public_footer" user_data in
      let user_data := delete "post_channel_private_footer" user_data in
      let user_data :=
        delete "post_channel_footer_max_length" user_data in
      (Returned tt, <["UNKNOWN" := JBool true]> user_data)
  end.

(** [on_error]: the report to the developer (whose text is not
    modelled), then the message to the user, which is not guarded; when
    it went through, the flag is set. *)
Definition on_error (telegram : Telegram) (update : Update)
    : Callback := λ user_data,
  match notify_developer telegram with
  | Raised e => (Raised e, user_data)
  | Returned _ =>
      match reply telegram update Tg.reply_text with
      | Raised e => (Raised e, user_data)
      | Returned _ => (Returned tt, <["ERROR" := JBool true]> user_data)
      end
  end.

(* ===================================================================== *)
(** ** Dispatch, seen from the engine *)
(* ===================================================================== *)

(** What the callbacks that run for one update do, in order: code that
    reads and writes [context.user_data]; a conversation recording the
    state its callback returned; a call of a [ydb_client] method. *)
Inductive Action : Type :=
  | Scratch (callback : gmap string json → gmap string json)
  | Transition (group : Z) (index : nat) (new_state : json)
  | Issue (query : Query).

(** What a callback leaves in [context.user_data], whether it returns
    or raises. *)
Definition effect (callback : Callback)
    : gmap string json → gmap string json :=
  λ user_data, (callback user_data).2.

(** A callback under the library's [Dispatcher.process_update]: an
    exception it raises goes to [dispatch_error], which calls the error
    handler with the same [context.user_data]; an exception of the error
    handler is logged. *)
Definition handled (callback error_handler : Callback)
    : gmap string json → gmap string json :=
  λ user_data,
    match callback user_data with
    | (Returned _, user_data) => user_data
    | (Raised _, user_data) => effect error_handler user_data
    end.

(** A handler of a group, as the loop of [Dispatcher.process_update]
    uses it: whether [check_update] accepts the update, and what
    [handle_update] then does. *)
Record Route : Type := mkRoute {
  check_update : Update → bool;
  handle_update : Update → list Action;
}.

(** [for handler in self.handlers[group]]: the first handler that
    accepts the update handles it. *)
Fixpoint first_match (update : Update) (group : list Route)
    : option (list Action) :=
  match group with
  | [] => None
  | handler :: group' =>
      if check_update handler update
      then Some (handle_update handler update)
      else first_match update group'
  end.

(** [for group in self.groups]: what the callbacks do, group after
    group; [None] when no handler of any group accepts the update. *)
Definition route (update : Update) (groups : list (list Route))
    : option (list Action) :=
  match omap (first_match update) groups with
  | [] => None
  | found => Some (concat found)
  end.

(** [TypeHandler(type=Update, callback=on_unknown)], the last handler
    that [add_handlers] puts in group 0: it accepts every update;
    [on_error] is the error handler of the bot. *)
Definition catch_all (telegram telegram' : Telegram) : Route :=
  mkRoute (λ _, true)
          (λ update, [Scratch (handled (on_unknown telegram update)
                                       (on_error telegram' update))]).

(** [context.user_data] is the user's entry of [dispatcher.user_data]. *)
Definition run_action (update : Update) (a : Action) : M unit :=
  match a with
  | Scratch callback =>
      d ← get_dispatcher;
      match effective_user update with
      | Some u =>
          match user_data d !! id u with
          | Some (JObj entry) =>
              put_dispatcher
                (set_user_data (<[id u := JObj (callback entry)]> (user_data d))
                               d)
          | _ => mret tt
          end
      | None => mret tt
      end
  | Transition group index new_state =>
      d ← get_dispatcher;
      match handlers d !! group with
      | Some l =>
          match l !! index with
          | Some (Conversation h) =>
              match Ptb._get_key h update with
              | Returned key =>
                  let '(h', p') :=
                    Ptb._update_state new_state key h (persistence d) in
                  put_dispatcher
                    (mkDispatcher p' (user_data d) (groups d)
                       (<[group := <[index := Conversation h']> l]>
                          (handlers d)))
              | Raised _ => mret tt
              end
          | _ => mret tt
          end
      | None => mret tt
      end
  | Issue query => swallow (execute_query query)
  end.

Fixpoint run_actions (update : Update) (actions : list Action) : M unit :=
  match actions with
  | [] => mret tt
  | a :: rest => run_action update a;; run_actions update rest
  end.

(** [dispatcher.update_persistence(update)], as a step of an invocation. *)
Definition update_persistence (update : Update) : M unit :=
  d ← get_dispatcher;
  put_dispatcher (Ptb.update_persistence update d).

(** [CallbackContext.from_update]: [context.user_data] is bound to the
    user's entry of [dispatcher.user_data], a [defaultdict(dict)], which
    creates the entry when it is missing. *)
Definition from_update (update : Update) : M unit :=
  d ← get_dispatcher;
  match effective_user update with
  | Some u =>
      match user_data d !! id u with
      | None =>
          put_dispatcher (set_user_data (<[id u := JObj ∅]> (user_data d)) d)
      | Some _ => mret tt
      end
  | None => mret tt
  end.

(** The library's [Dispatcher.process_update].  [run] is [None] when no
    handler of any group accepts the update.  Otherwise the callback
    context is created, the callbacks have their effects (an exception of
    a callback is caught and passed to the error handlers, so it does not
    leave this function), and the user's data is handed to the
    persistence object. *)
Definition Dispatcher_process_update (update : Update)
    (run : option (list Action)) : M unit :=
  match run with
  | None => mret tt
  | Some actions =>
      from_update update;;
      run_actions update actions;;
      update_persistence update
  end.

(* ===================================================================== *)
(** ** [src/index.py]: one invocation *)
(* ===================================================================== *)

Record Response : Type := mkResponse {
  statusCode : Z;
  body : string;
}.

Definition quote : string := String "034"%char "".

Definition OK_RESPONSE : Response :=
  mkResponse 200 (quote +:+ "OK" +:+ quote).

Definition ERROR_RESPONSE : Response :=
  mkResponse 400 (quote +:+ "ERROR" +:+ quote).

(** The incoming event, by what [Update.de_json(json.loads(body))] makes
    of it: an exception, or the value returned (which is [None] for an
    empty body). *)
Inductive Event : Type :=
  | Unreadable
  | Readable (update : option Update).

(** [dispatcher.user_data.get(user_id, {}).pop(flag, False)]. *)
Definition pop_flag (user_id : Z) (flag : string) : M json :=
  d ← get_dispatcher;
  match user_data d !! user_id with
  | None => mret (JBool false)
  | Some (JObj entry) =>
      match entry !! flag with
      | Some v =>
          put_dispatcher
            (set_user_data (<[user_id := JObj (delete flag entry)]>
                              (user_data d)) d);;
          mret v
      | None => mret (JBool false)
      end
  | Some _ => raise AttributeError
  end.

(** [process_update(event, context)].  [run] is what the handlers do with
    the update once it is dispatched. *)
Definition process_update (event : Event) (run : option (list Action))
    : M Response :=
  match event with
  | Unreadable => mret ERROR_RESPONSE
  | Readable None => raise AttributeError
  | Readable (Some update) =>
      match effective_user update with
      | None => raise AttributeError
      | Some u =>
          load_persistence_data (id u);;
          Dispatcher_process_update update run;;
          unknown_update ← pop_flag (id u) "UNKNOWN";
          error_update ← pop_flag (id u) "ERROR";
          when (truthy unknown_update || truthy error_update)
               (update_persistence update);;
          when (truthy unknown_update) (end_conversations update);;
          update_persistence_database (id u) error_update;;
          mret OK_RESPONSE
      end
  end.

(* ===================================================================== *)
(** ** Vocabulary of the properties *)
(* ===================================================================== *)

(** The four settings [YDBPersistence] refuses. *)
Definition misconfigured (h : ConversationHandler) : Prop :=
  per_chat h = true ∨ per_message h = true ∨ persistent h = false
  ∨ per_user h = false.

(** The message of the first check that fails, in the order of
    [PersistentDispatcher.add_handler]. *)
Definition refusal (h : ConversationHandler) : string :=
  if negb (per_user h)
  then "YDBPersistence requires per_user=True for ConversationHandler"
  else if per_chat h
  then "YDBPersistence requires per_chat=False for ConversationHandler"
  else if per_message h
  then "YDBPersistence requires per_message=False for ConversationHandler"
  else "ConversationHandler is not persistent".


(** The texts of the queries a computation issues when started in [w]. *)
Definition texts_issued {A} (m : M A) (w : World) : list string :=
  text <$> drop (length (issued w)) (issued (m w).2).

(** Likewise, the parameters it binds. *)
Definition parameters_issued {A} (m : M A) (w : World)
    : list (list (string * Value)) :=
  parameters <$> drop (length (issued w)) (issued (m w).2).

(** The rows of a table that belong to a user. *)
Definition rows_of (user_id : Z) (t : Table) : Table :=
  filter (λ r, r !! user_id_column = Some (VUint64 user_id)) t.

(** The columns [upsert_new_user] lists for a user. *)
Definition identity_columns (u : User) : list string :=
  [user_id_column; first_name_column]
  ++ match last_name u with Some _ => [last_name_column] | None => [] end
  ++ match username u with Some _ => [username_column] | None => [] end.

(** The parameters it binds to them, in the same order. *)
Definition identity_values (u : User) : list string :=
  ["$user_id"; "$first_name"]
  ++ match last_name u with Some _ => ["$last_name"] | None => [] end
  ++ match username u with Some _ => ["$username"] | None => [] end.

(** The persistence object of a new process. *)
Definition fresh_persistence : YDBPersistence := mkYDBPersistence None None.

(** What the persistence object holds for a user: the scratch entry
    ([None] when there is none) and, per conversation name, the state
    that is not [None]. *)
Definition scratch_of (user_id : Z) (p : YDBPersistence) : json :=
  dict_get user_id (default ∅ (_user_data p)).

Definition state_of (user_id : Z) (conv_data : gmap (list Z) json)
    : option json :=
  let state := dict_get [user_id] conv_data in
  if is_not_None state then Some state else None.

Definition states_of (user_id : Z) (p : YDBPersistence)
    : gmap string json :=
  omap (state_of user_id) (default ∅ (_conversations p)).

(** The document with a given scratch section and given states. *)
Definition document (scratch : json) (states : gmap string json)
    : gmap string json :=
  let m : gmap string json :=
    if is_not_None scratch then {["user_data" := scratch]} else ∅ in
  if bool_decide (states = ∅) then m
  else <["conversations" := JObj states]> m.

(** A stored document is one the serializer has produced. *)
Definition stored_document (doc : json) : Prop :=
  ∃ user_id p, doc = _dump_into_json user_id p.

(** A top-level section of a document ([None] when it has none). *)
Definition section (key : string) (doc : json) : json :=
  match doc with
  | JObj m => dict_get key m
  | _ => JNull
  end.

(** The queries the callbacks of a run send. *)
Definition handler_queries (run : option (list Action)) : list Query :=
  match run with
  | None => []
  | Some actions =>
      omap (λ a, match a with Issue q => Some q | _ => None end) actions
  end.

(** The first half of an invocation: load, then dispatch. *)
Definition load_and_dispatch (update : Update) (u : User)
    (run : option (list Action)) : M unit :=
  load_persistence_data (id u);; Dispatcher_process_update update run.

(** The second half ([index.py], from the two [pop]s on). *)
Definition strip_and_save (update : Update) (u : User) : M Response :=
  unknown_update ← pop_flag (id u) "UNKNOWN";
  error_update ← pop_flag (id u) "ERROR";
  when (truthy unknown_update || truthy error_update)
       (update_persistence update);;
  when (truthy unknown_update) (end_conversations update);;
  update_persistence_database (id u) error_update;;
  mret OK_RESPONSE.

(** A conversation handler the loops over [groups] and [handlers] reach,
    by its position. *)
Definition registered_at (g : Z) (i : nat) (h : ConversationHandler)
    (d : PersistentDispatcher) : Prop :=
  g ∈ groups d
  ∧ ∃ l, handlers d !! g = Some l ∧ l !! i = Some (Conversation h).

Definition registered (h : ConversationHandler)
    (d : PersistentDispatcher) : Prop :=
  ∃ g i, registered_at g i h d.

(** A conversation as [add_handler] accepts it.  (The library does not
    construct a persistent conversation without a name.) *)
Definition accepted (h : ConversationHandler) : Prop :=
  per_user h = true ∧ per_chat h = false ∧ per_message h = false
  ∧ persistent h = true ∧ name h ≠ "".

(** A dispatcher as registration leaves it: [groups] has no duplicates
    and lists the keys of [handlers], and every conversation has been
    accepted. *)
Definition well_formed (d : PersistentDispatcher) : Prop :=
  NoDup (groups d)
  ∧ (∀ g, is_Some (handlers d !! g) → g ∈ groups d)
  ∧ (∀ h, registered h d → accepted h).

(** The state the persistence object holds for a conversation name and a
    key ([None] when it holds none). *)
Definition stored_state (key : list Z) (conv_name : string)
    (p : YDBPersistence) : json :=
  dict_get key (default ∅ (default ∅ (_conversations p) !! conv_name)).

(** Every state the persistence object holds under the name of a
    registered conversation is held by such a conversation too. *)
Definition in_sync (key : list Z) (d : PersistentDispatcher) : Prop :=
  ∀ p h, persistence d = Some p → registered h d →
    stored_state key (name h) p ≠ JNull →
    ∃ h', registered h' d ∧ name h' = name h
          ∧ is_Some (conversations h' !! key).

(** The handlers in the order the loops visit them. *)
Definition flat (gs : list Z) (hs : gmap Z (list Handler)) : list Handler :=
  gs ≫= λ g, default [] (hs !! g).

(** A change of every conversation handler, other handlers untouched. *)
Definition lift (fc : ConversationHandler → ConversationHandler)
    (h : Handler) : Handler :=
  match h with
  | Conversation c => Conversation (fc c)
  | Plain => Plain
  end.

(** What the loop of [load_persistence_data] makes of a conversation,
    when the persistence object holds [convs]. *)
Definition reloaded (convs : gmap string (gmap (list Z) json))
    (c : ConversationHandler) : ConversationHandler :=
  if persistent c
  then set_conversations (default ∅ (convs !! name c)) c
  else c.

(** What [end_conversations] makes of a conversation. *)
Definition ended (key : list Z) (c : ConversationHandler)
    : ConversationHandler :=
  set_conversations (delete key (conversations c)) c.

(** Does this handler hold a state under [key] for the name [n]? *)
Definition holds (key : list Z) (n : string) (h : Handler) : bool :=
  match h with
  | Conversation c =>
      bool_decide (name c = n ∧ is_Some (conversations c !! key))
  | Plain => false
  end.

Global Instance accepted_dec (h : ConversationHandler) :
  Decision (accepted h).
Proof. unfold accepted. apply _. Defined.

Definition accepted_handler (h : Handler) : Prop :=
  match h with
  | Conversation c => accepted c
  | Plain => True
  end.

Global Instance accepted_handler_dec (h : Handler) :
  Decision (accepted_handler h).
Proof. destruct h; simpl; apply _. Defined.

(** [well_formed], in a form that can be decided by computation. *)
Definition well_formed_check (d : PersistentDispatcher) : Prop :=
  NoDup (groups d)
  ∧ map_Forall (λ g _, g ∈ groups d) (handlers d)
  ∧ Forall accepted_handler (flat (groups d) (handlers d)).

Global Instance well_formed_check_dec (d : PersistentDispatcher) :
  Decision (well_formed_check d).
Proof. unfold well_formed_check. apply _. Defined.

(** A scratch entry without the override flags, and one in which a flag
    is either absent or [True] (the only value the handlers give it). *)
Definition flag_free (v : json) : Prop :=
  match v with
  | JObj m => m !! "UNKNOWN" = None ∧ m !! "ERROR" = None
  | _ => True
  end.



(** No stored document has a flag in its scratch section. *)
Definition clean_table (t : Table) : Prop :=
  ∀ row m, row ∈ t → row !! data_column = Some (VJson (JObj m)) →
           flag_free (dict_get "user_data" m).


(** What the handlers of this bot do: a callback leaves each flag as it
    is or sets it to [True] (as [on_unknown] and [on_error] do); the
    statements they send store no flag. *)
Definition disciplined (a : Action) : Prop :=
  match a with
  | Scratch callback =>
      ∀ m k, k = "UNKNOWN" ∨ k = "ERROR" →
             callback m !! k = m !! k ∨ callback m !! k = Some (JBool true)
  | Transition _ _ _ => True
  | Issue q =>
      ∀ t, clean_table t →
           clean_table (exec users_table user_id_column
                             (statement q) (parameters q) t).1
  end.

(** What an action keeps. *)
Definition kept (key : list Z) (w w' : World) : Prop :=
  (well_formed (dispatcher w) → well_formed (dispatcher w'))
  ∧ (well_formed (dispatcher w) → in_sync key (dispatcher w) →
     in_sync key (dispatcher w'))
  ∧ (well_formed (dispatcher w) →
     ∀ n, (∃ h, registered h (dispatcher w') ∧ name h = n)
          ↔ ∃ h, registered h (dispatcher w) ∧ name h = n).

(** The conversation loops leave the scratch data of the persistence
    object alone, whatever the handlers are. *)
Definition same_user_data (s s' : option YDBPersistence) : Prop :=
  ∀ p', s' = Some p' → ∃ p, s = Some p ∧ _user_data p' = _user_data p.



(* ===================================================================== *)
(** ** A small concrete setting *)
(* ===================================================================== *)

(** A user, an update from her, and a dispatcher set up as in [index.py]:
    [YDBPersistence], one conversation in group 0 followed by a catch-all
    handler, and the usage handler in group 1. *)
Definition alice : User := mkUser 7 "Alice" None (Some "alice").

Definition update_from_alice : Update :=
  mkUpdate (Some alice) (Some 7) None None
           (Some (Tg.mkMessage (Some "hello"))).

(** Telegram delivers whatever is sent; and what [on_unknown] and
    [on_error] then leave in [context.user_data]. *)
Definition delivered : Telegram := λ _, Tg.Delivered.

Definition unknown_answered : gmap string json → gmap string json :=
  effect (on_unknown delivered update_from_alice).

Definition error_reported : gmap string json → gmap string json :=
  effect (on_error delivered update_from_alice).

Definition mortuary_conv : ConversationHandler :=
  mkConversationHandler "mortuary_conv" true false false true ∅.

Definition started_dispatcher : PersistentDispatcher :=
  let d := mkDispatcher (Some (mkYDBPersistence None None)) ∅ [] ∅ in
  let d := (add_handler (Conversation mortuary_conv) 0 d).2 in
  let d := (add_handler Plain 0 d).2 in
  (add_handler Plain 1 d).2.

(** Her row after [/start]: identity columns and a usage count. *)
Definition alice_row : Row :=
  <[usage_column := VUint64 3]>
    (<[first_name_column := VUtf8 "Alice"]>
       {[user_id_column := VUint64 7]}).

Definition cold_start : World :=
  mkWorld started_dispatcher [alice_row] [] [].

(** What the persistence object holds for her in the middle of the
    memes conversation. *)
Definition browsing_memes : YDBPersistence :=
  mkYDBPersistence
    (Some {[ 7 := JObj {[ "seen_memes" := JArr [JInt 4] ]} ]})
    (Some {[ "mortuary_conv" :=
               {[ [7] := JStr "MORTUARY_CHOOSE_ACTION" ]} ]}).


(** A persistence object in which her scratch entry exists and is
    empty, as it is once a callback has run for her. *)
Definition empty_scratch : YDBPersistence :=
  mkYDBPersistence (Some {[ 7 := JObj ∅ ]}) None.

(** A new user starts the conversation ["C"]: the table has no row for
    her, the entry point registers her ([upsert_new_user], as [start]
    does) and returns the state ["A"]; the next event brings the
    conversation to its end. *)
Definition conv_C : ConversationHandler :=
  mkConversationHandler "C" true false false true ∅.

Definition dispatcher_C : PersistentDispatcher :=
  let d := mkDispatcher (Some (mkYDBPersistence None None)) ∅ [] ∅ in
  (add_handler (Conversation conv_C) 0 d).2.

Definition new_user : World := mkWorld dispatcher_C [] [] [].

Definition after_entry : World :=
  (process_update (Readable (Some update_from_alice))
     (Some [Issue (upsert_new_user_query alice);
            Transition 0 0 (JStr "A")])
     new_user).2.

Definition after_end : World :=
  (process_update (Readable (Some update_from_alice))
     (Some [Transition 0 0 Ptb.END])
     after_entry).2.

(** The same second event in a process started afresh. *)
Definition after_end_cold : World :=
  (process_update (Readable (Some update_from_alice))
     (Some [Transition 0 0 Ptb.END])
     (mkWorld dispatcher_C (users after_entry) [] [])).2.

(** The documents stored for a user, one per row of hers. *)
Definition stored_for (user_id : Z) (w : World) : list (option Value) :=
  (λ row : Ydb.Row, row !! data_column) <$> rows_of user_id (users w).

(** Another user's row, with a stored document. *)
Definition bob_row : Row :=
  <[data_column := VJson (JObj {[ "user_data" := JObj ∅ ]})]>
    (<[first_name_column := VUtf8 "Bob"]>
       {[user_id_column := VUint64 8]}).

(** Alice opens the memes conversation and is shown a meme: the callback
    notes the meme and returns the next state. *)
Definition shows_meme : option (list Action) :=
  Some [Scratch (λ user_data, <["seen_memes" := JArr [JInt 4]]> user_data);
        Transition 0 0 (JStr "MORTUARY_CHOOSE_ACTION")].

Definition after_meme : World :=
  (load_and_dispatch update_from_alice alice shows_meme cold_start).2.

(* ===================================================================== *)
(** ** More vocabulary: the table around a write *)
(* ===================================================================== *)

(** What the write of [update_database] makes of a row of the user. *)
Definition written (user_id : Z) (error : json) (p : YDBPersistence)
    (r : Row) : Row :=
  if truthy error
  then delete meetings_ts_column (delete data_column r)
  else <[data_column := VJson (_dump_into_json user_id p)]> r.

(** Is this row one of the user's? *)
Definition row_of (user_id : Z) (r : Row) : bool :=
  bool_decide (r !! user_id_column = Some (VUint64 user_id)).

(** The store answers the next [n] calls. *)
Definition store_up (n : nat) (w : World) : Prop :=
  ∀ i, (i < n)%nat → outages w !! i ≠ Some true.

(** A persistence object that holds nothing, as in a process that has
    just registered its handlers ([get_conversations] has then made
    [_conversations] an empty dictionary). *)
Definition blank (p : YDBPersistence) : Prop :=
  default ∅ (_user_data p) = ∅ ∧ default ∅ (_conversations p) = ∅.

(** A computation under which a property of the table is stable,
    whatever its outcome. *)
Definition preserves {A} (P : Table → Prop) (m : M A) : Prop :=
  ∀ w, P (users w) → P (users (m w).2).



(** A dispatcher as a run of successful registrations leaves it:
    well-formed, every group has its list of handlers, and [groups] is
    in ascending order (the order in which the groups are visited). *)
Definition registry (d : PersistentDispatcher) : Prop :=
  well_formed d
  ∧ (∀ g, g ∈ groups d → is_Some (handlers d !! g))
  ∧ Sorted Z.le (groups d).

(** The handler the library stores for a registration: a persistent
    conversation starts from the states stored under its name. *)
Definition attached (handler : Handler) (p : YDBPersistence) : Handler :=
  match handler with
  | Conversation h =>
      if persistent h && negb (bool_decide (name h = ""))
      then Conversation
             (set_conversations
                (default ∅ (default ∅ (_conversations p) !! name h)) h)
      else handler
  | Plain => Plain
  end.

(* ===================================================================== *)
(** ** [src/database.py]: the other writes to the [users] table *)
(* ===================================================================== *)

Section Store.
(** Two expressions are evaluated by the store: [COALESCE(usage, 0) + 1]
    (on the cell of a column whose type is the table's) and
    [CAST(s AS Timestamp)] ([None] is [NULL]).  The engine does not
    depend on what they give. *)
Variable incremented : option Value → Value.
Variable cast_timestamp : string → option Value.

(** The statement of [update_usage], as the store reads it. *)
Definition increment_usage (ps : Parameters) (t : Table)
    : Table * list ResultSet :=
  ((λ r, if where_eq user_id_column "$user_id" ps r
         then <[usage_column := incremented (r !! usage_column)]> r
         else r) <$> t,
   []).

(** [YDBClient.update_usage]. *)
Definition update_usage_query (user_id : Z) : Query :=
  let declarations := "DECLARE $user_id AS Uint64;" in
  mkQuery
    (nl +:+ line 12 declarations
        +:+ line 12 ""
        +:+ line 12 ("UPDATE " +:+ users_table)
        +:+ line 12 ("SET " +:+ usage_column +:+ " = COALESCE("
                     +:+ usage_column +:+ ", 0) + 1")
        +:+ line 12 ("WHERE " +:+ user_id_column +:+ " = $user_id")
        +:+ spaces 8)
    [("$user_id", VUint64 user_id)]
    (SOther increment_usage).

Definition update_usage (user_id : Z) : M unit :=
  execute_query (update_usage_query user_id);; mret tt.

(** The statement of [update_user_meetings] when a timestamp is set. *)
Definition set_meetings_ts (ps : Parameters) (t : Table)
    : Table * list ResultSet :=
  ((λ r, if where_eq user_id_column "$user_id" ps r
         then match param "$meetings_ts" ps with
              | Some (VUtf8 s) =>
                  match cast_timestamp s with
                  | Some v => <[meetings_ts_column := v]> r
                  | None => delete meetings_ts_column r
                  end
              | _ => delete meetings_ts_column r
              end
         else r) <$> t,
   []).

(** [YDBClient.update_user_meetings].  [meetings_ts] is the string the
    caller keeps in [user_data], or [False] ([None] here); it is tested
    for truth, so the empty string removes the timestamp too. *)
Definition update_user_meetings_query (user_id : Z)
    (meetings_ts : option string) : Query :=
  let declarations := "DECLARE $user_id AS Uint64;" in
  let parameters := [("$user_id", VUint64 user_id)] in
  let set_it :=
    match meetings_ts with
    | Some s => negb (bool_decide (s = ""))
    | None => false
    end in
  let declarations :=
    if set_it then declarations +:+ " DECLARE $meetings_ts AS Utf8;"
    else declarations in
  let value := if set_it then "CAST($meetings_ts AS Timestamp)" else "NULL" in
  let parameters :=
    match meetings_ts with
    | Some s => if set_it then parameters ++ [("$meetings_ts", VUtf8 s)]
                else parameters
    | None => parameters
    end in
  mkQuery
    (nl +:+ line 12 declarations
        +:+ line 12 ""
        +:+ line 12 ("UPDATE " +:+ users_table)
        +:+ line 12 ("SET " +:+ meetings_ts_column +:+ " = " +:+ value)
        +:+ line 12 ("WHERE " +:+ user_id_column +:+ " = $user_id")
        +:+ spaces 8)
    parameters
    (if set_it then SOther set_meetings_ts
     else SUpdate users_table [(meetings_ts_column, ENull)]
                  user_id_column "$user_id").

Definition update_user_meetings (user_id : Z) (meetings_ts : option string)
    : M unit :=
  execute_query (update_user_meetings_query user_id meetings_ts);; mret tt.

(** [handlers.on_every], the handler of group 1 (its log line is not
    modelled): the usage count of the update's user. *)
Definition on_every (update : Update) : M unit :=
  match effective_user update with
  | None => raise AttributeError
  | Some u => update_usage (id u)
  end.

(** [YDBClient.get_meetings_profile].  The three aggregates run on the
    index [meetings_index] and compare timestamps; the row they give is
    the store's to compute ([aggregate]).  [after_ts] and [before_ts] are
    strings or [None]. *)
Inductive Bound : Type := Unbounded | After | Before.

Variable aggregate : Bound → Parameters → Table → ResultSet.

Definition meetings_index : string := "meetings_index".

Definition meetings_profile_text (bound : Bound) : string :=
  match bound with
  | Unbounded =>
      nl +:+ line 15 "SELECT"
         +:+ line 15 "COUNT(*) AS num_users,"
         +:+ line 15 ("MAX_BY(" +:+ data_column +:+ ", "
                      +:+ meetings_ts_column +:+ ") AS user_data")
         +:+ line 15 ("FROM " +:+ users_table +:+ " VIEW "
                      +:+ meetings_index)
         +:+ line 15 ("WHERE " +:+ meetings_ts_column +:+ " IS NOT NULL")
         +:+ spaces 12
  | After =>
      nl +:+ line 15 "DECLARE $after_ts AS Utf8;"
         +:+ line 12 ""
         +:+ line 15 "SELECT"
         +:+ line 15 "COUNT(*) AS num_users,"
         +:+ line 15 ("MIN_BY(" +:+ data_column +:+ ", "
                      +:+ meetings_ts_column +:+ ") AS user_data")
         +:+ line 15 ("FROM " +:+ users_table +:+ " VIEW "
                      +:+ meetings_index)
         +:+ line 15 ("WHERE " +:+ meetings_ts_column
                      +:+ " > CAST($after_ts AS Timestamp)")
         +:+ spaces 12
  | Before =>
      nl +:+ line 15 "DECLARE $before_ts AS Utf8;"
         +:+ line 15 ""
         +:+ line 15 "SELECT"
         +:+ line 15 "COUNT(*) AS num_users,"
         +:+ line 15 ("MAX_BY(" +:+ data_column +:+ ", "
                      +:+ meetings_ts_column +:+ ") AS user_data")
         +:+ line 15 ("FROM " +:+ users_table +:+ " VIEW "
                      +:+ meetings_index)
         +:+ line 15 ("WHERE " +:+ meetings_ts_column
                      +:+ " < CAST($before_ts AS Timestamp)")
         +:+ spaces 12
  end.

Definition meetings_profile_query (bound : Bound)
    (parameters : Parameters) : Query :=
  mkQuery (meetings_profile_text bound) parameters
          (SOther (λ ps t, (t, [aggregate bound ps t]))).

Definition get_meetings_profile (after_ts before_ts : option string)
    : M (option Value * json) :=
  query ←
    match after_ts, before_ts with
    | None, None => mret (meetings_profile_query Unbounded [])
    | Some a, None =>
        mret (meetings_profile_query After [("$after_ts", VUtf8 a)])
    | None, Some b =>
        mret (meetings_profile_query Before [("$before_ts", VUtf8 b)])
    | Some _, Some _ =>
        raise (ValueError
          "after_ts and before_ts could not be not None at the same time")
    end;
  result_sets ← execute_query query;
  match result_sets with
  | [] => raise IndexError
  | result_set :: _ =>
      match result_set with
      | [] => raise IndexError
      | row :: _ =>
          let num_users := row !! "num_users" in
          match row !! "user_data" with
          | None => mret (num_users, JObj ∅)
          | Some (VJson (JObj document)) =>
              mret (num_users, dict_get "user_data" document)
          | Some (VJson _) => raise AttributeError
          | Some _ => raise (ValueError "Expected object or value")
          end
      end
  end.

End Store.

(** A query that leaves the rows of every other user where and as they
    are. *)
Definition private (user_id : Z) (q : Query) : Prop :=
  ∀ (t : Table) (i : nat) (row : Row),
    t !! i = Some row →
    row !! user_id_column ≠ Some (VUint64 user_id) →
    (exec users_table user_id_column (statement q) (parameters q) t).1 !! i
    = Some row.

(* ===================================================================== *)
(** ** [src/helpers.py]: [decode_entities] *)
(* ===================================================================== *)

From stdpp Require Import pretty.

Open Scope string_scope.
Open Scope list_scope.
Open Scope Z_scope.

Module Helpers.

(** A Python [str] is the list of its code points.  [lit] is an ASCII
    literal of the source. *)
Abbreviation pystr := (list Z).

Definition lit (s : string) : pystr :=
  (λ a, Z.of_N (N_of_ascii a)) <$> list_ascii_of_string s.

(** [str.encode('utf-16-le')] and [bytes.decode('utf-16-le')], on the
    16-bit code units the bytes spell two by two.  A surrogate code
    point cannot be encoded; a low surrogate that follows no high one,
    or a high one that no low one follows, cannot be decoded. *)
Definition is_high (u : Z) : bool := (0xD800 <=? u) && (u <? 0xDC00).
Definition is_low (u : Z) : bool := (0xDC00 <=? u) && (u <? 0xE000).

Definition encode_point (c : Z) : option (list Z) :=
  if (c <? 0) || is_high c || is_low c then None
  else if c <? 0x10000 then Some [c]
  else if c <? 0x110000
  then Some [0xD800 + (c - 0x10000) / 0x400;
             0xDC00 + (c - 0x10000) mod 0x400]
  else None.

Fixpoint encode (s : pystr) : option (list Z) :=
  match s with
  | [] => Some []
  | c :: s' =>
      match encode_point c, encode s' with
      | Some us, Some us' => Some (us ++ us')
      | _, _ => None
      end
  end.

Fixpoint decode (us : list Z) : option pystr :=
  match us with
  | [] => Some []
  | u :: rest =>
      if is_high u
      then match rest with
           | v :: rest' =>
               if is_low v
               then cons (0x10000 + (u - 0xD800) * 0x400 + (v - 0xDC00))
                      <$> decode rest'
               else None
           | [] => None
           end
      else if is_low u then None
      else cons u <$> decode rest
  end.

(** [b[2 * i : 2 * j]] on the bytes, as code units [i] to [j]. *)
Definition slice (i j : nat) (us : list Z) : list Z :=
  take (j - i) (drop i us).

(** [telegram.MessageEntity], as far as [decode_entities] reads it
    ([offset] and [length] count code units and are not negative;
    [user] is the user of a text mention). *)
Record MessageEntity : Type := mkMessageEntity {
  type : string;
  offset : nat;
  length : nat;
  url : option pystr;
  user : option User;
  language : option pystr;
}.

(** [text.strip("@")]. *)
Fixpoint lstrip (c : Z) (s : pystr) : pystr :=
  match s with
  | x :: s' => if decide (x = c) then lstrip c s' else s
  | [] => []
  end.

Definition strip (c : Z) (s : pystr) : pystr :=
  reverse (lstrip c (reverse (lstrip c s))).

(** What replaces the text of an entity: the chain of [if]/[elif] on its
    type. *)
Definition insert (entity : MessageEntity) (text : pystr) : pystr :=
  let t := type entity in
  if decide (t = "bold") then lit "<b>" ++ text ++ lit "</b>"
  else if decide (t = "italic") then lit "<i>" ++ text ++ lit "</i>"
  else if decide (t = "underline") then lit "<u>" ++ text ++ lit "</u>"
  else if decide (t = "strikethrough")
  then lit "<s>" ++ text ++ lit "</s>"
  else if decide (t = "spoiler")
  then lit "<tg-spoiler>" ++ text ++ lit "</tg-spoiler>"
  else if decide (t = "url")
  then lit ("<a href=" +:+ quote) ++ text ++ lit (quote +:+ ">")
       ++ text ++ lit "</a>"
  else if decide (t = "mention")
  then lit ("<a href=" +:+ quote +:+ "https://t.me/") ++ strip 64 text
       ++ lit (quote +:+ ">") ++ text ++ lit "</a>"
  else
  match (if decide (t = "text_link") then url entity else None) with
  | Some link =>
      lit ("<a href=" +:+ quote) ++ link ++ lit (quote +:+ ">")
      ++ text ++ lit "</a>"
  | None =>
  match (if decide (t = "text_mention") then user entity else None) with
  | Some u =>
      lit ("<a href=" +:+ quote +:+ "tg://user?id=") ++ lit (pretty (id u))
      ++ lit (quote +:+ ">") ++ text ++ lit "</a>"
  | None =>
  if decide (t = "code") then lit "<code>" ++ text ++ lit "</code>"
  else if decide (t = "pre")
  then match language entity with
       | None => lit "<pre>" ++ text ++ lit "</pre>"
       | Some l =>
           lit ("<pre><code class=" +:+ quote) ++ l ++ lit (quote +:+ ">")
           ++ text ++ lit "</code></pre>"
       end
  else text
  end
  end.

(** [sorted(entities.items(), key=lambda item: item[0].offset)]: a
    stable sort (an item goes behind those with the same offset that
    come before it in the dictionary). *)
Fixpoint insert_by_offset (item : MessageEntity * pystr)
    (l : list (MessageEntity * pystr)) : list (MessageEntity * pystr) :=
  match l with
  | [] => [item]
  | item' :: l' =>
      if (offset item.1 <? offset item'.1)%nat
      then item :: item' :: l'
      else item' :: insert_by_offset item l'
  end.

Definition sorted (items : list (MessageEntity * pystr))
    : list (MessageEntity * pystr) :=
  foldl (λ acc item, insert_by_offset item acc) [] items.

(** What [decode_entities] comes to: [None], a string, or one of the
    two exceptions of the codec. *)
Inductive Result : Type :=
  | Returns (html_text : option pystr)
  | UnicodeEncodeError
  | UnicodeDecodeError.

(** The loop and the statement after it, on the encoded text. *)
Fixpoint render (message_text : list Z)
    (items : list (MessageEntity * pystr))
    (html_text : pystr) (last_offset : nat) : Result :=
  match items with
  | [] =>
      match decode (drop last_offset message_text) with
      | Some s => Returns (Some (html_text ++ s))
      | None => UnicodeDecodeError
      end
  | (entity, text) :: rest =>
      let insert := insert entity text in
      match decode (slice last_offset (offset entity) message_text) with
      | Some s =>
          render message_text rest (html_text ++ s ++ insert)
                 (offset entity + length entity)
      | None => UnicodeDecodeError
      end
  end.

(** [decode_entities(message_text, entities)], on an interpreter whose
    strings hold code points ([sys.maxunicode] is not [0xffff]);
    [entities] is the dictionary in its order, empty when falsy. *)
Definition decode_entities (message_text : option pystr)
    (entities : list (MessageEntity * pystr)) : Result :=
  match message_text with
  | None => Returns None
  | Some message_text =>
      match entities with
      | [] => Returns (Some message_text)
      | _ =>
          match encode message_text with
          | None => UnicodeEncodeError
          | Some units => render units (sorted entities) [] 0
          end
      end
  end.

End Helpers.

(* ===================================================================== *)
(** ** More vocabulary: a message and its entities *)
(* ===================================================================== *)

(** A message cut at its entities: before each entity a stretch of
    plain text, then the text of the entity; behind the last entity the
    rest of the message. *)
Definition Segment : Type :=
  Helpers.pystr * Helpers.MessageEntity * Helpers.pystr.

Fixpoint message_of (segments : list Segment) (rest : Helpers.pystr)
    : Helpers.pystr :=
  match segments with
  | [] => rest
  | (gap, _, text) :: segments' =>
      gap ++ text ++ message_of segments' rest
  end.

(** The same message with the text of each entity replaced by what
    [insert] makes of it. *)
Fixpoint html_of (segments : list Segment) (rest : Helpers.pystr)
    : Helpers.pystr :=
  match segments with
  | [] => rest
  | (gap, entity, text) :: segments' =>
      gap ++ Helpers.insert entity text ++ html_of segments' rest
  end.

(** The dictionary [parse_entities] gives for such a message. *)
Definition items_of (segments : list Segment)
    : list (Helpers.MessageEntity * Helpers.pystr) :=
  (λ segment : Segment, (segment.1.2, segment.2)) <$> segments.

(** The offset and the length of each entity are those of its text in
    the message, counted in UTF-16 code units from [start]. *)
Fixpoint placed (start : nat) (segments : list Segment) : Prop :=
  match segments with
  | [] => True
  | (gap, entity, text) :: segments' =>
      ∃ gap_units text_units,
        Helpers.encode gap = Some gap_units
        ∧ Helpers.encode text = Some text_units
        ∧ Helpers.offset entity = (start + length gap_units)%nat
        ∧ Helpers.length entity = length text_units
        ∧ placed (Helpers.offset entity + Helpers.length entity) segments'
  end.

(** A message with an emoji (two code units) before a bold word. *)
Definition bold_word : Helpers.MessageEntity :=
  Helpers.mkMessageEntity "bold" 6 4 None None None.

Definition greeting : list Segment :=
  [(Helpers.lit "hi " ++ [0x1F600] ++ Helpers.lit " ", bold_word,
    Helpers.lit "bold")].

(* ===================================================================== *)
(** ** More vocabulary: an update that no handler accepts *)
(* ===================================================================== *)

(** What the handlers of the bot do with an update, as [add_handlers]
    registers them: group 0 holds the business handlers and, last, the
    catch-all; [later] are the groups that follow ([on_every] is in
    group 1). *)
Definition bot_run (telegram telegram' : Telegram)
    (business : list Route) (later : list (list Route))
    (update : Update) : option (list Action) :=
  route update ((business ++ [catch_all telegram telegram']) :: later).

(** No handler of the list accepts the update. *)
Definition unmatched (update : Update) (group : list Route) : Prop :=
  Forall (λ handler, check_update handler update = false) group.

(** The callbacks of these groups are disciplined. *)
Definition disciplined_groups (update : Update)
    (groups : list (list Route)) : Prop :=
  ∀ group handler, group ∈ groups → handler ∈ group →
    Forall disciplined (handle_update handler update).

(** The user has a scratch entry and, when it is a dictionary, the
    UNKNOWN flag is set in it. *)
Definition flagged (user_id : Z) (w : World) : Prop :=
  match user_data (dispatcher w) !! user_id with
  | Some (JObj entry) => entry !! "UNKNOWN" = Some (JBool true)
  | Some _ => True
  | None => False
  end.

(** Telegram answers every call with a failure of its gateway, or lets
    every call time out. *)
Definition bad_gateway : Telegram := λ _, Tg.Failed "Bad Gateway".

Definition timing_out : Telegram := λ _, Tg.Failed "Timed out".

(** The entry point of the memes conversation, which does not accept the
    update at hand, and [on_every] of group 1 counting the use. *)
Definition memes_entry : Route :=
  mkRoute (λ _, false)
          (λ _, [Transition 0 0 (JStr "MORTUARY_CHOOSE_ACTION")]).

Definition usage_counted : Route :=
  mkRoute (λ _, true)
          (λ _, [Issue (update_usage_query (λ _, VUint64 4) 7)]).

(** A new process, with the table as the invocation that showed the meme
    left it: the stored document has the state of the memes
    conversation. *)
Definition browsing : World :=
  mkWorld started_dispatcher
    (users (process_update (Readable (Some update_from_alice)) shows_meme
              cold_start).2)
    [] [].
(* ===================================================================== *)
(** ** Running computations *)
(* ===================================================================== *)

Ltac unfold_monad :=
  unfold mbind, M_bind, mret, M_ret, raise, get_dispatcher, put_dispatcher,
         when, swallow, set_dispatcher in *.

Lemma bind_eq {A B} (m : M A) (k : A → M B) (w : World) :
  (m ≫= k) w =
    match m w with
    | (Returned a, w') => k a w'
    | (Raised e, w') => (Raised e, w')
    end.
Proof. reflexivity. Qed.

Lemma execute_query_issued (q : Query) (w : World) :
  issued (execute_query q w).2 = issued w ++ [q].
Proof.
  unfold execute_query.
  destruct (outages w) as [|[] later]; simpl;
    try destruct (exec _ _ _ _ _); reflexivity.
Qed.

Lemma execute_query_dispatcher (q : Query) (w : World) :
  dispatcher (execute_query q w).2 = dispatcher w.
Proof.
  unfold execute_query.
  destruct (outages w) as [|[] later]; simpl;
    try destruct (exec _ _ _ _ _); reflexivity.
Qed.

(** When the executor does not give up, the statement runs once. *)
Lemma execute_query_runs (q : Query) (w : World) :
  head (outages w) ≠ Some true →
  execute_query q w =
    (Returned (exec users_table user_id_column
                    (statement q) (parameters q) (users w)).2,
     mkWorld (dispatcher w)
             (exec users_table user_id_column
                   (statement q) (parameters q) (users w)).1
             (tail (outages w)) (issued w ++ [q])).
Proof.
  intros Hup. unfold execute_query.
  destruct (outages w) as [|[] later]; simpl in *;
    try congruence; destruct (exec _ _ _ _ _); reflexivity.
Qed.

(** When it gives up, nothing is stored. *)
Lemma execute_query_outage (q : Query) (w : World) :
  head (outages w) = Some true →
  execute_query q w =
    (Raised StoreError,
     mkWorld (dispatcher w) (users w) (tail (outages w)) (issued w ++ [q])).
Proof.
  intros Hdown. unfold execute_query.
  destruct (outages w) as [|[] later]; simpl in *; congruence.
Qed.

Lemma get_data_issued (user_id : Z) (w : World) :
  issued (get_data user_id w).2 = issued w ++ [get_data_query user_id].
Proof.
  unfold get_data. unfold_monad.
  pose proof (execute_query_issued (get_data_query user_id) w) as Hlog.
  destruct (execute_query (get_data_query user_id) w) as [[rs|e] w1];
    simpl in *; [|done].
  destruct rs as [|[|row [|row' rows]] rest]; simpl; try done.
  destruct (row !! data_column) as [[| |]|]; done.
Qed.

Lemma get_data_dispatcher (user_id : Z) (w : World) :
  dispatcher (get_data user_id w).2 = dispatcher w.
Proof.
  unfold get_data. unfold_monad.
  pose proof (execute_query_dispatcher (get_data_query user_id) w) as Hd.
  destruct (execute_query (get_data_query user_id) w) as [[rs|e] w1];
    simpl in *; [|done].
  destruct rs as [|[|row [|row' rows]] rest]; simpl; try done.
  destruct (row !! data_column) as [[| |]|]; done.
Qed.

Lemma update_database_issued (user_id : Z) (error : json)
    (p : YDBPersistence) (w : World) :
  issued (update_database user_id error p w).2 =
    issued w ++ [if truthy error then wipe_query user_id
                 else save_query user_id (_dump_into_json user_id p)].
Proof.
  unfold update_database. unfold_monad.
  destruct (truthy error).
  - pose proof (execute_query_issued (wipe_query user_id) w).
    destruct (execute_query _ w) as [[rs|e] w1]; done.
  - pose proof (execute_query_issued
                  (save_query user_id (_dump_into_json user_id p)) w).
    destruct (execute_query _ w) as [[rs|e] w1]; done.
Qed.

Lemma update_database_dispatcher (user_id : Z) (error : json)
    (p : YDBPersistence) (w : World) :
  dispatcher (update_database user_id error p w).2 = dispatcher w.
Proof.
  unfold update_database. unfold_monad.
  destruct (truthy error).
  - pose proof (execute_query_dispatcher (wipe_query user_id) w).
    destruct (execute_query _ w) as [[rs|e] w1]; done.
  - pose proof (execute_query_dispatcher
                  (save_query user_id (_dump_into_json user_id p)) w).
    destruct (execute_query _ w) as [[rs|e] w1]; done.
Qed.

Lemma drop_issued (l : list Query) (new : list Query) :
  drop (length l) (l ++ new) = new.
Proof. by rewrite drop_app_length. Qed.


(** *** Reading the table *)

Lemma where_user_id (user_id : Z) (r : Row) :
  where_eq user_id_column "$user_id" [("$user_id", VUint64 user_id)] r
  ↔ r !! user_id_column = Some (VUint64 user_id).
Proof.
  unfold where_eq. simpl.
  destruct (r !! user_id_column) as [v|]; simpl.
  - rewrite bool_decide_spec. split; congruence.
  - split; [intros [] | congruence].
Qed.

Lemma select_rows_of (user_id : Z) (t : Table) :
  filter (λ r, where_eq user_id_column "$user_id"
                        [("$user_id", VUint64 user_id)] r) t
  = rows_of user_id t.
Proof. apply list_filter_iff. intros r. apply where_user_id. Qed.

Lemma project_lookup (column : string) (r : Row) :
  project column r !! column = r !! column.
Proof.
  unfold project. destruct (r !! column) eqn:E.
  - by rewrite lookup_singleton_eq.
  - by rewrite lookup_empty.
Qed.

(** The read, executed: the result by the number of rows found. *)
Lemma get_data_result (user_id : Z) (w : World) :
  head (outages w) ≠ Some true →
  (get_data user_id w).1 =
    match rows_of user_id (users w) with
    | [] => Returned (JObj ∅)
    | [row] =>
        match row !! data_column with
        | None => Returned (JObj ∅)
        | Some (VJson document) => Returned document
        | Some _ => Raised (ValueError "Expected object or value")
        end
    | _ => Raised (LookupError users_table user_id)
    end.
Proof.
  intros Hup. unfold get_data. rewrite bind_eq.
  rewrite execute_query_runs by done. simpl.
  rewrite select_rows_of.
  destruct (rows_of user_id (users w)) as [|row [|row' rows]]; simpl;
    try reflexivity.
  rewrite project_lookup.
  destruct (row !! data_column) as [[| |]|]; reflexivity.
Qed.

(* ===================================================================== *)
(** ** The document: serializing and loading *)
(* ===================================================================== *)

Lemma is_not_None_true (v : json) : is_not_None v = true ↔ v ≠ JNull.
Proof.
  unfold is_not_None. rewrite negb_true_iff, bool_decide_eq_false. done.
Qed.

Lemma is_not_None_false (v : json) : is_not_None v = false ↔ v = JNull.
Proof.
  unfold is_not_None. rewrite negb_false_iff, bool_decide_eq_true. done.
Qed.

Lemma dict_get_empty {K} `{Countable K} (k : K) : dict_get k ∅ = JNull.
Proof. unfold dict_get. by rewrite lookup_empty. Qed.

Lemma dict_get_insert {K} `{Countable K} (k : K) (v : json)
    (d : gmap K json) :
  dict_get k (<[k := v]> d) = v.
Proof. unfold dict_get. by rewrite lookup_insert_eq. Qed.

Lemma dict_get_insert_ne {K} `{Countable K} (k k' : K) (v : json)
    (d : gmap K json) :
  k' ≠ k → dict_get k (<[k' := v]> d) = dict_get k d.
Proof. intros. unfold dict_get. by rewrite lookup_insert_ne. Qed.

Lemma truthy_not_None (v : json) : truthy v = true → v ≠ JNull.
Proof. by intros Ht ->. Qed.

Lemma dump_document (user_id : Z) (p : YDBPersistence) :
  _dump_into_json user_id p =
    JObj (document (scratch_of user_id p) (states_of user_id p)).
Proof.
  unfold _dump_into_json, document, scratch_of, states_of. f_equal.
  assert (Hscratch :
    match _user_data p with
    | Some all_user_data =>
        if is_not_None (dict_get user_id all_user_data)
        then <["user_data" := dict_get user_id all_user_data]> ∅
        else (∅ : gmap string json)
    | None => ∅
    end =
    if is_not_None (dict_get user_id (default ∅ (_user_data p)))
    then {["user_data" := dict_get user_id (default ∅ (_user_data p))]}
    else ∅).
  { destruct (_user_data p) as [ud|]; simpl.
    - by rewrite insert_empty.
    - unfold dict_get. by rewrite lookup_empty. }
  rewrite Hscratch. clear Hscratch.
  set (m := if is_not_None _ then _ else _).
  destruct (_conversations p) as [cs|]; simpl.
  - fold (state_of user_id).
    by destruct (bool_decide (omap (state_of user_id) cs = ∅)).
  - rewrite omap_empty. by rewrite bool_decide_eq_true_2.
Qed.

Lemma state_of_not_None (user_id : Z) (conv_data : gmap (list Z) json)
    (s : json) :
  state_of user_id conv_data = Some s → s ≠ JNull.
Proof.
  unfold state_of. destruct (is_not_None _) eqn:E; [|done].
  intros [= <-]. by apply is_not_None_true.
Qed.

Lemma states_of_not_None (user_id : Z) (p : YDBPersistence)
    (conv_name : string) (s : json) :
  states_of user_id p !! conv_name = Some s → s ≠ JNull.
Proof.
  unfold states_of. rewrite lookup_omap.
  destruct (default ∅ (_conversations p) !! conv_name) as [c|]; [|done].
  simpl. apply state_of_not_None.
Qed.

Lemma document_user_data (scratch : json) (states : gmap string json) :
  dict_get "user_data" (document scratch states) = scratch.
Proof.
  unfold document, dict_get.
  destruct (is_not_None scratch) eqn:E; destruct (bool_decide _);
    rewrite ?lookup_insert_ne, ?lookup_singleton_eq, ?lookup_empty by done;
    simpl; try done; symmetry; by apply is_not_None_false.
Qed.

Lemma document_conversations (scratch : json) (states : gmap string json) :
  dict_get "conversations" (document scratch states) =
    if bool_decide (states = ∅) then JNull else JObj states.
Proof.
  unfold document, dict_get.
  destruct (is_not_None scratch); destruct (bool_decide _);
    rewrite ?lookup_insert_eq, ?lookup_singleton_ne, ?lookup_empty by done;
    done.
Qed.

Lemma document_dom (scratch : json) (states : gmap string json) :
  dom (document scratch states)
  ⊆ ({["user_data"; "conversations"]} : gset string).
Proof.
  unfold document.
  destruct (is_not_None scratch); destruct (bool_decide _);
    rewrite ?dom_insert_L, ?dom_singleton_L, ?dom_empty_L; set_solver.
Qed.

(** Loading conversation states into a persistence object that has none
    under these names. *)
Lemma load_states (user_id : Z) (p : YDBPersistence)
    (states : gmap string json) :
  let p' := map_fold (λ conv_name state,
                        Ptb.update_conversation conv_name [user_id] state)
                     p states in
  (∀ n s, states !! n = Some s → s ≠ JNull) →
  (∀ n, is_Some (states !! n) → default ∅ (_conversations p) !! n = None) →
  _user_data p' = _user_data p
  ∧ ∀ n, default ∅ (_conversations p') !! n =
           match states !! n with
           | Some s => Some {[ [user_id] := s ]}
           | None => default ∅ (_conversations p) !! n
           end.
Proof.
  simpl.
  apply (map_fold_weak_ind
    (λ r m,
       (∀ n s, m !! n = Some s → s ≠ JNull) →
       (∀ n, is_Some (m !! n) → default ∅ (_conversations p) !! n = None) →
       _user_data r = _user_data p
       ∧ ∀ n, default ∅ (_conversations r) !! n =
                match m !! n with
                | Some s => Some {[ [user_id] := s ]}
                | None => default ∅ (_conversations p) !! n
                end)).
  - intros _ _. split; [done|]. intros n. by rewrite lookup_empty.
  - intros i x m r Hi IH Hnn Hfree.
    destruct IH as [IHu IHc].
    { intros n s Hn. apply (Hnn n). rewrite lookup_insert_ne; [done|].
      intros ->. congruence. }
    { intros n Hn. apply Hfree. rewrite lookup_insert_ne; [done|].
      intros ->. rewrite Hi in Hn. by destruct Hn. }
    assert (Hx : x ≠ JNull) by (apply (Hnn i); by rewrite lookup_insert_eq).
    assert (Hri : default ∅ (_conversations r) !! i = None).
    { rewrite IHc, Hi. apply Hfree. rewrite lookup_insert_eq. eauto. }
    unfold Ptb.update_conversation.
    replace (match _conversations r with Some c => c | None => ∅ end)
      with (default ∅ (_conversations r)) by (by destruct (_conversations r)).
    rewrite Hri. simpl. rewrite dict_get_empty.
    destruct (decide (JNull = x)) as [|_]; [congruence|]. simpl.
    split; [done|]. intros n.
    destruct (decide (n = i)) as [->|Hne].
    + by rewrite !lookup_insert_eq, insert_empty.
    + rewrite !lookup_insert_ne by done. apply IHc.
Qed.

(** Loading a serialized document into a new process restores what was
    serialized. *)
Lemma load_document (user_id : Z) (scratch : json)
    (states : gmap string json) :
  (∀ n s, states !! n = Some s → s ≠ JNull) →
  ∃ p, update_data user_id (JObj (document scratch states)) fresh_persistence
       = (Returned tt, p)
       ∧ scratch_of user_id p = scratch
       ∧ states_of user_id p = states.
Proof.
  intros Hnn. unfold update_data.
  rewrite document_user_data, document_conversations.
  set (p1 := if is_not_None scratch
             then Ptb.update_user_data user_id scratch fresh_persistence
             else fresh_persistence).
  assert (scratch_of user_id p1 = scratch
          ∧ _conversations p1 = None) as [Hs1 Hc1].
  { unfold p1, scratch_of, Ptb.update_user_data.
    destruct (is_not_None scratch) eqn:E; simpl.
    - rewrite dict_get_empty.
      apply is_not_None_true in E.
      destruct (decide (JNull = scratch)); [congruence|]. simpl.
      by rewrite dict_get_insert.
    - apply is_not_None_false in E. by rewrite E. }
  destruct (bool_decide (states = ∅)) eqn:Hempty; simpl.
  - apply bool_decide_eq_true in Hempty. subst states.
    exists p1. split; [done|]. split; [done|].
    unfold states_of. rewrite Hc1. simpl. by rewrite omap_empty.
  - eexists. split; [reflexivity|].
    destruct (load_states user_id p1 states) as [Hu Hc]; [done| |].
    { intros n _. by rewrite Hc1. }
    split.
    + unfold scratch_of in *. by rewrite Hu.
    + unfold states_of. apply map_eq. intros n.
      rewrite lookup_omap, Hc, Hc1. simpl.
      destruct (states !! n) as [s|] eqn:Hn; simpl; [|done].
      unfold state_of, dict_get. rewrite lookup_singleton_eq. simpl.
      assert (is_not_None s = true) as ->; [|done].
      apply is_not_None_true. by apply (Hnn n).
Qed.

(** Round trip on every stored document, without side conditions. *)
Lemma roundtrip_stored (doc : json) (user_id : Z) :
  stored_document doc →
  ∃ p, update_data user_id doc fresh_persistence = (Returned tt, p)
       ∧ _dump_into_json user_id p = doc.
Proof.
  intros (uid0 & p0 & ->). rewrite dump_document.
  destruct (load_document user_id (scratch_of uid0 p0) (states_of uid0 p0))
    as (p & Hload & Hs & Hc).
  { intros n s. apply states_of_not_None. }
  exists p. split; [done|]. by rewrite dump_document, Hs, Hc.
Qed.

(* ===================================================================== *)
(** ** The stages of an invocation *)
(* ===================================================================== *)

Lemma process_update_stages (update : Update) (u : User)
    (run : option (list Action)) (w : World) :
  effective_user update = Some u →
  process_update (Readable (Some update)) run w =
    (load_and_dispatch update u run;; strip_and_save update u) w.
Proof.
  intros Hu. unfold process_update, load_and_dispatch, strip_and_save.
  rewrite Hu. unfold_monad.
  destruct (load_persistence_data (id u) w) as [[[]|e] w1]; [|done].
  destruct (Dispatcher_process_update update run w1) as [[[]|e] w2]; done.
Qed.

(** *** Loading *)

Lemma visit_groups_reload_no_exn (gs : list Z)
    (hs : gmap Z (list Handler)) (p : YDBPersistence) :
  (Ptb.visit_groups reload gs hs p).1.1 = None.
Proof.
  assert (Hvisit : ∀ l q, (Ptb.visit reload l q).1.1 = None).
  { induction l as [|h l IH]; intros q; [done|]. simpl.
    destruct (reload h q) as [[h'|e] q1] eqn:Hr.
    - specialize (IH q1). destruct (Ptb.visit reload l q1) as [[e' l'] q2].
      done.
    - unfold reload in Hr. destruct h as [c|]; [|done].
      destruct (persistent c); [|done].
      by destruct (Ptb.get_conversations (name c) q). }
  revert hs p. induction gs as [|g gs IH]; intros hs p; [done|]. simpl.
  destruct (hs !! g) as [l|]; [|apply IH].
  specialize (Hvisit l p).
  destruct (Ptb.visit reload l p) as [[e l'] p1]. simpl in Hvisit.
  subst e. apply IH.
Qed.

(** The load issues the one read, and nothing else, whatever it finds. *)
Lemma load_persistence_data_issued (user_id : Z) (w : World) :
  issued (load_persistence_data user_id w).2 =
    issued w ++ match persistence (dispatcher w) with
                | Some _ => [get_data_query user_id]
                | None => []
                end.
Proof.
  unfold load_persistence_data. unfold_monad.
  destruct (persistence (dispatcher w)) as [p|] eqn:Hp; simpl;
    [|by rewrite app_nil_r].
  pose proof (get_data_issued user_id w) as Hlog.
  destruct (get_data user_id w) as [[data|e] w1]; simpl in *; [|done].
  destruct (update_data user_id data p) as [[[]|e] p1]; simpl; [|done].
  destruct (Ptb.get_user_data p1) as [ud p2]. simpl.
  destruct (Ptb.visit_groups _ _ _ _) as [[e hs] p3]. done.
Qed.

Lemma load_persistence_data_persistence (user_id : Z) (w : World) :
  is_Some (persistence (dispatcher (load_persistence_data user_id w).2))
  ↔ is_Some (persistence (dispatcher w)).
Proof.
  unfold load_persistence_data. unfold_monad.
  destruct (persistence (dispatcher w)) as [p|] eqn:Hp; simpl;
    [|by rewrite Hp].
  pose proof (get_data_dispatcher user_id w) as Hd.
  destruct (get_data user_id w) as [[data|e] w1]; simpl in *;
    [|by rewrite Hd, Hp].
  destruct (update_data user_id data p) as [[[]|e] p1]; simpl.
  - destruct (Ptb.get_user_data p1) as [ud p2]. simpl.
    destruct (Ptb.visit_groups _ _ _ _) as [[e hs] p3]. simpl.
    split; eauto.
  - split; eauto.
Qed.

(** *** Dispatch *)

Lemma run_action_returns (update : Update) (a : Action) (w : World) :
  ∃ w', run_action update a w = (Returned tt, w')
        ∧ issued w' = issued w
                      ++ match a with Issue q => [q] | _ => [] end
        ∧ (is_Some (persistence (dispatcher w'))
           ↔ is_Some (persistence (dispatcher w))).
Proof.
  destruct a as [callback|group index new_state|q]; simpl; unfold_monad.
  - destruct (effective_user update) as [u|];
      [|eexists; by rewrite app_nil_r].
    destruct (user_data (dispatcher w) !! id u) as [[| | | | |entry]|];
      eexists; by rewrite app_nil_r.
  - destruct (handlers (dispatcher w) !! group) as [l|];
      [|eexists; by rewrite app_nil_r].
    destruct (l !! index) as [[h|]|]; try (eexists; by rewrite app_nil_r).
    destruct (Ptb._get_key h update) as [key|e];
      [|eexists; by rewrite app_nil_r].
    destruct (Ptb._update_state new_state key h _) as [h' p'] eqn:Hst.
    eexists. split; [done|]. simpl. split; [by rewrite app_nil_r|].
    unfold Ptb._update_state in Hst.
    repeat match type of Hst with
           | context [if ?b then _ else _] => destruct b
           | context [match ?x with _ => _ end] => destruct x
           end; simplify_eq; try done;
      destruct (persistence (dispatcher w)); simpl;
      split; intros [? ?]; eauto; done.
  - eexists. split; [done|].
    rewrite execute_query_issued, execute_query_dispatcher. done.
Qed.

Lemma run_actions_returns (update : Update) (actions : list Action)
    (w : World) :
  ∃ w', run_actions update actions w = (Returned tt, w')
        ∧ issued w' = issued w ++ handler_queries (Some actions)
        ∧ (is_Some (persistence (dispatcher w'))
           ↔ is_Some (persistence (dispatcher w))).
Proof.
  revert w. induction actions as [|a rest IH]; intros w.
  - exists w. simpl. by rewrite app_nil_r.
  - simpl. unfold_monad.
    destruct (run_action_returns update a w) as (w1 & -> & Hlog1 & Hp1).
    destruct (IH w1) as (w2 & -> & Hlog2 & Hp2).
    exists w2. split; [done|]. split; [|by rewrite Hp2].
    rewrite Hlog2, Hlog1, <- app_assoc. f_equal.
    simpl. by destruct a.
Qed.

Lemma update_persistence_is_Some (update : Update)
    (d : PersistentDispatcher) :
  is_Some (persistence (Ptb.update_persistence update d))
  ↔ is_Some (persistence d).
Proof.
  unfold Ptb.update_persistence.
  destruct (persistence d) as [p|] eqn:Hp; [|by rewrite Hp].
  destruct (effective_user update); simpl; [|by rewrite Hp].
  split; eauto.
Qed.

Lemma update_persistence_returns (update : Update) (w : World) :
  ∃ w', update_persistence update w = (Returned tt, w')
        ∧ issued w' = issued w
        ∧ (is_Some (persistence (dispatcher w'))
           ↔ is_Some (persistence (dispatcher w))).
Proof.
  unfold update_persistence. unfold_monad. eexists. split; [done|].
  simpl. split; [done|]. apply update_persistence_is_Some.
Qed.

Lemma from_update_returns (update : Update) (w : World) :
  ∃ w', from_update update w = (Returned tt, w')
        ∧ issued w' = issued w
        ∧ persistence (dispatcher w') = persistence (dispatcher w).
Proof.
  unfold from_update. unfold_monad.
  destruct (effective_user update) as [u|]; [|by eexists].
  destruct (user_data (dispatcher w) !! id u); by eexists.
Qed.

(** Dispatch never raises; it adds the queries of the callbacks. *)
Lemma Dispatcher_process_update_returns (update : Update)
    (run : option (list Action)) (w : World) :
  ∃ w', Dispatcher_process_update update run w = (Returned tt, w')
        ∧ issued w' = issued w ++ handler_queries run
        ∧ (is_Some (persistence (dispatcher w'))
           ↔ is_Some (persistence (dispatcher w))).
Proof.
  unfold Dispatcher_process_update.
  destruct run as [actions|]; [|exists w; simpl; by rewrite app_nil_r].
  rewrite bind_eq.
  destruct (from_update_returns update w) as (w0 & -> & Hlog0 & Hp0).
  rewrite bind_eq.
  destruct (run_actions_returns update actions w0) as (w1 & -> & Hlog1 & Hp1).
  destruct (update_persistence_returns update w1) as (w2 & -> & Hlog2 & Hp2).
  exists w2. split; [done|].
  split; [by rewrite Hlog2, Hlog1, Hlog0|].
  by rewrite Hp2, Hp1, Hp0.
Qed.

(** *** Stripping the flags and saving *)

Lemma pop_flag_frame (user_id : Z) (flag : string) (w : World) :
  issued (pop_flag user_id flag w).2 = issued w
  ∧ persistence (dispatcher (pop_flag user_id flag w).2)
    = persistence (dispatcher w).
Proof.
  unfold pop_flag. unfold_monad.
  destruct (user_data (dispatcher w) !! user_id) as [[| | | | |entry]|];
    try done.
  by destruct (entry !! flag).
Qed.

Lemma visit_persistence_is_Some (update : Update) (l : list Handler)
    (p : option YDBPersistence) :
  is_Some (Ptb.visit (end_conversation update) l p).2 ↔ is_Some p.
Proof.
  revert p. induction l as [|h l IH]; intros p; [done|]. simpl.
  destruct (end_conversation update h p) as [[h'|e] p1] eqn:Hstep.
  - specialize (IH p1).
    destruct (Ptb.visit (end_conversation update) l p1) as [[e l'] p2].
    simpl in *. rewrite IH. clear IH.
    unfold end_conversation in Hstep. destruct h as [c|]; [|by simplify_eq].
    destruct (Ptb._get_key c update) as [key|]; [|done].
    destruct (Ptb._update_state Ptb.END key c p) as [c' p'] eqn:Hst.
    simplify_eq. unfold Ptb._update_state in Hst.
    repeat match type of Hst with
           | context [if ?b then _ else _] => destruct b
           | context [match ?x with _ => _ end] => destruct x
           end; simplify_eq; try done;
      destruct p; simpl; split; intros [? ?]; eauto; done.
  - simpl. unfold end_conversation in Hstep. destruct h as [c|]; [|done].
    destruct (Ptb._get_key c update) as [key|]; [|by simplify_eq].
    by destruct (Ptb._update_state Ptb.END key c p).
Qed.

Lemma visit_groups_persistence_is_Some (update : Update) (gs : list Z)
    (hs : gmap Z (list Handler)) (p : option YDBPersistence) :
  is_Some (Ptb.visit_groups (end_conversation update) gs hs p).2
  ↔ is_Some p.
Proof.
  revert hs p. induction gs as [|g gs IH]; intros hs p; [done|]. simpl.
  destruct (hs !! g) as [l|]; [|apply IH].
  pose proof (visit_persistence_is_Some update l p) as Hl.
  destruct (Ptb.visit (end_conversation update) l p) as [[[e|] l'] p1];
    simpl in *; [done|].
  by rewrite IH.
Qed.

Lemma end_conversations_frame (update : Update) (w : World) :
  issued (end_conversations update w).2 = issued w
  ∧ (is_Some (persistence (dispatcher (end_conversations update w).2))
     ↔ is_Some (persistence (dispatcher w))).
Proof.
  unfold end_conversations. unfold_monad.
  pose proof (visit_groups_persistence_is_Some update
                (groups (dispatcher w)) (handlers (dispatcher w))
                (persistence (dispatcher w))) as Hp.
  destruct (Ptb.visit_groups _ _ _ _) as [[[e|] hs] p]; done.
Qed.

(** What the second half adds to the log: at most the one write. *)
Lemma strip_and_save_issued (update : Update) (u : User) (w : World) :
  ∃ writes,
    issued (strip_and_save update u w).2 = issued w ++ writes
    ∧ (writes = []
       ∨ is_Some (persistence (dispatcher w))
         ∧ (writes = [wipe_query (id u)]
            ∨ ∃ document, writes = [save_query (id u) document]))
    ∧ (∀ r, (strip_and_save update u w).1 = Returned r →
            is_Some (persistence (dispatcher w)) → writes ≠ []).
Proof.
  unfold strip_and_save. rewrite bind_eq.
  destruct (pop_flag_frame (id u) "UNKNOWN" w) as [Hlog1 Hp1].
  destruct (pop_flag (id u) "UNKNOWN" w) as [[unknown|e] w1];
    simpl in *; [|exists []; rewrite app_nil_r; eauto].
  rewrite bind_eq.
  destruct (pop_flag_frame (id u) "ERROR" w1) as [Hlog2 Hp2].
  destruct (pop_flag (id u) "ERROR" w1) as [[error|e] w2];
    simpl in *; [|exists []; rewrite app_nil_r, Hlog2; eauto].
  rewrite bind_eq.
  assert (∃ w3, when (truthy unknown || truthy error)
                  (update_persistence update) w2 = (Returned tt, w3)
                ∧ issued w3 = issued w2
                ∧ (is_Some (persistence (dispatcher w3))
                   ↔ is_Some (persistence (dispatcher w2))))
    as (w3 & -> & Hlog3 & Hp3).
  { unfold when. destruct (truthy unknown || truthy error);
      [apply update_persistence_returns | by exists w2]. }
  rewrite bind_eq.
  assert (issued (when (truthy unknown) (end_conversations update) w3).2
          = issued w3
          ∧ (is_Some (persistence (dispatcher
               (when (truthy unknown) (end_conversations update) w3).2))
             ↔ is_Some (persistence (dispatcher w3)))) as [Hlog4 Hp4].
  { unfold when. destruct (truthy unknown); [|done].
    apply end_conversations_frame. }
  assert (Hsome : is_Some (persistence (dispatcher
                    (when (truthy unknown) (end_conversations update) w3).2))
                  ↔ is_Some (persistence (dispatcher w))).
  { by rewrite Hp4, Hp3, Hp2, Hp1. }
  clear Hp1 Hp2 Hp3 Hp4.
  destruct (when (truthy unknown) (end_conversations update) w3)
    as [[[]|e] w4]; simpl in *;
    [|exists []; rewrite app_nil_r; split; [congruence|eauto]].
  rewrite bind_eq.
  unfold update_persistence_database at 1. rewrite bind_eq.
  unfold get_dispatcher at 1.
  destruct (persistence (dispatcher w4)) as [p|] eqn:Hp; simpl.
  - pose proof (update_database_issued (id u) error p w4) as Hlog5.
    exists [if truthy error then wipe_query (id u)
            else save_query (id u) (_dump_into_json (id u) p)].
    split.
    { destruct (update_database (id u) error p w4) as [[[]|e] w5];
        simpl in *; congruence. }
    split; [|done].
    right. split; [apply Hsome; eauto|].
    destruct (truthy error); eauto.
  - exists []. rewrite app_nil_r. split; [simpl; congruence|].
    split; [eauto|]. intros r _ Hs. apply Hsome in Hs. by destruct Hs.
Qed.
(* ===================================================================== *)
(** ** Loops over the handlers *)
(* ===================================================================== *)

Section Visits.
Context {S : Type}.
Variable step : Handler → S → outcome Handler * S.
(** The loop body replaces each handler by [f] of it, never raises, and
    keeps an invariant [I] that may mention the handlers done so far. *)
Variable f : Handler → Handler.
Variable I : list Handler → S → Prop.

Lemma visit_inv (l done : list Handler) (s : S) :
  (∀ h done s, h ∈ l → I done s →
     ∃ s', step h s = (Returned (f h), s') ∧ I (done ++ [h]) s') →
  I done s →
  ∃ s', Ptb.visit step l s = (None, f <$> l, s') ∧ I (done ++ l) s'.
Proof.
  revert done s. induction l as [|h l IH]; intros done s Hstep HI.
  - exists s. by rewrite app_nil_r.
  - destruct (Hstep h done s) as (s1 & Hs1 & HI1);
      [apply list_elem_of_here | done |].
    destruct (IH (done ++ [h]) s1) as (s2 & Hs2 & HI2); [|done|].
    { intros h' done' s' Hh'. apply Hstep. by apply list_elem_of_further. }
    exists s2. simpl. rewrite Hs1, Hs2. split; [done|].
    by rewrite <- app_assoc in HI2.
Qed.

Lemma visit_groups_inv (gs : list Z) (hs : gmap Z (list Handler))
    (done : list Handler) (s : S) :
  NoDup gs →
  (∀ h done s, h ∈ flat gs hs → I done s →
     ∃ s', step h s = (Returned (f h), s') ∧ I (done ++ [h]) s') →
  I done s →
  ∃ hs' s',
    Ptb.visit_groups step gs hs s = (None, hs', s')
    ∧ I (done ++ flat gs hs) s'
    ∧ ∀ g, hs' !! g = if decide (g ∈ gs) then fmap f <$> hs !! g
                      else hs !! g.
Proof.
  revert hs done s.
  induction gs as [|g gs IH]; intros hs done s Hnd Hstep HI.
  - exists hs, s. split; [done|]. split.
    + unfold flat. simpl. by rewrite app_nil_r.
    + intros g. case_decide; [set_solver|done].
  - apply NoDup_cons in Hnd as [Hg Hnd]. simpl.
    destruct (hs !! g) as [l|] eqn:Hl.
    + destruct (visit_inv l done s) as (s1 & -> & HI1); [|done|].
      { intros h done' s' Hh. apply Hstep. unfold flat. simpl.
        rewrite ?Hl. simpl. apply elem_of_app. by left. }
      assert (Hflat : flat gs (<[g := f <$> l]> hs) = flat gs hs).
      { unfold flat. apply Forall_bind_ext, Forall_forall.
        intros g' Hg'. rewrite lookup_insert_ne; [done|]. by intros ->. }
      destruct (IH (<[g := f <$> l]> hs) (done ++ l) s1)
        as (hs' & s2 & -> & HI2 & Hhs'); [done| |done|].
      { intros h done' s'. rewrite Hflat. intros Hh. apply Hstep.
        unfold flat. simpl. apply elem_of_app. by right. }
      exists hs', s2. split; [done|]. split.
      { rewrite Hflat, <- app_assoc in HI2. unfold flat at 1. simpl.
        by rewrite ?Hl. }
      intros g'. rewrite Hhs'.
      destruct (decide (g' = g)) as [->|Hne].
      * rewrite decide_False by done.
        rewrite decide_True by set_solver.
        by rewrite lookup_insert_eq, ?Hl.
      * rewrite lookup_insert_ne by done.
        destruct (decide (g' ∈ gs)).
        -- by rewrite decide_True by set_solver.
        -- by rewrite decide_False by set_solver.
    + destruct (IH hs done s) as (hs' & s2 & -> & HI2 & Hhs');
        [done| |done|].
      { intros h done' s' Hh. apply Hstep. unfold flat. simpl.
        rewrite ?Hl. simpl. done. }
      exists hs', s2. split; [done|]. split.
      { unfold flat at 1. simpl. by rewrite ?Hl. }
      intros g'. rewrite Hhs'.
      destruct (decide (g' = g)) as [->|Hne].
      * rewrite decide_False by done.
        rewrite decide_True by set_solver. by rewrite ?Hl.
      * destruct (decide (g' ∈ gs)).
        -- by rewrite decide_True by set_solver.
        -- by rewrite decide_False by set_solver.
Qed.
End Visits.
(* ===================================================================== *)
(** ** Conversation states in the persistence object *)
(* ===================================================================== *)

Lemma stored_state_update_conversation (key : list Z) (n n0 : string)
    (v : json) (p : YDBPersistence) :
  stored_state key n (Ptb.update_conversation n0 key v p) =
    if decide (n = n0) then v else stored_state key n p.
Proof.
  unfold stored_state, Ptb.update_conversation.
  replace (match _conversations p with Some c => c | None => ∅ end)
    with (default ∅ (_conversations p)) by (by destruct (_conversations p)).
  set (cs := default ∅ (_conversations p)).
  destruct (decide (dict_get key (default ∅ (cs !! n0)) = v)) as [Heq|Hne];
    simpl; destruct (decide (n = n0)) as [->|Hn];
    rewrite ?lookup_insert_eq, ?lookup_insert_ne by done; simpl;
    rewrite ?dict_get_insert; done.
Qed.

Lemma user_data_update_conversation (n0 : string) (key : list Z)
    (v : json) (p : YDBPersistence) :
  _user_data (Ptb.update_conversation n0 key v p) = _user_data p.
Proof.
  unfold Ptb.update_conversation. by destruct (decide _).
Qed.

Lemma stored_state_update_user_data (key : list Z) (n : string)
    (user_id : Z) (data : json) (p : YDBPersistence) :
  stored_state key n (Ptb.update_user_data user_id data p)
  = stored_state key n p.
Proof.
  unfold stored_state, Ptb.update_user_data. by destruct (decide _).
Qed.

Lemma scratch_of_update_user_data (user_id : Z) (data : json)
    (p : YDBPersistence) :
  scratch_of user_id (Ptb.update_user_data user_id data p) = data.
Proof.
  unfold scratch_of, Ptb.update_user_data.
  destruct (decide _) as [Heq|Hne]; simpl; [done|].
  by rewrite dict_get_insert.
Qed.

Lemma scratch_of_update_conversation (user_id : Z) (n0 : string)
    (key : list Z) (v : json) (p : YDBPersistence) :
  scratch_of user_id (Ptb.update_conversation n0 key v p)
  = scratch_of user_id p.
Proof.
  unfold scratch_of. by rewrite user_data_update_conversation.
Qed.

Lemma states_of_lookup (user_id : Z) (p : YDBPersistence) (n : string) :
  states_of user_id p !! n =
    if is_not_None (stored_state [user_id] n p)
    then Some (stored_state [user_id] n p) else None.
Proof.
  unfold states_of, stored_state. rewrite lookup_omap.
  destruct (default ∅ (_conversations p) !! n) as [c|]; simpl; [done|].
  by rewrite dict_get_empty.
Qed.

Lemma states_of_update_user_data (user_id uid : Z) (data : json)
    (p : YDBPersistence) :
  states_of user_id (Ptb.update_user_data uid data p) = states_of user_id p.
Proof.
  unfold states_of, Ptb.update_user_data. by destruct (decide _).
Qed.

(** *** Registered handlers *)

Lemma registered_flat (h : ConversationHandler) (d : PersistentDispatcher) :
  registered h d ↔ Conversation h ∈ flat (groups d) (handlers d).
Proof.
  unfold registered, registered_at, flat. rewrite list_elem_of_bind. split.
  - intros (g & i & Hg & l & Hl & Hi). exists g. rewrite Hl. simpl.
    split; [|done]. by eapply list_elem_of_lookup_2.
  - intros (g & Hh & Hg). destruct (handlers d !! g) as [l|] eqn:Hl;
      simpl in Hh; [|by apply elem_of_nil in Hh].
    apply list_elem_of_lookup_1 in Hh as [i Hi]. eauto 10.
Qed.

Lemma lift_lookup (fc : ConversationHandler → ConversationHandler)
    (l : list Handler) (i : nat) (h' : ConversationHandler) :
  (lift fc <$> l) !! i = Some (Conversation h')
  ↔ ∃ h, l !! i = Some (Conversation h) ∧ h' = fc h.
Proof.
  rewrite list_lookup_fmap. destruct (l !! i) as [[c|]|]; simpl.
  - split; [intros [= <-]; eauto | intros (h & [= <-] & ->); done].
  - split; [done | intros (h & ? & _); done].
  - split; [done | intros (h & ? & _); done].
Qed.

(** The handlers after a loop that changed every conversation by [fc]. *)
Lemma registered_at_lift (fc : ConversationHandler → ConversationHandler)
    (d d' : PersistentDispatcher) (g : Z) (i : nat)
    (h' : ConversationHandler) :
  groups d' = groups d →
  (∀ g, handlers d' !! g =
          if decide (g ∈ groups d) then fmap (lift fc) <$> handlers d !! g
          else handlers d !! g) →
  registered_at g i h' d' ↔ ∃ h, registered_at g i h d ∧ h' = fc h.
Proof.
  intros Hgs Hhs. unfold registered_at. rewrite Hgs. split.
  - intros (Hg & l' & Hl' & Hi). rewrite Hhs, decide_True in Hl' by done.
    destruct (handlers d !! g) as [l|]; simpl in Hl'; [|done].
    simplify_eq. apply lift_lookup in Hi as (h & Hi & ->). eauto 10.
  - intros (h & (Hg & l & Hl & Hi) & ->). split; [done|].
    exists (lift fc <$> l). rewrite Hhs, decide_True, Hl by done.
    split; [done|]. apply lift_lookup. eauto.
Qed.

Lemma accepted_set_conversations (c : gmap (list Z) json)
    (h : ConversationHandler) :
  accepted (set_conversations c h) ↔ accepted h.
Proof. done. Qed.

Lemma accepted_reloaded (convs : gmap string (gmap (list Z) json))
    (h : ConversationHandler) :
  accepted (reloaded convs h) ↔ accepted h.
Proof. unfold reloaded. by destruct (persistent h). Qed.

Lemma name_reloaded (convs : gmap string (gmap (list Z) json))
    (h : ConversationHandler) :
  name (reloaded convs h) = name h.
Proof. unfold reloaded. by destruct (persistent h). Qed.

(** For an accepted conversation the key is the user id alone. *)
Lemma accepted_key (h : ConversationHandler) (update : Update) (u : User) :
  accepted h → effective_user update = Some u →
  Ptb._get_key h update = Returned [id u].
Proof.
  intros (Hu & Hc & Hm & _) Hupd. unfold Ptb._get_key.
  by rewrite Hu, Hc, Hm, Hupd.
Qed.

Lemma well_formed_check_correct (d : PersistentDispatcher) :
  well_formed_check d → well_formed d.
Proof.
  intros (Hnd & Hkeys & Hacc). split; [done|]. split.
  - intros g [l Hl]. by apply (Hkeys g l).
  - intros h Hh. apply registered_flat in Hh.
    rewrite Forall_forall in Hacc. by apply (Hacc (Conversation h)).
Qed.
(* ===================================================================== *)
(** ** The world after the load *)
(* ===================================================================== *)

Lemma reload_step (convs : gmap string (gmap (list Z) json))
    (ud : option (gmap Z json)) (h : Handler) (p : YDBPersistence) :
  default ∅ (_conversations p) = convs → _user_data p = ud →
  ∃ p', reload h p = (Returned (lift (reloaded convs) h), p')
        ∧ default ∅ (_conversations p') = convs ∧ _user_data p' = ud.
Proof.
  intros Hc Hu. unfold reload, reloaded. destruct h as [c|]; simpl; [|eauto].
  destruct (persistent c); [|eauto].
  unfold Ptb.get_conversations. rewrite Hc. eauto.
Qed.

(** When the load returns: the document read, the persistence object
    after merging it, and the dispatcher rebuilt from that object. *)
Lemma load_persistence_data_returned (user_id : Z) (w w0 : World)
    (p : YDBPersistence) :
  persistence (dispatcher w) = Some p →
  NoDup (groups (dispatcher w)) →
  load_persistence_data user_id w = (Returned tt, w0) →
  ∃ data w_read p1 p3,
    get_data user_id w = (Returned data, w_read)
    ∧ update_data user_id data p = (Returned tt, p1)
    ∧ users w0 = users w_read
    ∧ outages w0 = outages w_read
    ∧ issued w0 = issued w_read
    ∧ persistence (dispatcher w0) = Some p3
    ∧ _user_data p3 = Some (default ∅ (_user_data p1))
    ∧ default ∅ (_conversations p3) = default ∅ (_conversations p1)
    ∧ user_data (dispatcher w0) = default ∅ (_user_data p1)
    ∧ groups (dispatcher w0) = groups (dispatcher w)
    ∧ ∀ g, handlers (dispatcher w0) !! g =
             if decide (g ∈ groups (dispatcher w))
             then fmap (lift (reloaded (default ∅ (_conversations p1))))
                    <$> handlers (dispatcher w) !! g
             else handlers (dispatcher w) !! g.
Proof.
  intros Hp Hnd. unfold load_persistence_data. rewrite bind_eq.
  unfold get_dispatcher at 1. rewrite Hp. rewrite bind_eq.
  pose proof (get_data_dispatcher user_id w) as Hd.
  destruct (get_data user_id w) as [[data|e] w_read]; [|done].
  simpl in Hd.
  destruct (update_data user_id data p) as [[[]|e] p1] eqn:Hmerge;
    [|unfold_monad; done].
  unfold Ptb.get_user_data.
  destruct (visit_groups_inv reload
              (lift (reloaded (default ∅ (_conversations p1))))
              (λ _ q, default ∅ (_conversations q)
                      = default ∅ (_conversations p1)
                      ∧ _user_data q = Some (default ∅ (_user_data p1)))
              (groups (dispatcher w)) (handlers (dispatcher w)) []
              (mkYDBPersistence (Some (default ∅ (_user_data p1)))
                                (_conversations p1)))
    as (hs' & p3 & Hvisit & [Hc3 Hu3] & Hhs'); [done| |done|].
  { intros h _ q _ [Hc Hu].
    destruct (reload_step _ _ h q Hc Hu) as (q' & ? & ? & ?). eauto. }
  rewrite Hvisit. unfold_monad. intros [= <-]. simpl.
  exists data, w_read, p1, p3. done.
Qed.

(** The load keeps a dispatcher well formed, keeps the names of its
    conversations, and leaves it in sync. *)
Lemma load_registered (user_id : Z) (w w0 : World) (p : YDBPersistence)
    (h0 : ConversationHandler) :
  persistence (dispatcher w) = Some p →
  NoDup (groups (dispatcher w)) →
  load_persistence_data user_id w = (Returned tt, w0) →
  registered h0 (dispatcher w0) ↔
    ∃ h convs, registered h (dispatcher w) ∧ h0 = reloaded convs h
               ∧ ∃ p3, persistence (dispatcher w0) = Some p3
                       ∧ default ∅ (_conversations p3) = convs.
Proof.
  intros Hp Hnd Hload.
  destruct (load_persistence_data_returned user_id w w0 p Hp Hnd Hload)
    as (data & w_read & p1 & p3 & _ & _ & _ & _ & _ & Hp3 & _ & Hc3 & _
        & Hgs & Hhs).
  unfold registered. split.
  - intros (g & i & Hat).
    apply (registered_at_lift
             (reloaded (default ∅ (_conversations p1))) (dispatcher w))
      in Hat as (h & Hat & ->); [|done|done].
    exists h, (default ∅ (_conversations p1)). eauto 10.
  - intros (h & convs & (g & i & Hat) & -> & p3' & Hp3' & <-).
    exists g, i.
    apply (registered_at_lift (reloaded (default ∅ (_conversations p1)))
                              (dispatcher w)); [done|done|].
    exists h. split; [done|]. assert (p3' = p3) as -> by congruence.
    by rewrite Hc3.
Qed.

Lemma load_well_formed (user_id : Z) (w w0 : World) :
  is_Some (persistence (dispatcher w)) →
  well_formed (dispatcher w) →
  load_persistence_data user_id w = (Returned tt, w0) →
  well_formed (dispatcher w0)
  ∧ (∀ key, in_sync key (dispatcher w0))
  ∧ (∀ n, (∃ h, registered h (dispatcher w0) ∧ name h = n)
          ↔ ∃ h, registered h (dispatcher w) ∧ name h = n).
Proof.
  intros [p Hp] (Hnd & Hkeys & Hacc) Hload.
  pose proof (load_registered user_id w w0 p) as Hreg.
  destruct (load_persistence_data_returned user_id w w0 p Hp Hnd Hload)
    as (data & w_read & p1 & p3 & _ & _ & _ & _ & _ & Hp3 & _ & Hc3 & _
        & Hgs & Hhs).
  split; [split; [|split]|split].
  - by rewrite Hgs.
  - intros g. rewrite Hgs, Hhs. case_decide; [done|]. apply Hkeys.
  - intros h0 Hh0. apply Hreg in Hh0 as (h & convs & Hh & -> & _); try done.
    apply accepted_reloaded. by apply Hacc.
  - intros key q h0 Hq Hh0 Hstate. exists h0. split; [done|]. split; [done|].
    apply Hreg in Hh0 as (h & convs & Hh & -> & p3' & Hp3' & <-); try done.
    assert (p3' = q) as -> by congruence.
    destruct (Hacc h Hh) as (_ & _ & _ & Hpers & _).
    unfold reloaded in *. rewrite Hpers in *. simpl in *.
    unfold stored_state, dict_get in Hstate.
    destruct (default ∅ (default ∅ (_conversations q) !! name h) !! key);
      [eauto | done].
  - intros n. split.
    + intros (h0 & Hh0 & <-).
      apply Hreg in Hh0 as (h & convs & Hh & -> & _); try done.
      exists h. by rewrite name_reloaded.
    + intros (h & Hh & <-).
      exists (reloaded (default ∅ (_conversations p3)) h).
      rewrite name_reloaded. split; [|done].
      apply Hreg; try done. eauto 10.
Qed.
(* ===================================================================== *)
(** ** The world after dispatch *)
(* ===================================================================== *)

Lemma registered_at_functional (g : Z) (i : nat)
    (h h' : ConversationHandler) (d : PersistentDispatcher) :
  registered_at g i h d → registered_at g i h' d → h = h'.
Proof.
  intros (_ & l & Hl & Hi) (_ & l' & Hl' & Hi').
  assert (l' = l) as -> by congruence. congruence.
Qed.

(** Replacing the conversation at one position. *)
Lemma registered_at_replace (d : PersistentDispatcher)
    (p' : option YDBPersistence) (g : Z) (i : nat) (l : list Handler)
    (h h' : ConversationHandler) (g' : Z) (i' : nat)
    (x : ConversationHandler) :
  g ∈ groups d →
  handlers d !! g = Some l →
  l !! i = Some (Conversation h) →
  registered_at g' i' x
    (mkDispatcher p' (user_data d) (groups d)
       (<[g := <[i := Conversation h']> l]> (handlers d)))
  ↔ (g' = g ∧ i' = i ∧ x = h')
    ∨ (¬ (g' = g ∧ i' = i) ∧ registered_at g' i' x d).
Proof.
  intros Hg Hl Hi. unfold registered_at. simpl.
  assert (Hlen : (i < length l)%nat) by (by eapply lookup_lt_Some).
  destruct (decide (g' = g)) as [->|Hne].
  - rewrite lookup_insert_eq. destruct (decide (i' = i)) as [->|Hni].
    + split.
      * intros (_ & l0 & [= <-] & Hx).
        rewrite list_lookup_insert_eq in Hx by done. left. by simplify_eq.
      * intros [(_ & _ & ->)|[Hno _]]; [|by destruct Hno].
        split; [done|]. eexists. split; [done|].
        by rewrite list_lookup_insert_eq.
    + split.
      * intros (_ & l0 & [= <-] & Hx).
        rewrite list_lookup_insert_ne in Hx by done. right.
        split; [by intros [_ ?]|]. eauto.
      * intros [(_ & ? & _)|[_ (_ & l0 & Hl0 & Hx)]]; [done|].
        split; [done|]. eexists. split; [done|].
        rewrite list_lookup_insert_ne by done. by simplify_eq.
  - rewrite lookup_insert_ne by done. split.
    + intros Hat. right. split; [by intros [? _]|done].
    + intros [(? & _ & _)|[_ Hat]]; done.
Qed.

(** The outcomes of [_update_state] for an accepted conversation: nothing
    changes, or the state under [key] is dropped, or it is set. *)
Lemma update_state_cases (s : json) (key : list Z)
    (h : ConversationHandler) (op : option YDBPersistence) :
  accepted h →
  ∃ h' f, Ptb._update_state s key h op = (h', f <$> op)
    ∧ name h' = name h ∧ (accepted h' ↔ accepted h)
    ∧ (∀ p, _user_data (f p) = _user_data p)
    ∧ ((h' = h ∧ f = λ p, p)
       ∨ (is_Some (conversations h !! key)
          ∧ h' = ended key h
          ∧ f = Ptb.update_conversation (name h) key JNull)
       ∨ (s ≠ JNull
          ∧ h' = set_conversations (<[key := s]> (conversations h)) h
          ∧ f = Ptb.update_conversation (name h) key s)).
Proof.
  intros (_ & _ & _ & Hpers & Hname). unfold Ptb._update_state.
  rewrite Hpers. rewrite bool_decide_eq_false_2 by done. simpl.
  destruct (decide (s = Ptb.END)) as [->|Hs].
  - destruct (conversations h !! key) eqn:Hk.
    + eexists _, _. split; [done|]. split; [done|]. split; [done|].
      split; [intros p; apply user_data_update_conversation|].
      right. left. eauto.
    + exists h, (λ p, p). split; [by destruct op|]. eauto 10.
  - destruct (is_not_None s) eqn:Hnn.
    + eexists _, _. split; [done|]. split; [done|]. split; [done|].
      split; [intros p; apply user_data_update_conversation|].
      right. right. split; [by apply is_not_None_true|done].
    + exists h, (λ p, p). split; [by destruct op|]. eauto 10.
Qed.

Lemma kept_refl (key : list Z) (w : World) : kept key w w.
Proof. done. Qed.

(** A step that leaves handlers and stored conversation states alone. *)
Lemma kept_same_conversations (key : list Z) (w w' : World) :
  groups (dispatcher w') = groups (dispatcher w) →
  handlers (dispatcher w') = handlers (dispatcher w) →
  (∀ p', persistence (dispatcher w') = Some p' →
     ∃ p, persistence (dispatcher w) = Some p
          ∧ ∀ n, stored_state key n p' = stored_state key n p) →
  kept key w w'.
Proof.
  intros Hgs Hhs Hp.
  assert (Hreg : ∀ h, registered h (dispatcher w')
                      ↔ registered h (dispatcher w)).
  { intros h. unfold registered, registered_at. by rewrite Hgs, Hhs. }
  split; [|split].
  - intros (Hnd & Hkeys & Hacc). split; [by rewrite Hgs|]. split.
    + intros g. rewrite Hgs, Hhs. apply Hkeys.
    + intros h Hh. apply Hacc. by apply Hreg.
  - intros _ Hsync p' h Hp' Hh Hst.
    destruct (Hp p' Hp') as (p & Hpw & Hsame).
    rewrite Hsame in Hst. apply Hreg in Hh.
    destruct (Hsync p h Hpw Hh Hst) as (h' & Hh' & Hn & Hk).
    exists h'. by rewrite Hreg.
  - intros _ n. by setoid_rewrite Hreg.
Qed.

Lemma well_formed_registered_position (d : PersistentDispatcher) (g : Z)
    (i : nat) (l : list Handler) (h : ConversationHandler) :
  well_formed d → handlers d !! g = Some l →
  l !! i = Some (Conversation h) →
  g ∈ groups d ∧ registered_at g i h d ∧ accepted h.
Proof.
  intros (_ & Hkeys & Hacc) Hl Hi.
  assert (g ∈ groups d) by (apply Hkeys; eauto).
  assert (registered_at g i h d) by (split; eauto).
  split; [done|]. split; [done|]. apply Hacc. by exists g, i.
Qed.

(** A conversation recording a state keeps the dispatcher well formed
    and in sync. *)
Lemma transition_kept (update : Update) (u : User) (g : Z) (i : nat)
    (s : json) (w : World) :
  effective_user update = Some u →
  ∃ w', run_action update (Transition g i s) w = (Returned tt, w')
        ∧ kept [id u] w w'
        ∧ users w' = users w ∧ outages w' = outages w
        ∧ user_data (dispatcher w') = user_data (dispatcher w)
        ∧ (∀ p', persistence (dispatcher w') = Some p' →
             ∃ p, persistence (dispatcher w) = Some p
                  ∧ _user_data p' = _user_data p).
Proof.
  intros Hu. simpl. rewrite bind_eq. unfold get_dispatcher at 1.
  set (d := dispatcher w).
  destruct (handlers d !! g) as [l|] eqn:Hl;
    [|exists w; split; [done|]; split; [by apply kept_refl|]; eauto 10].
  destruct (l !! i) as [[h|]|] eqn:Hi;
    try (exists w; split; [done|]; split; [by apply kept_refl|]; eauto 10).
  destruct (Ptb._get_key h update) as [key|e] eqn:Hkey;
    [|exists w; split; [done|]; split; [by apply kept_refl|]; eauto 10].
  destruct (Ptb._update_state s key h (persistence d)) as [h' p'] eqn:Hst.
  unfold put_dispatcher, set_dispatcher. eexists. split; [done|]. simpl.
  assert (Hp' : ∀ q', p' = Some q' →
                  ∃ q, persistence d = Some q ∧ _user_data q' = _user_data q).
  { intros q' ->. revert Hst. unfold Ptb._update_state.
    destruct (persistence d) as [q|]; simpl.
    - repeat match goal with
             | |- context [if ?b then _ else _] => destruct b
             | |- context [match ?x with _ => _ end] => destruct x
             end; simpl; intros; simplify_eq; eexists; split; try done;
        by rewrite ?user_data_update_conversation.
    - repeat match goal with
             | |- context [if ?b then _ else _] => destruct b
             | |- context [match ?x with _ => _ end] => destruct x
             end; simpl; intros; simplify_eq. }
  split; [|done].
  (* everything below assumes the dispatcher is well formed *)
  assert (Hwf : well_formed d →
            g ∈ groups d ∧ registered_at g i h d ∧ accepted h
            ∧ key = [id u]).
  { intros Hwf.
    destruct (well_formed_registered_position d g i l h) as (? & ? & Hacc);
      try done.
    split; [done|]. split; [done|]. split; [done|].
    rewrite (accepted_key h update u) in Hkey by done. by simplify_eq. }
  set (d' := mkDispatcher p' (user_data d) (groups d)
               (<[g := <[i := Conversation h']> l]> (handlers d))).
  assert (Hrep : well_formed d → ∀ g' i' x,
            registered_at g' i' x d'
            ↔ (g' = g ∧ i' = i ∧ x = h')
              ∨ (¬ (g' = g ∧ i' = i) ∧ registered_at g' i' x d)).
  { intros Hwfd g' i' x. destruct (Hwf Hwfd) as (Hg & _ & _ & _).
    by apply (registered_at_replace d p' g i l h h'). }
  assert (Hcases : well_formed d →
            ∃ f, p' = f <$> persistence d
              ∧ name h' = name h ∧ (accepted h' ↔ accepted h)
              ∧ ((h' = h ∧ f = λ p, p)
                 ∨ (is_Some (conversations h !! [id u])
                    ∧ h' = ended [id u] h
                    ∧ f = Ptb.update_conversation (name h) [id u] JNull)
                 ∨ (s ≠ JNull
                    ∧ h' = set_conversations
                             (<[[id u] := s]> (conversations h)) h
                    ∧ f = Ptb.update_conversation (name h) [id u] s))).
  { intros Hwfd. destruct (Hwf Hwfd) as (_ & _ & Hacc & ->).
    destruct (update_state_cases s [id u] h (persistence d) Hacc)
      as (h'' & f & Hst' & ? & ? & _ & ?).
    rewrite Hst in Hst'. simplify_eq. eauto 10. }
  split; [|split].
  - intros Hwfd. destruct (Hwf Hwfd) as (Hg & Hat & Hacc & ->).
    destruct (Hcases Hwfd) as (f & _ & Hname & Hacc' & _).
    destruct Hwfd as (Hnd & Hkeys & Haccs).
    split; [done|]. split.
    + intros g'. simpl. destruct (decide (g' = g)) as [->|Hne]; [done|].
      rewrite lookup_insert_ne by done. apply Hkeys.
    + intros x (g' & i' & Hx).
      apply (Hrep (conj Hnd (conj Hkeys Haccs))) in Hx
        as [(_ & _ & ->)|[_ Hx]].
      * by apply Hacc'.
      * apply Haccs. by exists g', i'.
  - intros Hwfd Hsync q' x Hq' (g' & i' & Hx) Hstate.
    destruct (Hwf Hwfd) as (Hg & Hat & Hacc & ->).
    destruct (Hcases Hwfd) as (f & Hf & Hname & Hacc' & Hcase).
    simpl in Hq'. rewrite Hf in Hq'.
    destruct (persistence d) as [q|] eqn:Hq; [|done]. simpl in Hq'.
    simplify_eq.
    (* a witness registered before, under another name, stays *)
    assert (Hother : name x ≠ name h →
              stored_state [id u] (name x) q ≠ JNull →
              ∃ x', registered x' d' ∧ name x' = name x
                    ∧ is_Some (conversations x' !! [id u])).
    { intros Hne Hst0.
      assert (Hxd : registered x d).
      { apply (Hrep Hwfd) in Hx as [(_ & _ & ->)|[_ Hx]]; [congruence|].
        by exists g', i'. }
      destruct (Hsync q x Hq Hxd Hst0)
        as (x' & (g0 & i0 & Hx') & Hn' & Hk').
      exists x'. split; [|done]. exists g0, i0. apply (Hrep Hwfd). right.
      split; [|done]. intros [-> ->].
      assert (x' = h) by (by eapply registered_at_functional).
      congruence. }
    destruct Hcase as [[-> ->]|[(Hk & -> & ->)|(Hs & -> & ->)]].
    + simpl in Hstate.
      assert (Hxd : registered x d).
      { apply (Hrep Hwfd) in Hx as [(_ & _ & ->)|[_ Hx]];
          [by exists g, i | by exists g', i']. }
      destruct (Hsync q x Hq Hxd Hstate)
        as (x' & (g0 & i0 & Hx') & Hn' & Hk').
      exists x'. split; [|done]. exists g0, i0. apply (Hrep Hwfd).
      destruct (decide (g0 = g ∧ i0 = i)) as [[-> ->]|Hno]; [|by right].
      left. split; [done|]. split; [done|].
      by eapply registered_at_functional.
    + rewrite stored_state_update_conversation in Hstate.
      destruct (decide (name x = name h)) as [Heq|Hne]; [done|].
      by apply Hother.
    + rewrite stored_state_update_conversation in Hstate.
      destruct (decide (name x = name h)) as [Heq|Hne];
        [|by apply Hother].
      eexists. split; [exists g, i; apply (Hrep Hwfd); left; done|].
      split; [done|]. simpl. rewrite lookup_insert_eq. eauto.
  - intros Hwfd n. destruct (Hwf Hwfd) as (Hg & Hat & Hacc & ->).
    destruct (Hcases Hwfd) as (f & _ & Hname & _ & _).
    split.
    + intros (x & (g' & i' & Hx) & <-).
      apply (Hrep Hwfd) in Hx as [(_ & _ & ->)|[_ Hx]].
      * exists h. split; [by exists g, i|done].
      * exists x. split; [by exists g', i'|done].
    + intros (x & (g' & i' & Hx) & <-).
      destruct (decide (g' = g ∧ i' = i)) as [[-> ->]|Hno].
      * exists h'. split; [exists g, i; apply (Hrep Hwfd); by left|].
        assert (x = h) by (by eapply registered_at_functional).
        congruence.
      * exists x. split; [|done]. exists g', i'. apply (Hrep Hwfd).
        by right.
Qed.

Lemma kept_trans (key : list Z) (w1 w2 w3 : World) :
  kept key w1 w2 → kept key w2 w3 → kept key w1 w3.
Proof.
  intros (Hwf1 & Hs1 & Hn1) (Hwf2 & Hs2 & Hn2). split; [|split].
  - eauto.
  - eauto.
  - intros Hwf n. rewrite Hn2 by eauto. by apply Hn1.
Qed.

Lemma world_eta (w : World) :
  mkWorld (dispatcher w) (users w) (outages w) (issued w) = w.
Proof. by destruct w. Qed.

Lemma dispatcher_eta (d : PersistentDispatcher) :
  mkDispatcher (persistence d) (user_data d) (groups d) (handlers d) = d.
Proof. by destruct d. Qed.

(** Steps that touch neither the handlers nor the stored states. *)
Lemma scratch_kept (update : Update) (u : User)
    (callback : gmap string json → gmap string json) (w : World) :
  ∃ w', run_action update (Scratch callback) w = (Returned tt, w')
        ∧ kept [id u] w w'.
Proof.
  simpl. rewrite bind_eq. unfold get_dispatcher at 1.
  destruct (effective_user update) as [u'|];
    [|exists w; split; [done|apply kept_refl]].
  destruct (user_data (dispatcher w) !! id u') as [[| | | | |entry]|];
    try (exists w; split; [done|apply kept_refl]).
  eexists. split; [done|].
  apply kept_same_conversations; try done.
  simpl. intros p' Hp'. eauto.
Qed.

Lemma issue_kept (update : Update) (u : User) (q : Query) (w : World) :
  ∃ w', run_action update (Issue q) w = (Returned tt, w')
        ∧ kept [id u] w w'.
Proof.
  simpl. unfold swallow. eexists. split; [done|].
  apply kept_same_conversations;
    rewrite ?execute_query_dispatcher; try done.
  intros p' Hp'. eauto.
Qed.

Lemma run_action_kept (update : Update) (u : User) (a : Action)
    (w : World) :
  effective_user update = Some u →
  ∃ w', run_action update a w = (Returned tt, w') ∧ kept [id u] w w'.
Proof.
  intros Hu. destruct a as [callback|g i s|q].
  - apply scratch_kept.
  - destruct (transition_kept update u g i s w Hu) as (w' & ? & ? & _).
    eauto.
  - apply issue_kept.
Qed.

Lemma run_actions_kept (update : Update) (u : User)
    (actions : list Action) (w : World) :
  effective_user update = Some u →
  ∃ w', run_actions update actions w = (Returned tt, w')
        ∧ kept [id u] w w'.
Proof.
  intros Hu. revert w. induction actions as [|a rest IH]; intros w.
  - exists w. split; [done|apply kept_refl].
  - simpl. rewrite bind_eq.
    destruct (run_action_kept update u a w Hu) as (w1 & -> & Hk1).
    destruct (IH w1) as (w2 & -> & Hk2).
    exists w2. split; [done|]. by eapply kept_trans.
Qed.

Lemma from_update_kept (update : Update) (key : list Z) (w : World) :
  ∃ w', from_update update w = (Returned tt, w') ∧ kept key w w'.
Proof.
  unfold from_update. rewrite bind_eq. unfold get_dispatcher at 1.
  destruct (effective_user update) as [u|];
    [|exists w; split; [done|apply kept_refl]].
  destruct (user_data (dispatcher w) !! id u);
    [exists w; split; [done|apply kept_refl]|].
  eexists. split; [done|]. apply kept_same_conversations; try done.
  simpl. intros p' Hp'. eauto.
Qed.

Lemma update_persistence_kept (update : Update) (key : list Z)
    (w : World) :
  ∃ w', update_persistence update w = (Returned tt, w') ∧ kept key w w'.
Proof.
  unfold update_persistence. rewrite bind_eq. unfold get_dispatcher at 1.
  eexists. split; [done|].
  unfold Ptb.update_persistence.
  destruct (persistence (dispatcher w)) as [p|] eqn:Hp;
    [|apply kept_same_conversations; try done; simpl;
      intros p'; by rewrite Hp].
  destruct (effective_user update) as [u|];
    [|apply kept_same_conversations; try done; simpl;
      intros p'; rewrite Hp; eauto].
  apply kept_same_conversations; try done. simpl.
  intros p' [= <-]. exists p. split; [done|].
  intros n. apply stored_state_update_user_data.
Qed.

Lemma Dispatcher_process_update_kept (update : Update) (u : User)
    (run : option (list Action)) (w : World) :
  effective_user update = Some u →
  ∃ w', Dispatcher_process_update update run w = (Returned tt, w')
        ∧ kept [id u] w w'.
Proof.
  intros Hu. unfold Dispatcher_process_update.
  destruct run as [actions|]; [|exists w; split; [done|apply kept_refl]].
  rewrite bind_eq.
  destruct (from_update_kept update [id u] w) as (w0 & -> & Hk0).
  rewrite bind_eq.
  destruct (run_actions_kept update u actions w0 Hu) as (w1 & -> & Hk1).
  destruct (update_persistence_kept update [id u] w1) as (w2 & -> & Hk2).
  exists w2. split; [done|]. eauto using kept_trans.
Qed.

(** After load and dispatch the dispatcher is well formed and in sync,
    and has the conversations it had, by name. *)
Lemma load_and_dispatch_kept (update : Update) (u : User)
    (run : option (list Action)) (w w1 : World) :
  effective_user update = Some u →
  is_Some (persistence (dispatcher w)) →
  well_formed (dispatcher w) →
  load_and_dispatch update u run w = (Returned tt, w1) →
  well_formed (dispatcher w1)
  ∧ in_sync [id u] (dispatcher w1)
  ∧ ∀ n, (∃ h, registered h (dispatcher w1) ∧ name h = n)
         ↔ ∃ h, registered h (dispatcher w) ∧ name h = n.
Proof.
  intros Hu Hp Hwf. unfold load_and_dispatch. rewrite bind_eq.
  destruct (load_persistence_data (id u) w) as [[[]|e] w0] eqn:Hload;
    [|done].
  destruct (load_well_formed (id u) w w0 Hp Hwf Hload)
    as (Hwf0 & Hsync0 & Hn0).
  destruct (Dispatcher_process_update_kept update u run w0 Hu)
    as (w1' & -> & Hwf1 & Hsync1 & Hn1).
  intros [= <-]. split; [eauto|]. split; [eauto|].
  intros n. rewrite Hn1 by done. apply Hn0.
Qed.

Lemma well_formed_same_handlers (d d' : PersistentDispatcher) :
  groups d' = groups d → handlers d' = handlers d →
  well_formed d → well_formed d'.
Proof.
  intros Hgs Hhs (Hnd & Hkeys & Hacc). unfold well_formed.
  rewrite Hgs, Hhs. split; [done|]. split; [done|].
  intros h Hh. apply Hacc. unfold registered, registered_at in *.
  by rewrite Hgs, Hhs in Hh.
Qed.

Lemma update_persistence_world (update : Update) (w : World) :
  update_persistence update w =
    (Returned tt,
     set_dispatcher (Ptb.update_persistence update (dispatcher w)) w).
Proof. reflexivity. Qed.


(* ===================================================================== *)
(** ** Ending all conversations *)
(* ===================================================================== *)

Lemma set_conversations_same (h : ConversationHandler) :
  set_conversations (conversations h) h = h.
Proof. by destruct h. Qed.

Lemma ended_absent (key : list Z) (h : ConversationHandler) :
  conversations h !! key = None → ended key h = h.
Proof.
  intros Hk. unfold ended. rewrite delete_id by done.
  apply set_conversations_same.
Qed.

(** One step of [end_conversations] on an accepted conversation. *)
Lemma end_conversation_step (update : Update) (u : User)
    (c : ConversationHandler) (q : YDBPersistence) :
  effective_user update = Some u → accepted c →
  end_conversation update (Conversation c) (Some q) =
    (Returned (Conversation (ended [id u] c)),
     Some (if bool_decide (is_Some (conversations c !! [id u]))
           then Ptb.update_conversation (name c) [id u] JNull q
           else q)).
Proof.
  intros Hu Hacc. unfold end_conversation.
  rewrite (accepted_key c update u) by done.
  destruct Hacc as (_ & _ & _ & Hpers & Hname).
  unfold Ptb._update_state. rewrite decide_True by done.
  rewrite Hpers, bool_decide_eq_false_2 by done. simpl.
  destruct (conversations c !! [id u]) eqn:Hk.
  - by rewrite bool_decide_eq_true_2 by eauto.
  - rewrite ended_absent by done.
    by rewrite bool_decide_eq_false_2 by (by intros [? ?]).
Qed.

(** [end_conversations] on a well-formed dispatcher returns; under every
    name for which a registered conversation held a state for the user,
    the persistence object now holds [None]; nothing else changes but
    the conversations' own dictionaries. *)
Lemma end_conversations_returns (update : Update) (u : User) (w : World)
    (p : YDBPersistence) :
  effective_user update = Some u →
  persistence (dispatcher w) = Some p →
  well_formed (dispatcher w) →
  ∃ w' p',
    end_conversations update w = (Returned tt, w')
    ∧ persistence (dispatcher w') = Some p'
    ∧ _user_data p' = _user_data p
    ∧ users w' = users w ∧ outages w' = outages w ∧ issued w' = issued w
    ∧ user_data (dispatcher w') = user_data (dispatcher w)
    ∧ ∀ n, stored_state [id u] n p' =
             if existsb (holds [id u] n)
                        (flat (groups (dispatcher w))
                              (handlers (dispatcher w)))
             then JNull else stored_state [id u] n p.
Proof.
  intros Hu Hp (Hnd & Hkeys & Hacc).
  unfold end_conversations. rewrite bind_eq. unfold get_dispatcher at 1.
  set (d := dispatcher w) in *.
  destruct (visit_groups_inv (end_conversation update)
              (lift (ended [id u]))
              (λ done s,
                 ∃ q, s = Some q ∧ _user_data q = _user_data p
                      ∧ ∀ n, stored_state [id u] n q =
                               if existsb (holds [id u] n) done
                               then JNull else stored_state [id u] n p)
              (groups d) (handlers d) [] (persistence d))
    as (hs' & s' & Hvisit & (p' & -> & Hud & Hstates) & Hhs'); [done| | |].
  - intros h done s Hh (q & -> & Hq & Hst).
    destruct h as [c|].
    + rewrite (end_conversation_step update u c q); [|done|].
      2:{ apply Hacc. by apply registered_flat. }
      eexists. split; [done|]. eexists. split; [done|].
      destruct (bool_decide (is_Some (conversations c !! [id u])))
        eqn:Hk.
      * split; [by rewrite user_data_update_conversation|].
        intros n. rewrite stored_state_update_conversation.
        rewrite existsb_app. simpl. rewrite orb_false_r.
        apply bool_decide_eq_true in Hk.
        destruct (decide (n = name c)) as [->|Hne].
        -- rewrite (bool_decide_eq_true_2 (name c = name c ∧ _)) by done.
           by rewrite orb_true_r.
        -- rewrite (bool_decide_eq_false_2 (name c = n ∧ _))
             by (by intros [? _]).
           rewrite orb_false_r. apply Hst.
      * split; [done|]. intros n. rewrite existsb_app. simpl.
        apply bool_decide_eq_false in Hk.
        rewrite (bool_decide_eq_false_2 (name c = n ∧ _))
          by (by intros [_ ?]).
        rewrite !orb_false_r. apply Hst.
    + simpl. eexists. split; [done|]. exists q. split; [done|].
      split; [done|]. intros n. rewrite existsb_app. simpl.
      rewrite orb_false_r. apply Hst.
  - exists p. by rewrite Hp.
  - rewrite Hvisit. unfold put_dispatcher, set_dispatcher.
    rewrite bind_eq. eexists _, p'. split; [done|]. simpl. done.
Qed.

(* ===================================================================== *)
(** ** Taking the flags out *)
(* ===================================================================== *)

(** [pop] on the user's entry, when it is a dictionary. *)
Lemma pop_flag_entry (user_id : Z) (flag : string) (w : World)
    (entry : gmap string json) :
  user_data (dispatcher w) !! user_id = Some (JObj entry) →
  pop_flag user_id flag w =
    (Returned (default (JBool false) (entry !! flag)),
     set_dispatcher
       (set_user_data (<[user_id := JObj (delete flag entry)]>
                         (user_data (dispatcher w)))
                      (dispatcher w)) w).
Proof.
  intros Hentry. unfold pop_flag. rewrite bind_eq.
  unfold get_dispatcher at 1. rewrite Hentry.
  destruct (entry !! flag) as [v|] eqn:Hflag; [done|].
  simpl. rewrite delete_id, insert_id by done.
  unfold mret, M_ret, set_dispatcher, set_user_data.
  by rewrite dispatcher_eta, world_eta.
Qed.
(* ===================================================================== *)
(** ** Where the flags can be *)
(* ===================================================================== *)



Lemma on_error_flags (telegram : Telegram) (update : Update)
    (m : gmap string json) :
  (on_error telegram update m).2 = m
  ∨ ((on_error telegram update m).1 = Returned tt
     ∧ (on_error telegram update m).2 !! "ERROR" = Some (JBool true)
     ∧ (on_error telegram update m).2 !! "UNKNOWN" = m !! "UNKNOWN").
Proof.
  unfold on_error. destruct (notify_developer telegram); [|by left].
  destruct (reply telegram update Tg.reply_text) as [[]|e]; [|by left].
  right. split; [done|]. simpl. split; [by rewrite lookup_insert_eq|].
  by rewrite lookup_insert_ne by done.
Qed.


Lemma on_error_disciplined (telegram : Telegram) (update : Update) :
  disciplined (Scratch (effect (on_error telegram update))).
Proof.
  intros m k Hk. unfold effect.
  destruct (on_error_flags telegram update m) as [->|(_ & HE & HU)];
    [by left|].
  destruct Hk as [-> | ->]; [by left|by right].
Qed.

Lemma scratch_of_update_user_data_ne (uid user_id : Z) (data : json)
    (p : YDBPersistence) :
  uid ≠ user_id →
  scratch_of uid (Ptb.update_user_data user_id data p) = scratch_of uid p.
Proof.
  intros Hne. unfold scratch_of, Ptb.update_user_data.
  destruct (decide _); simpl; [done|].
  by rewrite dict_get_insert_ne.
Qed.

(** *** The table *)



Lemma get_data_users (user_id : Z) (w : World) :
  users (get_data user_id w).2 = users w.
Proof.
  unfold get_data. rewrite bind_eq. unfold execute_query.
  destruct (outages w) as [|[] later]; simpl; try done.
  - destruct (filter _ _) as [|row [|row' rows]]; simpl; try done.
    destruct (project data_column row !! data_column) as [[| |]|]; done.
  - destruct (filter _ _) as [|row [|row' rows]]; simpl; try done.
    destruct (project data_column row !! data_column) as [[| |]|]; done.
Qed.


(** *** The persistence object *)



Lemma same_user_data_refl (s : option YDBPersistence) :
  same_user_data s s.
Proof. intros p' ->. eauto. Qed.

Lemma same_user_data_trans (s1 s2 s3 : option YDBPersistence) :
  same_user_data s1 s2 → same_user_data s2 s3 → same_user_data s1 s3.
Proof.
  intros H12 H23 p3 Hp3. destruct (H23 p3 Hp3) as (p2 & Hp2 & Heq2).
  destruct (H12 p2 Hp2) as (p1 & Hp1 & Heq1). exists p1. split; [done|].
  congruence.
Qed.

Lemma update_state_same_user_data (s : json) (key : list Z)
    (h : ConversationHandler) (op : option YDBPersistence) :
  same_user_data op (Ptb._update_state s key h op).2.
Proof.
  intros p' Hp'. unfold Ptb._update_state in Hp'.
  destruct op as [p|].
  - exists p. split; [done|].
    repeat match type of Hp' with
           | context [if ?b then _ else _] => destruct b
           | context [match ?x with _ => _ end] => destruct x
           end; simpl in Hp'; simplify_eq;
      by rewrite ?user_data_update_conversation.
  - repeat match type of Hp' with
           | context [if ?b then _ else _] => destruct b
           | context [match ?x with _ => _ end] => destruct x
           end; simpl in Hp'; simplify_eq.
Qed.

Lemma end_conversation_same_user_data (update : Update) (h : Handler)
    (op : option YDBPersistence) :
  same_user_data op (end_conversation update h op).2.
Proof.
  unfold end_conversation. destruct h as [c|];
    [|apply same_user_data_refl].
  destruct (Ptb._get_key c update) as [key|];
    [|apply same_user_data_refl].
  pose proof (update_state_same_user_data Ptb.END key c op) as Hst.
  by destruct (Ptb._update_state Ptb.END key c op).
Qed.

Lemma visit_end_same_user_data (update : Update) (l : list Handler)
    (op : option YDBPersistence) :
  same_user_data op (Ptb.visit (end_conversation update) l op).2.
Proof.
  revert op. induction l as [|h l IH]; intros op;
    [apply same_user_data_refl|].
  simpl. pose proof (end_conversation_same_user_data update h op) as Hh.
  destruct (end_conversation update h op) as [[h'|e] op1]; [|done].
  specialize (IH op1).
  destruct (Ptb.visit (end_conversation update) l op1) as [[e l'] op2].
  by eapply same_user_data_trans.
Qed.

Lemma visit_groups_end_same_user_data (update : Update) (gs : list Z)
    (hs : gmap Z (list Handler)) (op : option YDBPersistence) :
  same_user_data op (Ptb.visit_groups (end_conversation update) gs hs op).2.
Proof.
  revert hs op. induction gs as [|g gs IH]; intros hs op;
    [apply same_user_data_refl|].
  simpl. destruct (hs !! g) as [l|]; [|apply IH].
  pose proof (visit_end_same_user_data update l op) as Hl.
  destruct (Ptb.visit (end_conversation update) l op) as [[[e|] l'] op1];
    [done|].
  eapply same_user_data_trans; [done|apply IH].
Qed.

Lemma end_conversations_scratch (update : Update) (w : World) :
  let w' := (end_conversations update w).2 in
  users w' = users w ∧ issued w' = issued w
  ∧ same_user_data (persistence (dispatcher w))
                   (persistence (dispatcher w')).
Proof.
  cbv zeta. remember (end_conversations update w) as result eqn:Hres.
  unfold end_conversations in Hres. rewrite bind_eq in Hres.
  unfold get_dispatcher in Hres.
  pose proof (visit_groups_end_same_user_data update
                (groups (dispatcher w)) (handlers (dispatcher w))
                (persistence (dispatcher w))) as Hsame.
  destruct (Ptb.visit_groups _ _ _ _) as [[[e|] hs] op];
    unfold_monad; subst result; simpl in *; done.
Qed.

Lemma visit_reload_user_data (l : list Handler) (p : YDBPersistence) :
  _user_data (Ptb.visit reload l p).2 = _user_data p.
Proof.
  revert p. induction l as [|h l IH]; intros p; [done|]. simpl.
  assert (Hstep : _user_data (reload h p).2 = _user_data p).
  { unfold reload. destruct h as [c|]; [|done].
    by destruct (persistent c). }
  destruct (reload h p) as [[h'|e] p1]; [|done].
  specialize (IH p1).
  destruct (Ptb.visit reload l p1) as [[e l'] p2]. simpl in *. congruence.
Qed.

Lemma visit_groups_reload_user_data (gs : list Z)
    (hs : gmap Z (list Handler)) (p : YDBPersistence) :
  _user_data (Ptb.visit_groups reload gs hs p).2 = _user_data p.
Proof.
  revert hs p. induction gs as [|g gs IH]; intros hs p; [done|]. simpl.
  destruct (hs !! g) as [l|]; [|apply IH].
  pose proof (visit_reload_user_data l p) as Hl.
  destruct (Ptb.visit reload l p) as [[[e|] l'] p1]; [done|].
  simpl in Hl. rewrite IH. done.
Qed.

(** *** The three stages *)



Lemma execute_query_users (q : Query) (w : World) :
  users (execute_query q w).2 = users w
  ∨ users (execute_query q w).2
    = (exec users_table user_id_column (statement q) (parameters q)
            (users w)).1.
Proof.
  unfold execute_query.
  destruct (outages w) as [|[] later]; simpl;
    try destruct (exec _ _ _ _ _); simpl; eauto.
Qed.













Lemma pop_flag_users (user_id : Z) (flag : string) (w : World) :
  users (pop_flag user_id flag w).2 = users w.
Proof.
  unfold pop_flag. rewrite bind_eq. unfold get_dispatcher at 1.
  destruct (user_data (dispatcher w) !! user_id) as [[| | | | |entry]|];
    try done.
  by destruct (entry !! flag).
Qed.


(* ===================================================================== *)
(** ** Registration *)
(* ===================================================================== *)

(** C9. Registering a conversation handler with per_chat=true,
    per_message=true, persistent=false or per_user=false on a dispatcher
    that uses [YDBPersistence] raises [ValueError] (with the message of
    the first check that fails): registration fails, and it does so in
    [add_handler], which takes no event. *)
Theorem add_handler_refuses_misconfigured
    (h : ConversationHandler) (group : Z) (d : PersistentDispatcher) :
  is_Some (persistence d) →
  misconfigured h →
  (add_handler (Conversation h) group d).1 = Raised (ValueError (refusal h)).
Proof.
  intros [p Hp] Hbad. unfold add_handler, Ptb.add_handler, refusal.
  rewrite Hp.
  assert (Hlast : per_user h = true → per_chat h = false →
                  per_message h = false → persistent h = false).
  { intros. destruct Hbad as [? | [? | [? | ?]]]; congruence. }
  destruct (persistent h && negb (bool_decide (name h = ""))).
  - destruct (Ptb.get_conversations (name h) p) as [c p']. simpl.
    destruct (per_user h); simpl; [|done].
    destruct (per_chat h); simpl; [done|].
    destruct (per_message h); simpl; [done|].
    rewrite Hlast by done. done.
  - simpl.
    destruct (per_user h); simpl; [|done].
    destruct (per_chat h); simpl; [done|].
    destruct (per_message h); simpl; [done|].
    rewrite Hlast by done. done.
Qed.

Lemma add_handler_refuses_misconfigured_witness :
  (add_handler
     (Conversation (mkConversationHandler "mortuary_conv" true true false
                                          true ∅))
     0 (mkDispatcher (Some (mkYDBPersistence None None)) ∅ [] ∅)).1
  = Raised (ValueError
      "YDBPersistence requires per_chat=False for ConversationHandler").
Proof.
  apply (add_handler_refuses_misconfigured
           (mkConversationHandler "mortuary_conv" true true false true ∅)).
  - simpl. eauto.
  - unfold misconfigured. simpl. left. reflexivity.
Defined.

(* ===================================================================== *)
(** ** Query texts and bound parameters *)
(* ===================================================================== *)

(** C8. Two runs of the store adapter with different user ids and
    different in-memory data (hence different serialized documents) issue
    the same query text, for the read and for either form of the write;
    the user id and the document travel as the bound parameters
    [$user_id] and [$data] only. *)
Theorem query_text_is_constant
    (user_id1 user_id2 : Z) (error : json) (p1 p2 : YDBPersistence)
    (w1 w2 : World) :
  texts_issued (get_data user_id1) w1 = texts_issued (get_data user_id2) w2
  ∧ texts_issued (update_database user_id1 error p1) w1
    = texts_issued (update_database user_id2 error p2) w2
  ∧ parameters_issued (get_data user_id1) w1
    = [[("$user_id", VUint64 user_id1)]]
  ∧ parameters_issued (update_database user_id1 error p1) w1
    = [if truthy error
       then [("$user_id", VUint64 user_id1)]
       else [("$user_id", VUint64 user_id1);
             ("$data", VJson (_dump_into_json user_id1 p1))]].
Proof.
  unfold texts_issued, parameters_issued.
  rewrite !get_data_issued, !update_database_issued, !drop_issued.
  repeat split; try reflexivity; destruct (truthy error); reflexivity.
Qed.

(* ===================================================================== *)
(** ** Fetching the stored document *)
(* ===================================================================== *)

(** C7. When the executor delivers the result of the read: no row for the
    id, or one row with a NULL cell, gives the empty state; one row with a
    JSON cell gives the document; more than one row raises [LookupError].
    In every case one query has been issued and one executor call
    consumed: the integrity error is raised by [get_data] after the
    executor (which owns the retries) has returned, and nothing is
    re-issued. *)
Theorem get_data_cases (user_id : Z) (w : World) :
  head (outages w) ≠ Some true →
  get_data user_id w =
    (match rows_of user_id (users w) with
     | [] => Returned (JObj ∅)
     | [row] =>
         match row !! data_column with
         | None => Returned (JObj ∅)
         | Some (VJson document) => Returned document
         | Some _ => Raised (ValueError "Expected object or value")
         end
     | _ => Raised (LookupError users_table user_id)
     end,
     mkWorld (dispatcher w) (users w) (tail (outages w))
             (issued w ++ [get_data_query user_id])).
Proof.
  intros Hup. unfold get_data. unfold_monad.
  rewrite execute_query_runs by done. simpl.
  rewrite select_rows_of.
  destruct (rows_of user_id (users w)) as [|row [|row' rows]]; simpl;
    try reflexivity.
  rewrite project_lookup.
  destruct (row !! data_column) as [[| |]|]; reflexivity.
Qed.

Lemma get_data_cases_witness :
  get_data 7
    (mkWorld (mkDispatcher None ∅ [] ∅)
             [ {[ "user_id" := VUint64 7 ]}; {[ "user_id" := VUint64 7 ]} ]
             [] [])
  = (Raised (LookupError "users" 7),
     mkWorld (mkDispatcher None ∅ [] ∅)
             [ {[ "user_id" := VUint64 7 ]}; {[ "user_id" := VUint64 7 ]} ]
             [] [get_data_query 7]).
Proof.
  rewrite get_data_cases by (simpl; congruence).
  vm_compute. reflexivity.
Defined.

(* ===================================================================== *)
(** ** Adding a user *)
(* ===================================================================== *)

Lemma upsert_new_user_statement (u : User) :
  statement (upsert_new_user_query u) =
    SUpsert users_table (identity_columns u) (identity_values u).
Proof.
  unfold upsert_new_user_query, identity_columns, identity_values.
  destruct (last_name u), (username u); reflexivity.
Qed.

Lemma upsert_new_user_parameters (u : User) :
  parameters (upsert_new_user_query u) =
    [("$user_id", VUint64 (id u)); ("$first_name", VUtf8 (first_name u))]
    ++ match last_name u with
       | Some l => [("$last_name", VUtf8 l)]
       | None => []
       end
    ++ match username u with
       | Some n => [("$username", VUtf8 n)]
       | None => []
       end.
Proof.
  unfold upsert_new_user_query.
  destruct (last_name u), (username u); reflexivity.
Qed.

(** A [SET] list leaves the columns it does not name alone. *)
Lemma assign_frame (ps : Parameters) (sets : list (string * Expr))
    (r : Row) (c : string) :
  c ∉ sets.*1 →
  foldl (assign ps) r sets !! c = r !! c.
Proof.
  revert r. induction sets as [|[c' e] sets IH]; intros r Hc; [done|].
  simpl in *. apply not_elem_of_cons in Hc as [Hne Hc].
  rewrite IH by done. unfold assign. simpl.
  destruct e as [|p]; [by rewrite lookup_delete_ne|].
  destruct (param p ps); [by rewrite lookup_insert_ne|].
  by rewrite lookup_delete_ne.
Qed.

Lemma upsert_assignments_columns (columns values : list string) :
  length columns = length values →
  (upsert_assignments columns values).*1 = columns.
Proof.
  intros Hlen. unfold upsert_assignments.
  rewrite fst_zip; [done|]. rewrite length_fmap. lia.
Qed.

(** C10. [upsert_new_user] for a user who already has a row adds no row;
    in that row it sets the first name, and it leaves every column other
    than the identity columns it lists (user_id, first_name, and
    last_name / username when the event has them) as it was: in
    particular usage, persistence_data and meetings_ts. *)
Theorem upsert_new_user_frame
    (update : Update) (u : User) (w : World) (i : nat) (row : Row) :
  effective_user update = Some u →
  head (outages w) ≠ Some true →
  users w !! i = Some row →
  row !! user_id_column = Some (VUint64 (id u)) →
  let w' := (upsert_new_user update w).2 in
  length (users w') = length (users w)
  ∧ ∃ row',
      users w' !! i = Some row'
      ∧ row' !! first_name_column = Some (VUtf8 (first_name u))
      ∧ (∀ c, c ∉ identity_columns u → row' !! c = row !! c)
      ∧ row' !! usage_column = row !! usage_column
      ∧ row' !! data_column = row !! data_column
      ∧ row' !! meetings_ts_column = row !! meetings_ts_column.
Proof.
  intros Hu Hup Hi Hrow. unfold upsert_new_user. rewrite Hu. unfold_monad.
  rewrite execute_query_runs by done. simpl.
  rewrite upsert_new_user_statement. simpl.
  set (ps := parameters (upsert_new_user_query u)).
  set (vs := identity_values u).
  assert (Hlen : length (identity_columns u) = length vs).
  { unfold identity_columns, vs, identity_values.
    destruct (last_name u), (username u); reflexivity. }
  unfold upsert.
  set (sets := upsert_assignments (identity_columns u) vs).
  assert (Hcols : sets.*1 = identity_columns u)
    by (by apply upsert_assignments_columns).
  assert (Hfresh : foldl (assign ps) ∅ sets !! user_id_column
                   = Some (VUint64 (id u))).
  { unfold sets, vs, ps, identity_columns, identity_values.
    rewrite upsert_new_user_parameters.
    destruct (last_name u), (username u); reflexivity. }
  rewrite Hfresh.
  set (hit := λ r : Row, bool_decide _).
  assert (Hhit : hit row = true).
  { unfold hit. apply bool_decide_eq_true. split; [eauto | done]. }
  assert (Hany : existsb hit (users w) = true).
  { apply existsb_exists. exists row. split; [|done].
    apply list_elem_of_In. by eapply list_elem_of_lookup_2. }
  rewrite Hany. split; [by rewrite length_fmap|].
  exists (foldl (assign ps) row sets).
  assert (Hframe : ∀ c, c ∉ identity_columns u →
                        foldl (assign ps) row sets !! c = row !! c).
  { intros c Hc. apply assign_frame. by rewrite Hcols. }
  split.
  { rewrite list_lookup_fmap, Hi. cbn [fmap option_fmap option_map].
    unfold hit in Hhit. by rewrite Hhit. }
  split.
  { unfold sets, vs, ps, identity_columns, identity_values.
    rewrite upsert_new_user_parameters.
    destruct (last_name u), (username u); simpl; unfold assign; simpl;
      by simplify_map_eq. }
  split; [done|].
  repeat split; apply Hframe; unfold identity_columns;
    destruct (last_name u), (username u); simpl;
    rewrite ?not_elem_of_cons; repeat split; try done;
    apply not_elem_of_nil.
Qed.

Lemma upsert_new_user_frame_witness :
  let w' := (upsert_new_user update_from_alice cold_start).2 in
  length (users w') = length (users cold_start)
  ∧ ∃ row',
      users w' !! 0%nat = Some row'
      ∧ row' !! first_name_column = Some (VUtf8 (first_name alice))
      ∧ (∀ c, c ∉ identity_columns alice → row' !! c = alice_row !! c)
      ∧ row' !! usage_column = alice_row !! usage_column
      ∧ row' !! data_column = alice_row !! data_column
      ∧ row' !! meetings_ts_column = alice_row !! meetings_ts_column.
Proof.
  apply (upsert_new_user_frame update_from_alice alice cold_start 0 alice_row).
  - reflexivity.
  - simpl. congruence.
  - reflexivity.
  - reflexivity.
Defined.

(* ===================================================================== *)
(** ** Round trip *)
(* ===================================================================== *)



(* ===================================================================== *)
(** ** One read, then at most one write *)
(* ===================================================================== *)

(** C1. In an invocation that reaches the dispatcher (the event converts
    to an update that has a user) and whose dispatcher persists through
    [YDBPersistence], the queries added to the log are: first the one
    read of [get_data]; then nothing but the queries of the handlers'
    callbacks; last, at most one write of [update_database] (the wipe or
    the save), which is there whenever the invocation returns.  The
    engine issues no second read and no second write.  An event that is
    not dispatched issues nothing; without a persistence object only the
    callbacks' queries are issued. *)
Theorem one_read_then_at_most_one_write
    (event : Event) (run : option (list Action)) (w : World) :
  let r := (process_update event run w).1 in
  let w' := (process_update event run w).2 in
  match event with
  | Readable (Some update) =>
      match effective_user update with
      | Some u =>
          match persistence (dispatcher w) with
          | Some _ =>
              ∃ between writes,
                issued w' = issued w ++ [get_data_query (id u)]
                                     ++ between ++ writes
                ∧ (between = [] ∧ writes = []
                   ∨ between = handler_queries run)
                ∧ (writes = []
                   ∨ writes = [wipe_query (id u)]
                   ∨ ∃ document, writes = [save_query (id u) document])
                ∧ (∀ response, r = Returned response →
                     between = handler_queries run ∧ writes ≠ [])
          | None => issued w' = issued w ++ handler_queries run
          end
      | None => issued w' = issued w
      end
  | _ => issued w' = issued w
  end.
Proof.
  destruct event as [|[update|]]; [done| |done].
  lazy beta iota zeta.
  destruct (effective_user update) as [u|] eqn:Hu;
    [|by unfold process_update; rewrite Hu].
  rewrite (process_update_stages update u) by done.
  rewrite bind_eq. unfold load_and_dispatch. rewrite bind_eq.
  pose proof (load_persistence_data_issued (id u) w) as Hlog1.
  pose proof (load_persistence_data_persistence (id u) w) as Hp1.
  destruct (load_persistence_data (id u) w) as [[[]|e] w1] eqn:Hload;
    simpl in *.
  - destruct (Dispatcher_process_update_returns update run w1)
      as (w2 & -> & Hlog2 & Hp2).
    destruct (strip_and_save_issued update u w2)
      as (writes & Hlog3 & Hwrites & Hret).
    destruct (strip_and_save update u w2) as [r3 w3]; simpl in *.
    destruct (persistence (dispatcher w)) as [p|] eqn:Hp.
    + exists (handler_queries run), writes.
      split; [by rewrite Hlog3, Hlog2, Hlog1, <- !app_assoc|].
      split; [by right|].
      split; [destruct Hwrites as [|[_ [|]]]; eauto|].
      intros response ->. split; [done|].
      apply (Hret response); [done|]. apply Hp2, Hp1. eauto.
    + rewrite Hlog3, Hlog2, Hlog1, app_nil_r.
      destruct Hwrites as [->|[Hsome _]]; [by rewrite app_nil_r|].
      apply Hp2, Hp1 in Hsome. by destruct Hsome.
  - destruct (persistence (dispatcher w)) as [p|] eqn:Hp.
    + exists [], []. rewrite Hlog1. simpl.
      split; [done|]. split; [by left|]. split; [by left|]. done.
    + exfalso. revert Hload. unfold load_persistence_data.
      rewrite bind_eq. unfold get_dispatcher. by rewrite Hp.
Qed.

(* ===================================================================== *)
(** ** A fault wipes the record *)
(* ===================================================================== *)




(* ===================================================================== *)
(** ** An unknown event resets every conversation *)
(* ===================================================================== *)

Lemma set_user_data_kept (key : list Z) (ud : gmap Z json) (w : World) :
  kept key w (set_dispatcher (set_user_data ud (dispatcher w)) w).
Proof.
  apply kept_same_conversations; try done. simpl. intros p' Hp'. eauto.
Qed.

Lemma holds_registered (key : list Z) (n : string)
    (d : PersistentDispatcher) :
  existsb (holds key n) (flat (groups d) (handlers d)) = true
  ↔ ∃ h, registered h d ∧ name h = n ∧ is_Some (conversations h !! key).
Proof.
  rewrite existsb_exists. split.
  - intros ([c|] & Hin & Hholds); [|done].
    apply bool_decide_eq_true in Hholds as [? ?].
    exists c. split; [|done]. by apply registered_flat, list_elem_of_In.
  - intros (h & Hreg & Hn & Hk). exists (Conversation h). split.
    + by apply list_elem_of_In, registered_flat.
    + by apply bool_decide_eq_true.
Qed.

(** With the UNKNOWN flag set after dispatch, exactly one query follows:
    the wipe when the ERROR flag is set as well, otherwise the save of a
    document in which no registered conversation has a state. *)
Lemma raised_unknown_resets
    (update : Update) (u : User) (run : option (list Action))
    (w w1 : World) (entry : gmap string json) (v : json) :
  effective_user update = Some u →
  is_Some (persistence (dispatcher w)) →
  well_formed (dispatcher w) →
  load_and_dispatch update u run w = (Returned tt, w1) →
  user_data (dispatcher w1) !! id u = Some (JObj entry) →
  entry !! "UNKNOWN" = Some v →
  truthy v = true →
  let w' := (process_update (Readable (Some update)) run w).2 in
  ∃ scratch states,
    issued w' =
      issued w1
      ++ [if truthy (default (JBool false) (entry !! "ERROR"))
          then wipe_query (id u)
          else save_query (id u) (JObj (document scratch states))]
    ∧ ∀ h, registered h (dispatcher w) → states !! name h = None.
Proof.
  intros Hu Hp Hwf Hw1 Hentry Hunknown Hv.
  destruct (load_and_dispatch_kept update u run w w1 Hu Hp Hwf Hw1)
    as (Hwf1 & Hsync1 & Hnames1).
  assert (Hp1 : is_Some (persistence (dispatcher w1))).
  { revert Hw1. unfold load_and_dispatch. rewrite bind_eq.
    pose proof (load_persistence_data_persistence (id u) w) as Hl.
    destruct (load_persistence_data (id u) w) as [[[]|e] w0]; [|done].
    destruct (Dispatcher_process_update_returns update run w0)
      as (w1' & -> & _ & Hd).
    intros [= <-]. apply Hd, Hl, Hp. }
  cbv zeta.
  remember (process_update (Readable (Some update)) run w) as result
    eqn:Hrun.
  rewrite (process_update_stages update u) in Hrun by done.
  rewrite bind_eq, Hw1 in Hrun. unfold strip_and_save in Hrun.
  rewrite bind_eq, (pop_flag_entry _ _ _ entry) in Hrun by done.
  rewrite Hunknown in Hrun. simpl in Hrun.
  pose proof (set_user_data_kept [id u]
                (<[id u := JObj (delete "UNKNOWN" entry)]>
                   (user_data (dispatcher w1))) w1) as Hk2.
  set (w2 := set_dispatcher _ w1) in Hrun, Hk2.
  assert (Hentry2 : user_data (dispatcher w2) !! id u
                    = Some (JObj (delete "UNKNOWN" entry))).
  { unfold w2. simpl. by rewrite lookup_insert_eq. }
  rewrite bind_eq, (pop_flag_entry _ _ _ (delete "UNKNOWN" entry))
    in Hrun by done.
  rewrite lookup_delete_ne in Hrun by done.
  pose proof (set_user_data_kept [id u]
                (<[id u := JObj (delete "ERROR" (delete "UNKNOWN" entry))]>
                   (user_data (dispatcher w2))) w2) as Hk3.
  set (w3 := set_dispatcher _ w2) in Hrun, Hk3.
  set (error := default (JBool false) (entry !! "ERROR")) in *.
  rewrite Hv in Hrun. simpl in Hrun. rewrite bind_eq in Hrun.
  destruct (update_persistence_kept update [id u] w3) as (w4 & Hw4 & Hk4).
  rewrite Hw4, bind_eq in Hrun.
  assert (Hlog4 : issued w4 = issued w1).
  { rewrite update_persistence_world in Hw4. by simplify_eq. }
  assert (Hp4 : is_Some (persistence (dispatcher w4))).
  { rewrite update_persistence_world in Hw4. simplify_eq. simpl.
    by apply update_persistence_is_Some. }
  pose proof (kept_trans _ _ _ _ (kept_trans _ _ _ _ Hk2 Hk3) Hk4)
    as (Hwf4 & Hsync4 & Hnames4).
  specialize (Hwf4 Hwf1). specialize (Hsync4 Hwf1 Hsync1).
  specialize (Hnames4 Hwf1).
  clear Hk2 Hk3 Hk4 Hw4 Hentry2. clearbody w2 w3.
  destruct Hp4 as [p4 Hp4].
  destruct (end_conversations_returns update u w4 p4 Hu Hp4 Hwf4)
    as (w5 & p5 & Hend & Hp5 & Hud5 & _ & _ & Hlog5 & _ & Hstates).
  rewrite Hend, bind_eq in Hrun.
  unfold update_persistence_database in Hrun.
  rewrite bind_eq in Hrun. unfold get_dispatcher in Hrun.
  rewrite Hp5 in Hrun.
  exists (scratch_of (id u) p5), (states_of (id u) p5). split.
  - pose proof (update_database_issued (id u) error p5 w5) as Hlog.
    rewrite dump_document in Hlog.
    destruct (update_database (id u) error p5 w5) as [[[]|e] w6];
      subst result; simpl in *; congruence.
  - intros h Hh. rewrite states_of_lookup.
    assert (Hnull : stored_state [id u] (name h) p5 = JNull);
      [|by rewrite Hnull].
    rewrite Hstates.
    destruct (existsb _ _) eqn:Hany; [done|].
    destruct (decide (stored_state [id u] (name h) p4 = JNull))
      as [|Hstate]; [done|].
    exfalso.
    destruct (proj2 (Hnames4 (name h))) as (h4 & Hh4 & Hn4).
    { apply Hnames1. eauto. }
    rewrite <- Hn4 in Hstate.
    destruct (Hsync4 p4 h4 Hp4 Hh4 Hstate) as (h' & Hh' & Hn' & Hk').
    assert (existsb (holds [id u] (name h))
                    (flat (groups (dispatcher w4)) (handlers (dispatcher w4)))
            = true); [|congruence].
    apply holds_registered. exists h'. split; [done|]. split; congruence.
Qed.


(** *** From the update to the flag *)

Lemma first_match_last (update : Update) (group : list Route)
    (last : Route) :
  unmatched update group →
  check_update last update = true →
  first_match update (group ++ [last]) = Some (handle_update last update).
Proof.
  intros Hno Hlast. induction Hno as [|handler group Hcheck _ IH]; simpl.
  - by rewrite Hlast.
  - by rewrite Hcheck.
Qed.

(** An update no business handler accepts is answered by [on_unknown];
    the later groups run as they do for every update. *)
Lemma bot_run_unmatched (telegram telegram' : Telegram)
    (business : list Route) (later : list (list Route))
    (update : Update) :
  unmatched update business →
  bot_run telegram telegram' business later update
  = Some (Scratch (handled (on_unknown telegram update)
                           (on_error telegram' update))
          :: concat (omap (first_match update) later)).
Proof.
  intros Hno. unfold bot_run, route. cbn [omap list_omap].
  by rewrite (first_match_last update business
                (catch_all telegram telegram') Hno eq_refl).
Qed.

Lemma first_match_handler (update : Update) (group : list Route)
    (actions : list Action) :
  first_match update group = Some actions →
  ∃ handler, handler ∈ group ∧ actions = handle_update handler update.
Proof.
  induction group as [|handler group IH]; [done|]. simpl.
  destruct (check_update handler update).
  - intros [= <-]. exists handler. split; [|done].
    apply list_elem_of_here.
  - intros Hlater. destruct (IH Hlater) as (handler' & Hin & ->).
    exists handler'. split; [|done]. by apply list_elem_of_further.
Qed.

Lemma later_disciplined (update : Update) (later : list (list Route)) :
  disciplined_groups update later →
  Forall disciplined (concat (omap (first_match update) later)).
Proof.
  induction later as [|group later IH]; intros Hlater; [constructor|].
  assert (Hrest : Forall disciplined
                    (concat (omap (first_match update) later))).
  { apply IH. intros g handler Hg. apply Hlater.
    by apply list_elem_of_further. }
  cbn [omap list_omap].
  destruct (first_match update group) as [actions|] eqn:Hmatch; [|done].
  destruct (first_match_handler update group actions Hmatch)
    as (handler & Hin & ->).
  simpl. apply Forall_app. split; [|done].
  apply (Hlater group handler); [apply list_elem_of_here|done].
Qed.

(** The reply to a plain message goes through when it is delivered or
    times out, and raises what the call raises otherwise. *)
Lemma on_top_message (telegram : Telegram) (update : Update)
    (text : string) (received : Tg.Message) :
  callback_query update = None →
  effective_message update = Some received →
  on_top telegram update (Some text) None false
  = match telegram Tg.reply_text with
    | Tg.Delivered => Returned tt
    | Tg.Failed message =>
        if contains "Timed out" message then Returned tt
        else Raised (TelegramError message)
    end.
Proof.
  intros Hquery Hmessage.
  unfold on_top, reply_or_edit_message, reply_message, reply, call.
  rewrite Hquery, Hmessage.
  by destruct (telegram Tg.reply_text) as [|message].
Qed.

(** When its reply goes through, [on_unknown] returns with the flag
    set; when the reply raises, it raises and has changed nothing. *)
Lemma on_unknown_cases (telegram : Telegram) (update : Update)
    (user_data : gmap string json) :
  match on_top telegram update (Some did_not_understand) None false with
  | Returned _ =>
      (on_unknown telegram update user_data).1 = Returned tt
      ∧ (on_unknown telegram update user_data).2 !! "UNKNOWN"
        = Some (JBool true)
  | Raised e => on_unknown telegram update user_data = (Raised e, user_data)
  end.
Proof.
  unfold on_unknown.
  destruct (on_top telegram update _ None false) as [[]|e]; [|done].
  split; [done|]. simpl. by rewrite lookup_insert_eq.
Qed.

Lemma handled_on_unknown (telegram telegram' : Telegram) (update : Update)
    (user_data : gmap string json) :
  on_top telegram update (Some did_not_understand) None false
  = Returned tt →
  handled (on_unknown telegram update) (on_error telegram' update)
          user_data !! "UNKNOWN" = Some (JBool true).
Proof.
  intros Hreply. unfold handled.
  pose proof (on_unknown_cases telegram update user_data) as Hcases.
  rewrite Hreply in Hcases. destruct Hcases as [Hret Hflag].
  destruct (on_unknown telegram update user_data) as [[[]|e] m]; [done|].
  discriminate.
Qed.

(** The flag, once set, stays while disciplined callbacks run. *)
Lemma run_action_flagged (update : Update) (u : User) (a : Action)
    (w : World) :
  effective_user update = Some u →
  disciplined a →
  flagged (id u) w →
  flagged (id u) (run_action update a w).2.
Proof.
  intros Hu Ha. unfold flagged. destruct a as [callback|g i s|q].
  - simpl. rewrite bind_eq. unfold get_dispatcher at 1. rewrite Hu.
    destruct (user_data (dispatcher w) !! id u) as [[| | | | |m]|] eqn:Hm;
      simpl; rewrite ?Hm; try done.
    rewrite lookup_insert_eq. intros Hflag.
    by destruct (Ha m "UNKNOWN" (or_introl eq_refl)) as [-> | ->].
  - destruct (transition_kept update u g i s w Hu)
      as (w' & -> & _ & _ & _ & Hud & _).
    simpl. by rewrite Hud.
  - simpl. unfold swallow. simpl. by rewrite execute_query_dispatcher.
Qed.

Lemma run_actions_flagged (update : Update) (u : User)
    (actions : list Action) (w : World) :
  effective_user update = Some u →
  Forall disciplined actions →
  flagged (id u) w →
  flagged (id u) (run_actions update actions w).2.
Proof.
  intros Hu Hall. revert w.
  induction Hall as [|a rest Ha _ IH]; intros w Hflag; [done|].
  simpl. rewrite bind_eq.
  pose proof (run_action_flagged update u a w Hu Ha Hflag) as Hflag1.
  destruct (run_action_returns update a w) as (w1 & Hw1 & _).
  rewrite Hw1 in Hflag1 |- *. by apply IH.
Qed.

Lemma scratch_flagged (update : Update) (u : User)
    (callback : gmap string json → gmap string json) (w : World) :
  effective_user update = Some u →
  (∀ m, callback m !! "UNKNOWN" = Some (JBool true)) →
  is_Some (user_data (dispatcher w) !! id u) →
  flagged (id u) (run_action update (Scratch callback) w).2.
Proof.
  intros Hu Hcallback [v Hv]. unfold flagged. simpl. rewrite bind_eq.
  unfold get_dispatcher at 1. rewrite Hu, Hv.
  destruct v as [| | | | |m]; simpl; rewrite ?Hv; try done.
  by rewrite lookup_insert_eq.
Qed.

Lemma from_update_entry (update : Update) (u : User) (w : World) :
  effective_user update = Some u →
  is_Some (user_data (dispatcher (from_update update w).2) !! id u).
Proof.
  intros Hu. unfold from_update. rewrite bind_eq.
  unfold get_dispatcher at 1. rewrite Hu.
  destruct (user_data (dispatcher w) !! id u) as [v|] eqn:Hv; simpl.
  - by rewrite Hv.
  - by rewrite lookup_insert_eq.
Qed.

(** Dispatch of a run that starts with a callback setting the flag. *)
Lemma dispatch_flagged (update : Update) (u : User)
    (callback : gmap string json → gmap string json)
    (rest : list Action) (w w1 : World) (entry : gmap string json) :
  effective_user update = Some u →
  (∀ m, callback m !! "UNKNOWN" = Some (JBool true)) →
  Forall disciplined rest →
  load_and_dispatch update u (Some (Scratch callback :: rest)) w
  = (Returned tt, w1) →
  user_data (dispatcher w1) !! id u = Some (JObj entry) →
  entry !! "UNKNOWN" = Some (JBool true).
Proof.
  intros Hu Hcallback Hrest. unfold load_and_dispatch. rewrite bind_eq.
  destruct (load_persistence_data (id u) w) as [[[]|e] w0]; [|done].
  unfold Dispatcher_process_update. rewrite bind_eq.
  pose proof (from_update_entry update u w0 Hu) as Ha.
  destruct (from_update_returns update w0) as (wa & Hwa & _).
  rewrite Hwa in Ha |- *. cbn [snd] in Ha.
  rewrite bind_eq. cbn [run_actions]. rewrite bind_eq.
  pose proof (scratch_flagged update u callback wa Hu Hcallback Ha) as Hb.
  destruct (run_action_returns update (Scratch callback) wa)
    as (wb & Hwb & _).
  rewrite Hwb in Hb |- *. cbn [snd] in Hb.
  pose proof (run_actions_flagged update u rest wb Hu Hrest Hb) as Hc.
  destruct (run_actions_returns update rest wb) as (wc & Hwc & _).
  rewrite Hwc in Hc |- *. cbn [snd] in Hc.
  rewrite update_persistence_world. intros [= <-].
  unfold flagged in Hc. simpl. unfold Ptb.update_persistence.
  rewrite Hu.
  destruct (user_data (dispatcher wc) !! id u) as [v|] eqn:Hv; [|done].
  destruct (persistence (dispatcher wc)); simpl.
  - rewrite lookup_insert_eq. simpl. by intros [= ->].
  - rewrite Hv. by intros [= ->].
Qed.

(** Counting a use stores no flag. *)
Lemma update_usage_disciplined (incremented : option Value → Value)
    (user_id : Z) :
  disciplined (Issue (update_usage_query incremented user_id)).
Proof.
  intros t Hclean row m Hrow Hcell. simpl in Hrow.
  apply list_elem_of_fmap in Hrow as (r & -> & Hr).
  destruct (where_eq _ _ _ r); [|by apply (Hclean r)].
  rewrite lookup_insert_ne in Hcell by discriminate.
  by apply (Hclean r).
Qed.

(** C4, as stated, fails when the reply of [on_unknown] fails.
    [on_unknown] sends its reply before anything else, and a failure of
    the reply that is not a timeout is raised again: [on_unknown] then
    raises without having set the flag or touched [context.user_data].
    The update of Alice is accepted by no business handler while the
    gateway of Telegram is down: the catch-all raises, the message of
    [on_error] fails as well, so no flag is set; the invocation
    completes with the normal save, and the stored document still has
    the state of the memes conversation. *)
Lemma failed_reply_keeps_conversations :
  let run := bot_run bad_gateway bad_gateway [memes_entry] [[usage_counted]]
                     update_from_alice in
  let w1 := (load_and_dispatch update_from_alice alice run browsing).2 in
  let result :=
    process_update (Readable (Some update_from_alice)) run browsing in
  (∀ telegram update e user_data,
     on_top telegram update (Some did_not_understand) None false
     = Raised e →
     on_unknown telegram update user_data = (Raised e, user_data))
  ∧ unmatched update_from_alice [memes_entry]
  ∧ registered mortuary_conv (dispatcher browsing)
  ∧ on_unknown bad_gateway update_from_alice ∅
    = (Raised (TelegramError "Bad Gateway"), ∅)
  ∧ dict_get 7 (user_data (dispatcher w1))
    = JObj {[ "seen_memes" := JArr [JInt 4] ]}
  ∧ result.1 = Returned OK_RESPONSE
  ∧ stored_for 7 result.2
    = [Some (VJson (JObj (<[ "user_data" :=
                               JObj {[ "seen_memes" := JArr [JInt 4] ]} ]>
                            {[ "conversations" :=
                                 JObj {[ "mortuary_conv" :=
                                     JStr "MORTUARY_CHOOSE_ACTION" ]} ]})))].
Proof.
  intros run w1 result. split.
  { intros telegram update e user_data Hreply.
    pose proof (on_unknown_cases telegram update user_data) as Hcases.
    by rewrite Hreply in Hcases. }
  split; [by repeat constructor|].
  split.
  { exists 0, 0%nat. split; [by vm_compute; left|].
    eexists. split; by vm_compute. }
  split; [by vm_compute|]. split; [by vm_compute|].
  split; by vm_compute.
Qed.

(** C4, amended.  For an update that no business handler of the primary
    group accepts, the callback that runs in that group is the one of
    the catch-all handler, [on_unknown] (with [on_error] behind it).
    When the reply of [on_unknown] goes through (it is delivered, or it
    times out, which is swallowed), [on_unknown] returns with the
    UNKNOWN flag set, and the flag is in the user's scratch entry when
    dispatch is over, whatever the disciplined callbacks of the later
    groups do.  Then exactly one query follows dispatch, the write,
    whatever else happened: it is the wipe when the ERROR flag is set
    as well; otherwise it saves a document in which no conversation
    registered with the dispatcher has a state.  When the reply raises
    instead, [on_unknown] raises the same exception and leaves
    [context.user_data] as it was, flag included. *)
Theorem unknown_event_resets_conversations
    (telegram telegram' : Telegram) (business : list Route)
    (later : list (list Route)) (update : Update) (u : User)
    (w w1 : World) (entry : gmap string json) :
  effective_user update = Some u →
  is_Some (persistence (dispatcher w)) →
  well_formed (dispatcher w) →
  unmatched update business →
  disciplined_groups update later →
  on_top telegram update (Some did_not_understand) None false
  = Returned tt →
  load_and_dispatch update u
    (bot_run telegram telegram' business later update) w
  = (Returned tt, w1) →
  user_data (dispatcher w1) !! id u = Some (JObj entry) →
  let w' :=
    (process_update (Readable (Some update))
       (bot_run telegram telegram' business later update) w).2 in
  (∃ rest,
     bot_run telegram telegram' business later update
     = Some (Scratch (handled (on_unknown telegram update)
                              (on_error telegram' update)) :: rest))
  ∧ (∀ user_data,
     (on_unknown telegram update user_data).1 = Returned tt
     ∧ (on_unknown telegram update user_data).2 !! "UNKNOWN"
       = Some (JBool true))
  ∧ entry !! "UNKNOWN" = Some (JBool true)
  ∧ (∃ scratch states,
       issued w' =
         issued w1
         ++ [if truthy (default (JBool false) (entry !! "ERROR"))
             then wipe_query (id u)
             else save_query (id u) (JObj (document scratch states))]
       ∧ ∀ h, registered h (dispatcher w) → states !! name h = None)
  ∧ ∀ failing e user_data,
      on_top failing update (Some did_not_understand) None false
      = Raised e →
      on_unknown failing update user_data = (Raised e, user_data).
Proof.
  intros Hu Hp Hwf Hno Hlater Hreply Hw1 Hentry.
  assert (Hflag : entry !! "UNKNOWN" = Some (JBool true)).
  { rewrite bot_run_unmatched in Hw1 by done.
    eapply (dispatch_flagged update u _ _ w w1 entry Hu);
      [| |exact Hw1|done].
    - intros m. by apply handled_on_unknown.
    - by apply later_disciplined. }
  split; [eexists; by apply bot_run_unmatched|].
  split.
  { intros user_data.
    pose proof (on_unknown_cases telegram update user_data) as Hcases.
    by rewrite Hreply in Hcases. }
  split; [done|]. split.
  { by apply (raised_unknown_resets update u _ w w1 entry (JBool true)). }
  intros failing e user_data Hfails.
  pose proof (on_unknown_cases failing update user_data) as Hcases.
  by rewrite Hfails in Hcases.
Qed.

Lemma unknown_event_resets_conversations_witness :
  let run := bot_run timing_out bad_gateway [memes_entry] [[usage_counted]]
                     update_from_alice in
  let w1 := (load_and_dispatch update_from_alice alice run browsing).2 in
  let w' :=
    (process_update (Readable (Some update_from_alice)) run browsing).2 in
  (∃ rest,
     run = Some (Scratch (handled (on_unknown timing_out update_from_alice)
                                  (on_error bad_gateway update_from_alice))
                 :: rest))
  ∧ (∀ user_data,
     (on_unknown timing_out update_from_alice user_data).1 = Returned tt
     ∧ (on_unknown timing_out update_from_alice user_data).2 !! "UNKNOWN"
       = Some (JBool true))
  ∧ <[ "UNKNOWN" := JBool true ]>
      ({[ "seen_memes" := JArr [JInt 4] ]} : gmap string json)
    !! "UNKNOWN" = Some (JBool true)
  ∧ (∃ scratch states,
      issued w' =
        issued w1
        ++ [if truthy
                 (default (JBool false)
                    (<[ "UNKNOWN" := JBool true ]>
                       ({[ "seen_memes" := JArr [JInt 4] ]}
                          : gmap string json) !! "ERROR"))
            then wipe_query (id alice)
            else save_query (id alice) (JObj (document scratch states))]
      ∧ ∀ h, registered h (dispatcher browsing) →
             states !! name h = None)
  ∧ ∀ failing e user_data,
      on_top failing update_from_alice (Some did_not_understand) None
             false = Raised e →
      on_unknown failing update_from_alice user_data
      = (Raised e, user_data).
Proof.
  intros run w1.
  apply (unknown_event_resets_conversations timing_out bad_gateway
           [memes_entry] [[usage_counted]] update_from_alice alice
           browsing w1
           (<[ "UNKNOWN" := JBool true ]>
              {[ "seen_memes" := JArr [JInt 4] ]})).
  - reflexivity.
  - vm_compute. eauto.
  - apply well_formed_check_correct, (bool_decide_unpack _).
    vm_compute. exact I.
  - by repeat constructor.
  - intros group handler Hgroup Hhandler.
    apply list_elem_of_singleton in Hgroup. subst group.
    apply list_elem_of_singleton in Hhandler. subst handler.
    simpl. constructor; [|constructor].
    apply update_usage_disciplined.
  - vm_compute. reflexivity.
  - vm_compute. reflexivity.
  - vm_compute. reflexivity.
Defined.

(** ** C6: the flags are never persisted *)



(** ** C5: the sections of the document *)

(** C5, as stated, fails on the scratch section.  A scratch entry that
    exists and is empty is serialized as ["user_data": {}]: the
    serializer tests it against [None], not for emptiness.  So the new
    user who starts ["C"] at ["A"] has the document
    [{"user_data": {}, "conversations": {"C": "A"}}] stored, which is
    not [{"conversations": {"C": "A"}}]. *)
Lemma empty_scratch_is_serialized :
  scratch_of 7 empty_scratch = JObj ∅
  ∧ _dump_into_json 7 empty_scratch = JObj {[ "user_data" := JObj ∅ ]}
  ∧ stored_for 7 after_entry
    = [Some (VJson (JObj (<[ "user_data" := JObj ∅ ]>
                            {[ "conversations" :=
                                 JObj {[ "C" := JStr "A" ]} ]})))]
  ∧ stored_for 7 after_entry
    ≠ [Some (VJson (JObj {[ "conversations" :=
                              JObj {[ "C" := JStr "A" ]} ]}))].
Proof.
  split; [by vm_compute|]. split; [by vm_compute|].
  assert (H : stored_for 7 after_entry
              = [Some (VJson (JObj (<[ "user_data" := JObj ∅ ]>
                                      {[ "conversations" :=
                                           JObj {[ "C" := JStr "A" ]} ]})))])
    by (by vm_compute).
  split; [done|]. rewrite H. vm_compute. discriminate.
Qed.

(** C5, amended.  The document is a dictionary with no key other than
    ["user_data"] and ["conversations"].  It has ["user_data"] exactly
    when the user has a scratch entry (an empty one included), and the
    value is that entry; it has ["conversations"] exactly when some
    conversation holds a state for the user, and the value maps each
    such conversation to its state.  For the new user who starts ["C"]
    at ["A"], the stored document is
    [{"user_data": {}, "conversations": {"C": "A"}}]; after the event
    that ends ["C"] it is [{"user_data": {}}], without a
    ["conversations"] key, in the same process or in a new one. *)
Theorem dump_into_json_sections :
  (∀ (user_id : Z) (p : YDBPersistence),
     ∃ to_dump : gmap string json,
       _dump_into_json user_id p = JObj to_dump
       ∧ dom to_dump ⊆ ({["user_data"; "conversations"]} : gset string)
       ∧ to_dump !! "user_data"
         = (if is_not_None (scratch_of user_id p)
            then Some (scratch_of user_id p) else None)
       ∧ to_dump !! "conversations"
         = (if bool_decide (states_of user_id p = ∅)
            then None else Some (JObj (states_of user_id p)))
       ∧ ∀ conv_name state,
           states_of user_id p !! conv_name = Some state
           ↔ state ≠ JNull
             ∧ ∃ conv_data,
                 default ∅ (_conversations p) !! conv_name = Some conv_data
                 ∧ dict_get [user_id] conv_data = state)
  ∧ stored_for 7 new_user = []
  ∧ stored_for 7 after_entry
    = [Some (VJson (JObj (<[ "user_data" := JObj ∅ ]>
                            {[ "conversations" :=
                                 JObj {[ "C" := JStr "A" ]} ]})))]
  ∧ stored_for 7 after_end
    = [Some (VJson (JObj {[ "user_data" := JObj ∅ ]}))]
  ∧ stored_for 7 after_end_cold
    = [Some (VJson (JObj {[ "user_data" := JObj ∅ ]}))].
Proof.
  split; [|repeat split; by vm_compute].
  intros user_id p.
  exists (document (scratch_of user_id p) (states_of user_id p)).
  split; [apply dump_document|]. split; [apply document_dom|].
  split; [|split].
  - unfold document.
    destruct (is_not_None (scratch_of user_id p));
      destruct (bool_decide (states_of user_id p = ∅));
      by rewrite ?lookup_insert_ne, ?lookup_singleton_eq, ?lookup_empty
        by done.
  - unfold document.
    destruct (is_not_None (scratch_of user_id p));
      destruct (bool_decide (states_of user_id p = ∅));
      by rewrite ?lookup_insert_eq, ?lookup_singleton_ne, ?lookup_empty
        by done.
  - intros conv_name state. unfold states_of.
    rewrite lookup_omap.
    destruct (default ∅ (_conversations p) !! conv_name)
      as [conv_data|] eqn:Hconv; simpl.
    + unfold state_of.
      destruct (is_not_None (dict_get [user_id] conv_data)) eqn:Hstate.
      * apply is_not_None_true in Hstate. split.
        -- intros [= <-]. split; [done|]. by exists conv_data.
        -- intros (_ & conv_data' & [= <-] & <-). done.
      * apply is_not_None_false in Hstate. split; [done|].
        intros (Hne & conv_data' & [= <-] & <-). done.
    + split; [done|]. by intros (_ & conv_data' & ? & _).
Qed.

(* ===================================================================== *)
(** ** The write and the table *)
(* ===================================================================== *)

Lemma row_of_where (user_id : Z) (r : Row) :
  where_eq user_id_column "$user_id" [("$user_id", VUint64 user_id)] r
  = row_of user_id r.
Proof.
  unfold where_eq, row_of. simpl.
  destruct (r !! user_id_column) as [v|]; simpl.
  - apply bool_decide_ext. split; congruence.
  - done.
Qed.

Lemma row_of_where_data (user_id : Z) (document : json) (r : Row) :
  where_eq user_id_column "$user_id"
           [("$user_id", VUint64 user_id); ("$data", VJson document)] r
  = row_of user_id r.
Proof.
  unfold where_eq, row_of. simpl.
  destruct (r !! user_id_column) as [v|]; simpl.
  - apply bool_decide_ext. split; congruence.
  - done.
Qed.

(** The table after [update_database]. *)
Lemma update_database_users (user_id : Z) (error : json)
    (p : YDBPersistence) (w : World) :
  users (update_database user_id error p w).2 =
    if bool_decide (head (outages w) = Some true)
    then users w
    else (λ r, if row_of user_id r then written user_id error p r else r)
           <$> users w.
Proof.
  unfold update_database, written. rewrite bind_eq.
  case_bool_decide as Hdown.
  - destruct (truthy error); by rewrite execute_query_outage.
  - destruct (truthy error); rewrite execute_query_runs by done; simpl;
      apply list_fmap_ext; intros i r _.
    + rewrite row_of_where. by destruct (row_of user_id r).
    + rewrite row_of_where_data. by destruct (row_of user_id r).
Qed.

Lemma update_database_outcome (user_id : Z) (error : json)
    (p : YDBPersistence) (w : World) :
  (update_database user_id error p w).1 =
    if bool_decide (head (outages w) = Some true)
    then Raised StoreError else Returned tt.
Proof.
  unfold update_database. rewrite bind_eq.
  case_bool_decide as Hdown.
  - destruct (truthy error); by rewrite execute_query_outage.
  - destruct (truthy error); by rewrite execute_query_runs.
Qed.

Lemma update_database_outages (user_id : Z) (error : json)
    (p : YDBPersistence) (w : World) :
  outages (update_database user_id error p w).2 = tail (outages w).
Proof.
  unfold update_database. rewrite bind_eq.
  destruct (decide (head (outages w) = Some true)) as [Hdown|Hup].
  - destruct (truthy error); by rewrite execute_query_outage.
  - destruct (truthy error); by rewrite execute_query_runs.
Qed.

Lemma rows_of_fmap_written (user_id : Z) (error : json)
    (p : YDBPersistence) (t : Table) :
  rows_of user_id
    ((λ r, if row_of user_id r then written user_id error p r else r) <$> t)
  = written user_id error p <$> rows_of user_id t.
Proof.
  assert (Hkey : ∀ r', (written user_id error p r') !! user_id_column
                       = r' !! user_id_column).
  { intros r'. unfold written. destruct (truthy error).
    - by rewrite !lookup_delete_ne.
    - by rewrite lookup_insert_ne. }
  unfold rows_of. induction t as [|r t IH]; [done|].
  rewrite fmap_cons.
  destruct (row_of user_id r) eqn:Hrow.
  - pose proof Hrow as Hr. unfold row_of in Hr.
    apply bool_decide_eq_true in Hr.
    rewrite (filter_cons_True _ (written user_id error p r))
      by (by rewrite Hkey).
    rewrite (filter_cons_True _ r) by done.
    by rewrite fmap_cons, IH.
  - pose proof Hrow as Hr. unfold row_of in Hr.
    apply bool_decide_eq_false in Hr.
    by rewrite !filter_cons_False by done.
Qed.

Lemma head_tail_lookup {A} (l : list A) :
  head l = l !! 0%nat ∧ head (tail l) = l !! 1%nat.
Proof. by destruct l as [|? [|? ?]]. Qed.

(** X1.  A user without a row: [update_database] returns (when the
    store answers) and the table is what it was, for the save and for
    the wipe alike, since the [UPDATE] matches no row; the working
    state is not stored, and the next read gives the empty state. *)
Theorem update_database_without_row (user_id : Z) (error : json)
    (p : YDBPersistence) (w : World) :
  rows_of user_id (users w) = [] →
  store_up 2 w →
  let w' := (update_database user_id error p w).2 in
  (update_database user_id error p w).1 = Returned tt
  ∧ users w' = users w
  ∧ (get_data user_id w').1 = Returned (JObj ∅).
Proof.
  intros Hrows Hup. cbv zeta.
  destruct (head_tail_lookup (outages w)) as [H0 H1].
  assert (Hup0 : head (outages w) ≠ Some true)
    by (rewrite H0; apply Hup; lia).
  assert (Hup1 : head (tail (outages w)) ≠ Some true)
    by (rewrite H1; apply Hup; lia).
  assert (Husers : users (update_database user_id error p w).2 = users w).
  { rewrite update_database_users, bool_decide_eq_false_2 by done.
    rewrite <- (list_fmap_id (users w)) at 2.
    apply list_fmap_ext. intros i r Hr. simpl.
    destruct (row_of user_id r) eqn:Hrow; [|done].
    apply bool_decide_eq_true in Hrow.
    assert (Hin : r ∈ rows_of user_id (users w)).
    { unfold rows_of. apply list_elem_of_filter. split; [done|].
      by eapply list_elem_of_lookup_2. }
    rewrite Hrows in Hin. by apply elem_of_nil in Hin. }
  split; [by rewrite update_database_outcome, bool_decide_eq_false_2|].
  split; [done|].
  rewrite get_data_result by (by rewrite update_database_outages).
  by rewrite Husers, Hrows.
Qed.

Lemma update_database_without_row_witness :
  let w := mkWorld started_dispatcher [] [] [] in
  let w' := (update_database 7 (JBool false) browsing_memes w).2 in
  (update_database 7 (JBool false) browsing_memes w).1 = Returned tt
  ∧ users w' = users w
  ∧ (get_data 7 w').1 = Returned (JObj ∅).
Proof.
  apply (update_database_without_row 7 (JBool false) browsing_memes
           (mkWorld started_dispatcher [] [] [])).
  - reflexivity.
  - intros i _. simpl. by rewrite lookup_nil.
Defined.

(** X2.  Whatever the outcome, [update_database] keeps the number and
    the order of the rows; a row of another user is left as it is; in a
    row of the user every column other than [persistence_data] and
    [meetings_ts] keeps its value, and the save (no error) keeps
    [meetings_ts] as well. *)
Theorem update_database_frame (user_id : Z) (error : json)
    (p : YDBPersistence) (w : World) (i : nat) (row : Row) :
  users w !! i = Some row →
  let w' := (update_database user_id error p w).2 in
  length (users w') = length (users w)
  ∧ ∃ row',
      users w' !! i = Some row'
      ∧ (row !! user_id_column ≠ Some (VUint64 user_id) → row' = row)
      ∧ (∀ c, c ≠ data_column → c ≠ meetings_ts_column →
              row' !! c = row !! c)
      ∧ (truthy error = false →
         row' !! meetings_ts_column = row !! meetings_ts_column).
Proof.
  intros Hrow. cbv zeta. rewrite update_database_users.
  case_bool_decide as Hdown.
  - split; [done|]. exists row. by repeat split.
  - split; [by rewrite length_fmap|].
    exists (if row_of user_id row then written user_id error p row
            else row).
    split; [by rewrite list_lookup_fmap, Hrow|].
    unfold row_of, written. case_bool_decide as Hid.
    + split; [done|]. destruct (truthy error).
      * split; [|done]. intros c Hc1 Hc2.
        by rewrite !lookup_delete_ne.
      * split; [|by rewrite lookup_insert_ne].
        intros c Hc1 Hc2. by rewrite lookup_insert_ne.
    + by repeat split.
Qed.

Lemma update_database_frame_witness :
  let w' := (update_database 7 (JBool true) browsing_memes cold_start).2 in
  length (users w') = length (users cold_start)
  ∧ ∃ row',
      users w' !! 0%nat = Some row'
      ∧ (alice_row !! user_id_column ≠ Some (VUint64 7) → row' = alice_row)
      ∧ (∀ c, c ≠ data_column → c ≠ meetings_ts_column →
              row' !! c = alice_row !! c)
      ∧ (truthy (JBool true) = false →
         row' !! meetings_ts_column = alice_row !! meetings_ts_column).
Proof.
  apply (update_database_frame 7 (JBool true) browsing_memes cold_start
           0 alice_row).
  reflexivity.
Defined.

(** X3.  A user with exactly one row, the store answering: what the
    save writes is what the next read returns, namely the document
    [_dump_into_json] made; after the wipe the next read returns the
    empty state. *)
Theorem read_after_write (user_id : Z) (error : json)
    (p : YDBPersistence) (w : World) (row : Row) :
  rows_of user_id (users w) = [row] →
  store_up 2 w →
  let w' := (update_database user_id error p w).2 in
  (update_database user_id error p w).1 = Returned tt
  ∧ (get_data user_id w').1 =
      Returned (if truthy error then JObj ∅
                else _dump_into_json user_id p).
Proof.
  intros Hrows Hup. cbv zeta.
  destruct (head_tail_lookup (outages w)) as [H0 H1].
  assert (Hup0 : head (outages w) ≠ Some true)
    by (rewrite H0; apply Hup; lia).
  assert (Hup1 : head (tail (outages w)) ≠ Some true)
    by (rewrite H1; apply Hup; lia).
  split; [by rewrite update_database_outcome, bool_decide_eq_false_2|].
  rewrite get_data_result by (by rewrite update_database_outages).
  rewrite update_database_users, bool_decide_eq_false_2 by done.
  rewrite rows_of_fmap_written, Hrows. simpl.
  unfold written. destruct (truthy error).
  - by rewrite lookup_delete_ne, lookup_delete_eq.
  - by rewrite lookup_insert_eq.
Qed.

Lemma read_after_write_witness :
  let w' := (update_database 7 (JBool false) browsing_memes cold_start).2 in
  (update_database 7 (JBool false) browsing_memes cold_start).1
  = Returned tt
  ∧ (get_data 7 w').1 =
      Returned (if truthy (JBool false) then JObj ∅
                else _dump_into_json 7 browsing_memes).
Proof.
  apply (read_after_write 7 (JBool false) browsing_memes cold_start
           alice_row).
  - reflexivity.
  - intros i _. simpl. by rewrite lookup_nil.
Defined.

(* ===================================================================== *)
(** ** Loading a document *)
(* ===================================================================== *)

Lemma stored_state_update_conversation_key (key key0 : list Z)
    (n n0 : string) (v : json) (p : YDBPersistence) :
  key ≠ key0 →
  stored_state key n (Ptb.update_conversation n0 key0 v p)
  = stored_state key n p.
Proof.
  intros Hkey. unfold stored_state, Ptb.update_conversation.
  replace (match _conversations p with Some c => c | None => ∅ end)
    with (default ∅ (_conversations p)) by (by destruct (_conversations p)).
  set (cs := default ∅ (_conversations p)).
  destruct (decide _); simpl.
  - destruct (decide (n = n0)) as [->|Hne].
    + by rewrite lookup_insert_eq.
    + by rewrite lookup_insert_ne.
  - destruct (decide (n = n0)) as [->|Hne].
    + rewrite lookup_insert_eq. simpl. by rewrite dict_get_insert_ne.
    + by rewrite !lookup_insert_ne.
Qed.

(** The loop of [update_data] over the states of the document. *)
Lemma fold_update_conversation (key0 : list Z) (p : YDBPersistence)
    (states : gmap string json) :
  let p' := map_fold (λ conv_name state,
                        Ptb.update_conversation conv_name key0 state)
                     p states in
  _user_data p' = _user_data p
  ∧ ∀ key n,
      stored_state key n p' =
        if decide (key = key0)
        then match states !! n with
             | Some s => s
             | None => stored_state key n p
             end
        else stored_state key n p.
Proof.
  cbv zeta.
  apply (map_fold_weak_ind
    (λ r m,
       _user_data r = _user_data p
       ∧ ∀ key n,
           stored_state key n r =
             if decide (key = key0)
             then match m !! n with
                  | Some s => s
                  | None => stored_state key n p
                  end
             else stored_state key n p)).
  - split; [done|]. intros key n. rewrite lookup_empty.
    by destruct (decide _).
  - intros i x m r Hi [IHu IHs]. split.
    + by rewrite user_data_update_conversation.
    + intros key n. destruct (decide (key = key0)) as [->|Hkey].
      * rewrite stored_state_update_conversation.
        destruct (decide (n = i)) as [->|Hne].
        -- by rewrite lookup_insert_eq.
        -- rewrite lookup_insert_ne by done. rewrite IHs.
           by rewrite decide_True.
      * rewrite stored_state_update_conversation_key by done.
        rewrite IHs. by rewrite decide_False.
Qed.

Lemma scratch_of_same_user_data (uid : Z) (p p' : YDBPersistence) :
  _user_data p' = _user_data p → scratch_of uid p' = scratch_of uid p.
Proof. unfold scratch_of. by intros ->. Qed.

(** What [update_data] does to the persistence object. *)
Lemma update_data_effect (user_id : Z) (data : json)
    (p : YDBPersistence) :
  let p' := (update_data user_id data p).2 in
  (∀ uid, uid ≠ user_id →
     scratch_of uid p' = scratch_of uid p
     ∧ ∀ n, stored_state [uid] n p' = stored_state [uid] n p)
  ∧ scratch_of user_id p' =
      (if is_not_None (section "user_data" data)
       then section "user_data" data
       else scratch_of user_id p)
  ∧ ∀ n, stored_state [user_id] n p' =
           match section "conversations" data with
           | JObj states =>
               match states !! n with
               | Some s => s
               | None => stored_state [user_id] n p
               end
           | _ => stored_state [user_id] n p
           end.
Proof.
  cbv zeta. unfold update_data, section.
  destruct data as [| | | | |d]; try (by repeat split).
  set (p1 := if is_not_None (dict_get "user_data" d)
             then Ptb.update_user_data user_id (dict_get "user_data" d) p
             else p).
  assert (Hs1 : ∀ uid, scratch_of uid p1 =
                  if decide (uid = user_id)
                  then (if is_not_None (dict_get "user_data" d)
                        then dict_get "user_data" d
                        else scratch_of user_id p)
                  else scratch_of uid p).
  { intros uid. unfold p1.
    destruct (is_not_None (dict_get "user_data" d)).
    - destruct (decide (uid = user_id)) as [->|Hne].
      + by rewrite scratch_of_update_user_data.
      + by rewrite scratch_of_update_user_data_ne.
    - by destruct (decide (uid = user_id)) as [->|Hne]. }
  assert (Hc1 : ∀ key n, stored_state key n p1 = stored_state key n p).
  { intros key n. unfold p1.
    destruct (is_not_None (dict_get "user_data" d)); [|done].
    by rewrite stored_state_update_user_data. }
  destruct (is_not_None (dict_get "conversations" d)) eqn:Hconv.
  - destruct (dict_get "conversations" d) as [| | | | |states] eqn:Hsec;
      simpl.
    1-5: split; [intros uid Hne; specialize (Hs1 uid);
                 rewrite decide_False in Hs1 by done; by split|];
         split; [by rewrite Hs1, decide_True|by intros n].
    destruct (fold_update_conversation [user_id] p1 states) as [Hu Hs].
    split; [|split].
    + intros uid Hne. split.
      * rewrite (scratch_of_same_user_data _ _ _ Hu), Hs1.
        by rewrite decide_False.
      * intros n. rewrite Hs, decide_False by congruence. apply Hc1.
    + rewrite (scratch_of_same_user_data _ _ _ Hu), Hs1.
      by rewrite decide_True.
    + intros n. rewrite Hs, decide_True by done.
      destruct (states !! n); [done|apply Hc1].
  - apply is_not_None_false in Hconv. rewrite Hconv. simpl.
    split; [intros uid Hne; specialize (Hs1 uid);
            rewrite decide_False in Hs1 by done; by split|].
    split; [by rewrite Hs1, decide_True|by intros n].
Qed.

(** X4.  [update_data] never drops anything: whatever the document and
    whatever the outcome, the data of every other user is untouched;
    the user's scratch entry is replaced by the section ["user_data"]
    when the document has one and is kept otherwise; the state of a
    conversation is replaced by the one the ["conversations"] section
    gives it and is kept when that section does not name the
    conversation (or there is no such section).  So data that is in
    memory and not in the document stays in memory. *)
Theorem update_data_merges (user_id : Z) (data : json)
    (p : YDBPersistence) :
  let p' := (update_data user_id data p).2 in
  (∀ uid, uid ≠ user_id →
     scratch_of uid p' = scratch_of uid p
     ∧ ∀ n, stored_state [uid] n p' = stored_state [uid] n p)
  ∧ scratch_of user_id p' =
      (if is_not_None (section "user_data" data)
       then section "user_data" data
       else scratch_of user_id p)
  ∧ ∀ n, stored_state [user_id] n p' =
           match section "conversations" data with
           | JObj states =>
               match states !! n with
               | Some s => s
               | None => stored_state [user_id] n p
               end
           | _ => stored_state [user_id] n p
           end.
Proof. apply update_data_effect. Qed.

(** X5.  [update_data] returns exactly when the document is a
    dictionary whose ["conversations"] section is absent, [None] or a
    dictionary; otherwise it raises [AttributeError] (the [.get] or the
    [.items()] of a value that is not a dictionary). *)
Theorem update_data_accepts (user_id : Z) (data : json)
    (p : YDBPersistence) :
  ((update_data user_id data p).1 = Returned tt
   ↔ (∃ d, data = JObj d)
     ∧ (section "conversations" data = JNull
        ∨ ∃ states, section "conversations" data = JObj states))
  ∧ ((update_data user_id data p).1 = Returned tt
     ∨ (update_data user_id data p).1 = Raised AttributeError).
Proof.
  unfold update_data, section.
  destruct data as [| | | | |d];
    try (split; [split; [done|by intros [[? ?] _]]|by right]).
  destruct (is_not_None (dict_get "conversations" d)) eqn:Hconv.
  - destruct (dict_get "conversations" d) as [| | | | |states] eqn:Hsec;
      simpl; try done.
    1-4: split; [|by right]; split; [done|];
         intros [_ [?|[? ?]]]; done.
    split; [|by left]. split; [|done]. intros _. split; eauto.
  - apply is_not_None_false in Hconv. rewrite Hconv. simpl.
    split; [|by left]. split; [|done]. intros _. split; eauto.
Qed.

(** The conversations a blank persistence object holds after loading a
    serialized document: under each name, the state of this user only. *)
Lemma load_document_conversations (user_id : Z) (scratch : json)
    (states : gmap string json) (p0 : YDBPersistence) :
  blank p0 →
  (∀ n s, states !! n = Some s → s ≠ JNull) →
  ∃ p, update_data user_id (JObj (document scratch states)) p0
       = (Returned tt, p)
       ∧ scratch_of user_id p = scratch
       ∧ ∀ n, default ∅ (_conversations p) !! n
              = (λ s, {[ [user_id] := s ]}) <$> states !! n.
Proof.
  intros [Hud0 Hcs0] Hnn. unfold update_data.
  rewrite document_user_data, document_conversations.
  set (p1 := if is_not_None scratch
             then Ptb.update_user_data user_id scratch p0
             else p0).
  assert (scratch_of user_id p1 = scratch
          ∧ default ∅ (_conversations p1) = ∅) as [Hs1 Hc1].
  { unfold p1, scratch_of, Ptb.update_user_data.
    destruct (is_not_None scratch) eqn:E; simpl.
    - rewrite Hud0, dict_get_empty.
      apply is_not_None_true in E.
      destruct (decide (JNull = scratch)); [congruence|]. simpl.
      by rewrite dict_get_insert.
    - apply is_not_None_false in E. by rewrite E, Hud0, dict_get_empty. }
  destruct (bool_decide (states = ∅)) eqn:Hempty; simpl.
  - apply bool_decide_eq_true in Hempty. subst states.
    exists p1. split; [done|]. split; [done|].
    intros n. rewrite Hc1. by rewrite !lookup_empty.
  - eexists. split; [reflexivity|].
    destruct (load_states user_id p1 states) as [Hu Hc]; [done| |].
    { intros n _. by rewrite Hc1, lookup_empty. }
    split.
    + unfold scratch_of in *. by rewrite Hu.
    + intros n. rewrite Hc, Hc1.
      destruct (states !! n); simpl; [done|by rewrite lookup_empty].
Qed.

(** X6.  Loading what [_dump_into_json] made for a user into a blank
    persistence object returns, and restores for that user the scratch
    entry and the conversation states that were serialized; the object
    still holds nothing for any other user. *)
Theorem load_after_serialize (user_id : Z) (q p0 : YDBPersistence) :
  blank p0 →
  ∃ p,
    update_data user_id (_dump_into_json user_id q) p0 = (Returned tt, p)
    ∧ scratch_of user_id p = scratch_of user_id q
    ∧ states_of user_id p = states_of user_id q
    ∧ ∀ uid, uid ≠ user_id →
        scratch_of uid p = JNull ∧ states_of uid p = ∅.
Proof.
  intros Hblank. rewrite dump_document.
  destruct (load_document_conversations user_id (scratch_of user_id q)
              (states_of user_id q) p0 Hblank) as (p & Hload & Hs & Hc).
  { intros n s. apply states_of_not_None. }
  exists p. split; [done|]. split; [done|]. split.
  { apply map_eq. intros n. rewrite states_of_lookup.
    unfold stored_state. rewrite Hc.
    destruct (states_of user_id q !! n) as [s|] eqn:Hstate; simpl.
    - unfold dict_get. rewrite lookup_singleton_eq. simpl.
      assert (is_not_None s = true) as ->; [|done].
      apply is_not_None_true. by eapply states_of_not_None.
    - by rewrite dict_get_empty. }
  intros uid Hne. destruct Hblank as [Hud0 Hcs0].
  destruct (update_data_effect user_id
              (JObj (document (scratch_of user_id q) (states_of user_id q)))
              p0) as (Hothers & _ & _).
  rewrite Hload in Hothers. simpl in Hothers.
  destruct (Hothers uid Hne) as [Hscratch Hstates]. split.
  - rewrite Hscratch. unfold scratch_of. by rewrite Hud0, dict_get_empty.
  - apply map_eq. intros n. rewrite states_of_lookup, Hstates.
    unfold stored_state, dict_get. rewrite Hcs0. simpl.
    by rewrite !lookup_empty.
Qed.

Lemma load_after_serialize_witness :
  ∃ p,
    update_data 7 (_dump_into_json 7 browsing_memes)
                (mkYDBPersistence None (Some ∅)) = (Returned tt, p)
    ∧ scratch_of 7 p = scratch_of 7 browsing_memes
    ∧ states_of 7 p = states_of 7 browsing_memes
    ∧ ∀ uid, uid ≠ 7 →
        scratch_of uid p = JNull ∧ states_of uid p = ∅.
Proof.
  apply (load_after_serialize 7 browsing_memes
           (mkYDBPersistence None (Some ∅))).
  by split.
Defined.

(** X7.  A restart loses nothing.  The user has exactly one row and the
    store answers.  After the save of what the persistence object [p]
    holds, a process that starts with a blank persistence object and
    any accepted handlers loads the user: the call returns, the new
    persistence object and [dispatcher.user_data] hold the user's
    scratch entry as [p] held it, and every registered conversation is,
    for this user, in the state [p] held under its name (or in none). *)
Theorem state_survives_restart (user_id : Z) (error : json)
    (p p0 : YDBPersistence) (w : World) (row : Row)
    (d0 : PersistentDispatcher) :
  rows_of user_id (users w) = [row] →
  store_up 2 w →
  truthy error = false →
  persistence d0 = Some p0 →
  blank p0 →
  well_formed d0 →
  let w1 := (update_database user_id error p w).2 in
  ∃ w2 p2,
    load_persistence_data user_id (set_dispatcher d0 w1) = (Returned tt, w2)
    ∧ persistence (dispatcher w2) = Some p2
    ∧ scratch_of user_id p2 = scratch_of user_id p
    ∧ states_of user_id p2 = states_of user_id p
    ∧ dict_get user_id (user_data (dispatcher w2)) = scratch_of user_id p
    ∧ ∀ h, registered h (dispatcher w2) →
           conversations h !! [user_id]
           = states_of user_id p !! name h.
Proof.
  intros Hrows Hup Herror Hp0 Hblank Hwf. cbv zeta.
  destruct (head_tail_lookup (outages w)) as [H0 H1].
  assert (Hup0 : head (outages w) ≠ Some true)
    by (rewrite H0; apply Hup; lia).
  assert (Hup1 : head (tail (outages w)) ≠ Some true)
    by (rewrite H1; apply Hup; lia).
  set (w1 := (update_database user_id error p w).2).
  set (cold := set_dispatcher d0 w1).
  (* the read *)
  assert (Hread : (get_data user_id cold).1
                  = Returned (_dump_into_json user_id p)).
  { rewrite get_data_result
      by (unfold cold, w1; simpl; by rewrite update_database_outages).
    unfold cold, w1. simpl.
    rewrite update_database_users, bool_decide_eq_false_2 by done.
    rewrite rows_of_fmap_written, Hrows. simpl.
    unfold written. rewrite Herror. by rewrite lookup_insert_eq. }
  pose proof (get_data_dispatcher user_id cold) as Hsame.
  (* the document, loaded *)
  destruct (load_document_conversations user_id (scratch_of user_id p)
              (states_of user_id p) p0 Hblank) as (p1 & Hload & Hs1 & Hc1).
  { intros n s. apply states_of_not_None. }
  rewrite <- dump_document in Hload.
  (* the call returns *)
  assert (∃ w2, load_persistence_data user_id cold = (Returned tt, w2))
    as [w2 Hw2].
  { unfold load_persistence_data. rewrite bind_eq.
    unfold get_dispatcher at 1. cbn [dispatcher cold set_dispatcher].
    rewrite Hp0, bind_eq.
    destruct (get_data user_id cold) as [o wr]. simpl in Hread.
    subst o. rewrite Hload.
    destruct (Ptb.get_user_data p1) as [ud p2].
    destruct (Ptb.visit_groups reload (groups d0) (handlers d0) p2)
      as [[e hs] p3].
    eexists. reflexivity. }
  exists w2.
  destruct Hwf as (Hnodup & Hkeys & Haccepted).
  destruct (load_persistence_data_returned user_id cold w2
              p0 Hp0 Hnodup Hw2)
    as (data & w_read & p1' & p3 & Hget & Hload' & _ & _ & _ & Hp3
        & Hud3 & Hcs3 & Hdud & _ & _).
  rewrite Hget in Hread. simpl in Hread. injection Hread as ->.
  rewrite Hload in Hload'. injection Hload' as <-.
  exists p3. split; [done|]. split; [done|].
  assert (Hscratch : scratch_of user_id p3 = scratch_of user_id p).
  { rewrite <- Hs1. unfold scratch_of. by rewrite Hud3. }
  split; [done|].
  split.
  { apply map_eq. intros n. rewrite states_of_lookup.
    unfold stored_state. rewrite Hcs3, Hc1.
    destruct (states_of user_id p !! n) as [s|] eqn:Hstate; simpl.
    - unfold dict_get. rewrite lookup_singleton_eq. simpl.
      assert (is_not_None s = true) as ->; [|done].
      apply is_not_None_true. by eapply states_of_not_None.
    - by rewrite dict_get_empty. }
  split.
  { rewrite Hdud, <- Hs1. done. }
  intros h Hh.
  apply (load_registered user_id cold w2 p0 h Hp0 Hnodup Hw2)
    in Hh as (h0 & convs & Hh0 & -> & p3' & Hp3' & Hconvs).
  rewrite Hp3 in Hp3'. injection Hp3' as <-.
  rewrite name_reloaded.
  destruct (Haccepted h0 Hh0) as (_ & _ & _ & Hpersistent & _).
  unfold reloaded. rewrite Hpersistent. simpl.
  rewrite <- Hconvs, Hcs3, Hc1.
  destruct (states_of user_id p !! name h0) as [s|]; simpl.
  - by rewrite lookup_singleton_eq.
  - by rewrite lookup_empty.
Qed.

Lemma state_survives_restart_witness :
  let w1 := (update_database 7 (JBool false) browsing_memes cold_start).2 in
  ∃ w2 p2,
    load_persistence_data 7 (set_dispatcher started_dispatcher w1)
    = (Returned tt, w2)
    ∧ persistence (dispatcher w2) = Some p2
    ∧ scratch_of 7 p2 = scratch_of 7 browsing_memes
    ∧ states_of 7 p2 = states_of 7 browsing_memes
    ∧ dict_get 7 (user_data (dispatcher w2)) = scratch_of 7 browsing_memes
    ∧ ∀ h, registered h (dispatcher w2) →
           conversations h !! [7] = states_of 7 browsing_memes !! name h.
Proof.
  apply (state_survives_restart 7 (JBool false) browsing_memes
           (mkYDBPersistence None (Some ∅)) cold_start alice_row
           started_dispatcher).
  - reflexivity.
  - intros i _. simpl. by rewrite lookup_nil.
  - reflexivity.
  - reflexivity.
  - by split.
  - apply well_formed_check_correct, (bool_decide_unpack _).
    vm_compute. exact I.
Defined.

(* ===================================================================== *)
(** ** Invocations that stop at the read *)
(* ===================================================================== *)

Lemma get_data_outages (user_id : Z) (w : World) :
  outages (get_data user_id w).2 = tail (outages w).
Proof.
  unfold get_data. rewrite bind_eq. unfold execute_query.
  destruct (outages w) as [|[] later]; simpl; try done.
  - destruct (filter _ _) as [|row [|row' rows]]; simpl; try done.
    destruct (project data_column row !! data_column) as [[| |]|]; done.
  - destruct (filter _ _) as [|row [|row' rows]]; simpl; try done.
    destruct (project data_column row !! data_column) as [[| |]|]; done.
Qed.

(** The world after the read, whatever it returns. *)
Lemma get_data_world (user_id : Z) (w : World) :
  (get_data user_id w).2 =
    mkWorld (dispatcher w) (users w) (tail (outages w))
            (issued w ++ [get_data_query user_id]).
Proof.
  rewrite <- (world_eta (get_data user_id w).2).
  by rewrite get_data_dispatcher, get_data_users, get_data_outages,
     get_data_issued.
Qed.

(** X8.  When the read of the user's document fails (the store gives
    up, the table has more than one row for the user, or the cell is
    not a JSON document), the invocation fails with the same exception
    right there: no handler has run, nothing is written, and the
    dispatcher and the table are what they were. *)
Theorem failed_read_aborts (update : Update) (u : User)
    (run : option (list Action)) (w : World) (e : exn) :
  effective_user update = Some u →
  is_Some (persistence (dispatcher w)) →
  (get_data (id u) w).1 = Raised e →
  process_update (Readable (Some update)) run w =
    (Raised e,
     mkWorld (dispatcher w) (users w) (tail (outages w))
             (issued w ++ [get_data_query (id u)])).
Proof.
  intros Hu [p Hp] Hread.
  unfold process_update. rewrite Hu, bind_eq.
  unfold load_persistence_data. rewrite bind_eq.
  unfold get_dispatcher at 1. rewrite Hp, bind_eq.
  pose proof (get_data_world (id u) w) as Hworld.
  destruct (get_data (id u) w) as [o w1]. simpl in *.
  by subst o w1.
Qed.

Lemma failed_read_aborts_witness :
  process_update (Readable (Some update_from_alice))
                 (Some [Scratch unknown_answered])
                 (mkWorld started_dispatcher [alice_row; alice_row] [] []) =
    (Raised (LookupError users_table 7),
     mkWorld started_dispatcher [alice_row; alice_row] []
             [get_data_query 7]).
Proof.
  apply (failed_read_aborts update_from_alice alice
           (Some [Scratch unknown_answered])
           (mkWorld started_dispatcher [alice_row; alice_row] [] [])
           (LookupError users_table 7)).
  - reflexivity.
  - by eexists.
  - reflexivity.
Defined.

(** X9.  A stored document that [update_data] does not accept (it is
    not a dictionary, or its ["conversations"] section is neither
    absent, [None] nor a dictionary) stops every invocation of its
    user: [AttributeError] is raised while loading, before dispatch, so
    neither the handlers nor the error handler run and no query but the
    read is issued; the table keeps the document. *)
Theorem unloadable_document_stays (update : Update) (u : User)
    (run : option (list Action)) (w : World) (row : Row)
    (document : json) :
  effective_user update = Some u →
  is_Some (persistence (dispatcher w)) →
  head (outages w) ≠ Some true →
  rows_of (id u) (users w) = [row] →
  row !! data_column = Some (VJson document) →
  ¬ ((∃ d, document = JObj d)
     ∧ (section "conversations" document = JNull
        ∨ ∃ states, section "conversations" document = JObj states)) →
  let w' := (process_update (Readable (Some update)) run w).2 in
  (process_update (Readable (Some update)) run w).1 = Raised AttributeError
  ∧ users w' = users w
  ∧ issued w' = issued w ++ [get_data_query (id u)].
Proof.
  intros Hu [p Hp] Hup Hrows Hcell Hbad. cbv zeta.
  remember (process_update (Readable (Some update)) run w) as result
    eqn:Hres.
  unfold process_update in Hres. rewrite Hu, bind_eq in Hres.
  unfold load_persistence_data in Hres. rewrite bind_eq in Hres.
  unfold get_dispatcher at 1 in Hres. rewrite Hp, bind_eq in Hres.
  pose proof (get_data_world (id u) w) as Hworld.
  pose proof (get_data_result (id u) w Hup) as Hread.
  rewrite Hrows, Hcell in Hread.
  destruct (get_data (id u) w) as [o w1]. simpl in *. subst o w1.
  assert (Hload : (update_data (id u) document p).1
                  = Raised AttributeError).
  { unfold update_data, section in *.
    destruct document as [| | | | |d]; try done.
    destruct (is_not_None (dict_get "conversations" d)) eqn:Hconv.
    - destruct (dict_get "conversations" d) as [| | | | |states]; try done.
      destruct Hbad. split; eauto.
    - apply is_not_None_false in Hconv. destruct Hbad. split; eauto. }
  destruct (update_data (id u) document p) as [o p1]. simpl in Hload.
  subst o. unfold_monad. simpl in Hres. by subst result.
Qed.

Lemma unloadable_document_stays_witness :
  let row : Row := <[data_column := VJson (JArr [])]> alice_row in
  let w := mkWorld started_dispatcher [row] [] [] in
  let w' := (process_update (Readable (Some update_from_alice))
               (Some [Scratch unknown_answered]) w).2 in
  (process_update (Readable (Some update_from_alice))
     (Some [Scratch unknown_answered]) w).1 = Raised AttributeError
  ∧ users w' = users w
  ∧ issued w' = issued w ++ [get_data_query (id alice)].
Proof.
  apply (unloadable_document_stays update_from_alice alice
           (Some [Scratch unknown_answered])
           (mkWorld started_dispatcher
              [<[data_column := VJson (JArr [])]> alice_row] [] [])
           (<[data_column := VJson (JArr [])]> alice_row)
           (JArr [])).
  - reflexivity.
  - by eexists.
  - simpl. discriminate.
  - reflexivity.
  - reflexivity.
  - intros [[d Hd] _]. discriminate.
Defined.

(* ===================================================================== *)
(** ** What an invocation does to the table *)
(* ===================================================================== *)

Section Preserves.
Context (P : Table → Prop).

Lemma preserves_bind {A B} (m : M A) (k : A → M B) :
  preserves P m → (∀ a, preserves P (k a)) → preserves P (m ≫= k).
Proof.
  intros Hm Hk w Hw. rewrite bind_eq. specialize (Hm w Hw).
  destruct (m w) as [[a|e] w1]; simpl in *; [by apply Hk|done].
Qed.

Lemma preserves_ret {A} (a : A) : preserves P (mret a).
Proof. by intros w Hw. Qed.

Lemma preserves_raise {A} (e : exn) : preserves P (raise e : M A).
Proof. by intros w Hw. Qed.

Lemma preserves_get_dispatcher : preserves P get_dispatcher.
Proof. by intros w Hw. Qed.

Lemma preserves_put_dispatcher (d : PersistentDispatcher) :
  preserves P (put_dispatcher d).
Proof. by intros w Hw. Qed.

Lemma preserves_when (b : bool) (m : M unit) :
  preserves P m → preserves P (when b m).
Proof. intros Hm. destruct b; [done|apply preserves_ret]. Qed.

Lemma preserves_swallow {A} (m : M A) :
  preserves P m → preserves P (swallow m).
Proof. intros Hm w Hw. unfold swallow. simpl. by apply Hm. Qed.

Lemma preserves_execute_query (q : Query) :
  (∀ t, P t → P (exec users_table user_id_column
                      (statement q) (parameters q) t).1) →
  preserves P (execute_query q).
Proof.
  intros Hq w Hw.
  destruct (execute_query_users q w) as [-> | ->]; [done|by apply Hq].
Qed.

Lemma preserves_get_data (user_id : Z) : preserves P (get_data user_id).
Proof. intros w Hw. by rewrite get_data_users. Qed.

Lemma preserves_load_persistence_data (user_id : Z) :
  preserves P (load_persistence_data user_id).
Proof.
  unfold load_persistence_data.
  apply preserves_bind; [apply preserves_get_dispatcher|]. intros d.
  destruct (persistence d) as [p|]; [|apply preserves_ret].
  apply preserves_bind; [apply preserves_get_data|]. intros data.
  destruct (update_data user_id data p) as [[[]|e] p1].
  - destruct (Ptb.get_user_data p1) as [ud p2].
    destruct (Ptb.visit_groups reload (groups d) (handlers d) p2)
      as [[e hs] p3].
    apply preserves_put_dispatcher.
  - apply preserves_bind; [apply preserves_put_dispatcher|].
    intros _. apply preserves_raise.
Qed.

Lemma preserves_update_persistence (update : Update) :
  preserves P (update_persistence update).
Proof. by intros w Hw. Qed.

Lemma preserves_end_conversations (update : Update) :
  preserves P (end_conversations update).
Proof.
  intros w Hw.
  destruct (end_conversations_scratch update w) as (-> & _ & _). done.
Qed.

Lemma preserves_pop_flag (user_id : Z) (flag : string) :
  preserves P (pop_flag user_id flag).
Proof. intros w Hw. by rewrite pop_flag_users. Qed.

Lemma preserves_from_update (update : Update) :
  preserves P (from_update update).
Proof.
  unfold from_update.
  apply preserves_bind; [apply preserves_get_dispatcher|]. intros d.
  destruct (effective_user update) as [u|]; [|apply preserves_ret].
  destruct (user_data d !! id u);
    [apply preserves_ret|apply preserves_put_dispatcher].
Qed.

(** The callbacks: only their queries reach the table. *)
Lemma preserves_run_action (update : Update) (a : Action) :
  match a with
  | Issue q =>
      ∀ t, P t → P (exec users_table user_id_column
                         (statement q) (parameters q) t).1
  | _ => True
  end →
  preserves P (run_action update a).
Proof.
  intros Ha. destruct a as [callback|g i s|q]; simpl.
  - apply preserves_bind; [apply preserves_get_dispatcher|]. intros d.
    destruct (effective_user update) as [u|]; [|apply preserves_ret].
    destruct (user_data d !! id u) as [[| | | | |entry]|];
      try apply preserves_ret.
    apply preserves_put_dispatcher.
  - apply preserves_bind; [apply preserves_get_dispatcher|]. intros d.
    destruct (handlers d !! g) as [l|]; [|apply preserves_ret].
    destruct (l !! i) as [[h|]|]; try apply preserves_ret.
    destruct (Ptb._get_key h update) as [key|e]; [|apply preserves_ret].
    destruct (Ptb._update_state s key h (persistence d)) as [h' p'].
    apply preserves_put_dispatcher.
  - by apply preserves_swallow, preserves_execute_query.
Qed.

Lemma preserves_run_actions (update : Update) (actions : list Action) :
  Forall (λ q, ∀ t, P t → P (exec users_table user_id_column
                                  (statement q) (parameters q) t).1)
         (handler_queries (Some actions)) →
  preserves P (run_actions update actions).
Proof.
  induction actions as [|a actions IH]; intros Hqs; simpl.
  - apply preserves_ret.
  - apply preserves_bind.
    + apply preserves_run_action. destruct a as [| |q]; try done.
      simpl in Hqs. by apply Forall_cons in Hqs as [? _].
    + intros _. apply IH. destruct a as [| |q]; try done.
      simpl in Hqs. by apply Forall_cons in Hqs as [_ ?].
Qed.

Lemma preserves_Dispatcher_process_update (update : Update)
    (run : option (list Action)) :
  Forall (λ q, ∀ t, P t → P (exec users_table user_id_column
                                  (statement q) (parameters q) t).1)
         (handler_queries run) →
  preserves P (Dispatcher_process_update update run).
Proof.
  intros Hqs. destruct run as [actions|]; simpl; [|apply preserves_ret].
  apply preserves_bind; [apply preserves_from_update|]. intros _.
  apply preserves_bind; [by apply preserves_run_actions|]. intros _.
  apply preserves_update_persistence.
Qed.

(** The whole invocation, when the engine's own write keeps [P]. *)
Lemma preserves_process_update (event : Event)
    (run : option (list Action)) :
  Forall (λ q, ∀ t, P t → P (exec users_table user_id_column
                                  (statement q) (parameters q) t).1)
         (handler_queries run) →
  (∀ update u error p,
     event = Readable (Some update) → effective_user update = Some u →
     preserves P (update_database (id u) error p)) →
  preserves P (process_update event run).
Proof.
  intros Hqs Hwrite. unfold process_update.
  destruct event as [|[update|]];
    [apply preserves_ret| |apply preserves_raise].
  destruct (effective_user update) as [u|] eqn:Hu;
    [|apply preserves_raise].
  apply preserves_bind; [apply preserves_load_persistence_data|]. intros _.
  apply preserves_bind; [by apply preserves_Dispatcher_process_update|].
  intros _.
  apply preserves_bind; [apply preserves_pop_flag|]. intros unknown.
  apply preserves_bind; [apply preserves_pop_flag|]. intros error.
  apply preserves_bind;
    [apply preserves_when, preserves_update_persistence|]. intros _.
  apply preserves_bind;
    [apply preserves_when, preserves_end_conversations|]. intros _.
  apply preserves_bind; [|intros _; apply preserves_ret].
  unfold update_persistence_database.
  apply preserves_bind; [apply preserves_get_dispatcher|]. intros d.
  destruct (persistence d) as [p|]; [|apply preserves_ret].
  by apply (Hwrite update u).
Qed.

End Preserves.

(** *** The queries of the bot are private *)

Lemma private_preserves (user_id : Z) (q : Query) (i : nat) (row : Row) :
  private user_id q →
  row !! user_id_column ≠ Some (VUint64 user_id) →
  ∀ t, t !! i = Some row →
       (exec users_table user_id_column (statement q) (parameters q) t).1
       !! i = Some row.
Proof. intros Hq Hrow t Ht. by apply Hq. Qed.

Lemma update_database_private (user_id : Z) (error : json)
    (p : YDBPersistence) (i : nat) (row : Row) :
  row !! user_id_column ≠ Some (VUint64 user_id) →
  preserves (λ t, t !! i = Some row) (update_database user_id error p).
Proof.
  intros Hrow w Hw. rewrite update_database_users.
  case_bool_decide; [done|].
  rewrite list_lookup_fmap, Hw. simpl. unfold row_of.
  by rewrite bool_decide_eq_false_2.
Qed.

(** X10.  Isolation.  If the queries the handlers send are private to
    the user of the update, an invocation leaves every row of every
    other user where it was and as it was, whatever the handlers do
    otherwise and whatever the outcome: the engine reads and writes the
    rows of this one user only. *)
Theorem invocation_keeps_other_users (update : Update) (u : User)
    (run : option (list Action)) (w : World) (i : nat) (row : Row) :
  effective_user update = Some u →
  Forall (private (id u)) (handler_queries run) →
  users w !! i = Some row →
  row !! user_id_column ≠ Some (VUint64 (id u)) →
  users (process_update (Readable (Some update)) run w).2 !! i = Some row.
Proof.
  intros Hu Hqs Hi Hrow.
  apply (preserves_process_update (λ t, t !! i = Some row)); [| |done].
  - eapply Forall_impl; [exact Hqs|]. intros q Hq t Ht. simpl in *.
    by apply Hq.
  - intros update' u' error p [= <-] Hu'. rewrite Hu in Hu'.
    injection Hu' as <-. by apply update_database_private.
Qed.

(* ===================================================================== *)
(** ** The other writes of [database.py] *)
(* ===================================================================== *)

(** A column a [SET] list names gets a value that does not depend on the
    row. *)
Lemma assign_fixed (ps : Parameters) (sets : list (string * Expr))
    (r r' : Row) (c : string) :
  c ∈ sets.*1 →
  foldl (assign ps) r sets !! c = foldl (assign ps) r' sets !! c.
Proof.
  induction sets as [|[c' e] sets IH] using rev_ind; intros Hc.
  { by apply elem_of_nil in Hc. }
  rewrite !foldl_app. simpl. unfold assign at 1 3. simpl.
  destruct (decide (c = c')) as [->|Hne].
  - destruct e as [|p]; [by rewrite !lookup_delete_eq|].
    destruct (param p ps);
      [by rewrite !lookup_insert_eq|by rewrite !lookup_delete_eq].
  - assert (Hin : c ∈ sets.*1).
    { rewrite fmap_app in Hc. apply elem_of_app in Hc as [Hc|Hc]; [done|].
      simpl in Hc. apply list_elem_of_singleton in Hc. done. }
    destruct e as [|p]; [by rewrite !lookup_delete_ne, IH|].
    destruct (param p ps);
      [by rewrite !lookup_insert_ne, IH|by rewrite !lookup_delete_ne, IH].
Qed.

Lemma assign_twice (ps : Parameters) (sets : list (string * Expr))
    (r : Row) :
  foldl (assign ps) (foldl (assign ps) r sets) sets
  = foldl (assign ps) r sets.
Proof.
  apply map_eq. intros c.
  destruct (decide (c ∈ sets.*1)) as [Hc|Hc].
  - by apply assign_fixed.
  - by rewrite assign_frame.
Qed.

Section Upsert.
Context (columns values : list string) (ps : Parameters).
Let sets := upsert_assignments columns values.
Let fresh : Row := foldl (assign ps) ∅ sets.
Let hit (r : Row) : bool :=
  bool_decide (is_Some (fresh !! user_id_column)
               ∧ r !! user_id_column = fresh !! user_id_column).

Lemma upsert_eq (t : Table) :
  upsert user_id_column columns values ps t =
    if existsb hit t
    then (λ r, if hit r then foldl (assign ps) r sets else r) <$> t
    else t ++ [fresh].
Proof. reflexivity. Qed.

Lemma hit_assigned (r : Row) :
  hit r = true → hit (foldl (assign ps) r sets) = true.
Proof.
  unfold hit. rewrite !bool_decide_eq_true. intros [Hsome Hr].
  split; [done|].
  destruct (decide (user_id_column ∈ sets.*1)) as [Hc|Hc].
  - unfold fresh. by apply assign_fixed.
  - by rewrite assign_frame.
Qed.

(** [UPSERT] with the same values a second time changes nothing. *)
Lemma upsert_twice (t : Table) :
  is_Some (fresh !! user_id_column) →
  upsert user_id_column columns values ps
         (upsert user_id_column columns values ps t)
  = upsert user_id_column columns values ps t.
Proof.
  intros Hkey. rewrite (upsert_eq t).
  destruct (existsb hit t) eqn:Hany; rewrite upsert_eq.
  - assert (Hany' : existsb hit
                      ((λ r, if hit r then foldl (assign ps) r sets else r)
                         <$> t) = true).
    { apply existsb_exists in Hany as (r & Hr & Hhit).
      apply existsb_exists. exists (foldl (assign ps) r sets).
      split; [|by apply hit_assigned].
      apply list_elem_of_In, list_elem_of_fmap. exists r.
      split; [by rewrite Hhit|by apply list_elem_of_In]. }
    rewrite Hany'. rewrite <- list_fmap_compose.
    apply list_fmap_ext. intros i r _. simpl.
    destruct (hit r) eqn:Hr.
    + by rewrite hit_assigned, assign_twice.
    + by rewrite Hr.
  - assert (Hfresh : hit fresh = true).
    { unfold hit. by apply bool_decide_eq_true. }
    assert (Hany' : existsb hit (t ++ [fresh]) = true).
    { rewrite existsb_app. simpl. rewrite Hfresh. by rewrite !orb_true_r. }
    rewrite Hany', fmap_app. simpl. rewrite Hfresh.
    replace (foldl (assign ps) fresh sets) with fresh
      by (symmetry; apply assign_twice).
    f_equal. rewrite <- (list_fmap_id t) at 2.
    apply list_fmap_ext. intros i r Hi. simpl.
    destruct (hit r) eqn:Hr; [|done].
    assert (existsb hit t = true); [|congruence].
    apply existsb_exists. exists r. split; [|done].
    apply list_elem_of_In. by eapply list_elem_of_lookup_2.
Qed.

(** [UPSERT] leaves the rows with another key where and as they are. *)
Lemma upsert_others (t : Table) (i : nat) (row : Row) :
  t !! i = Some row →
  row !! user_id_column ≠ fresh !! user_id_column →
  upsert user_id_column columns values ps t !! i = Some row.
Proof.
  intros Hi Hrow. rewrite upsert_eq.
  destruct (existsb hit t).
  - rewrite list_lookup_fmap, Hi. simpl.
    assert (hit row = false) as ->; [|done].
    unfold hit. apply bool_decide_eq_false. by intros [_ ?].
  - by apply lookup_app_l_Some.
Qed.

End Upsert.

(** The row [upsert_new_user] makes for a user. *)
Lemma identity_row (u : User) :
  let row := foldl (assign (parameters (upsert_new_user_query u))) ∅
               (upsert_assignments (identity_columns u)
                                   (identity_values u)) in
  row !! user_id_column = Some (VUint64 (id u))
  ∧ row !! first_name_column = Some (VUtf8 (first_name u))
  ∧ row !! last_name_column = VUtf8 <$> last_name u
  ∧ row !! username_column = VUtf8 <$> username u
  ∧ ∀ c, c ∉ identity_columns u → row !! c = None.
Proof.
  cbv zeta. split; [|split; [|split; [|split]]].
  1-4: unfold identity_columns, identity_values;
       rewrite upsert_new_user_parameters;
       destruct (last_name u), (username u); simpl; unfold assign; simpl;
       by simplify_map_eq.
  intros c Hc. rewrite assign_frame; [apply lookup_empty|].
  rewrite upsert_assignments_columns; [done|].
  unfold identity_columns, identity_values.
  destruct (last_name u), (username u); reflexivity.
Qed.

Lemma upsert_new_user_users (update : Update) (u : User) (w : World) :
  effective_user update = Some u →
  head (outages w) ≠ Some true →
  users (upsert_new_user update w).2 =
    upsert user_id_column (identity_columns u) (identity_values u)
           (parameters (upsert_new_user_query u)) (users w).
Proof.
  intros Hu Hup. unfold upsert_new_user. rewrite Hu. unfold_monad.
  rewrite execute_query_runs by done. simpl.
  by rewrite upsert_new_user_statement.
Qed.

Lemma upsert_new_user_outages (update : Update) (w : World) :
  outages (upsert_new_user update w).2
  = match effective_user update with
    | Some _ => tail (outages w)
    | None => outages w
    end.
Proof.
  unfold upsert_new_user. destruct (effective_user update) as [u|]; [|done].
  unfold_monad. unfold execute_query.
  destruct (outages w) as [|[] later]; simpl; try done;
    by destruct (exec _ _ _ _ _).
Qed.

(** X11.  [upsert_new_user] for a user who has no row adds one row at
    the end of the table and changes no other: the new row holds the
    user id and the first name, the last name and the username when
    the update has them, and no other column ([usage],
    [persistence_data] and [meetings_ts] are [NULL]). *)
Theorem upsert_new_user_adds_row (update : Update) (u : User)
    (w : World) :
  effective_user update = Some u →
  head (outages w) ≠ Some true →
  rows_of (id u) (users w) = [] →
  ∃ row,
    users (upsert_new_user update w).2 = users w ++ [row]
    ∧ row !! user_id_column = Some (VUint64 (id u))
    ∧ row !! first_name_column = Some (VUtf8 (first_name u))
    ∧ row !! last_name_column = VUtf8 <$> last_name u
    ∧ row !! username_column = VUtf8 <$> username u
    ∧ ∀ c, c ∉ identity_columns u → row !! c = None.
Proof.
  intros Hu Hup Hrows.
  rewrite (upsert_new_user_users update u) by done.
  destruct (identity_row u) as (Hid & Hrest).
  eexists. split; [|split; [exact Hid|exact Hrest]].
  rewrite upsert_eq.
  destruct (existsb _ (users w)) eqn:Hany; [|done].
  apply existsb_exists in Hany as (r & Hr & Hhit).
  apply bool_decide_eq_true in Hhit as [_ Hkey].
  rewrite Hid in Hkey.
  assert (Hin : r ∈ rows_of (id u) (users w)).
  { unfold rows_of. apply list_elem_of_filter. split; [done|].
    by apply list_elem_of_In. }
  rewrite Hrows in Hin. by apply elem_of_nil in Hin.
Qed.

Lemma upsert_new_user_adds_row_witness :
  ∃ row,
    users (upsert_new_user update_from_alice new_user).2
    = users new_user ++ [row]
    ∧ row !! user_id_column = Some (VUint64 (id alice))
    ∧ row !! first_name_column = Some (VUtf8 (first_name alice))
    ∧ row !! last_name_column = VUtf8 <$> last_name alice
    ∧ row !! username_column = VUtf8 <$> username alice
    ∧ ∀ c, c ∉ identity_columns alice → row !! c = None.
Proof.
  apply (upsert_new_user_adds_row update_from_alice alice new_user).
  - reflexivity.
  - simpl. discriminate.
  - reflexivity.
Defined.

(** X12.  [upsert_new_user] is idempotent on the table: with the store
    answering, a second call for the same update leaves the table as
    the first call left it, whether or not the user had a row. *)
Theorem upsert_new_user_idempotent (update : Update) (u : User)
    (w : World) :
  effective_user update = Some u →
  store_up 2 w →
  let w1 := (upsert_new_user update w).2 in
  users (upsert_new_user update w1).2 = users w1.
Proof.
  intros Hu Hup. cbv zeta.
  destruct (head_tail_lookup (outages w)) as [H0 H1].
  assert (Hup0 : head (outages w) ≠ Some true)
    by (rewrite H0; apply Hup; lia).
  assert (Hup1 : head (tail (outages w)) ≠ Some true)
    by (rewrite H1; apply Hup; lia).
  rewrite (upsert_new_user_users update u _ Hu)
    by (by rewrite upsert_new_user_outages, Hu).
  rewrite (upsert_new_user_users update u w Hu Hup0).
  apply upsert_twice.
  destruct (identity_row u) as (Hid & _). rewrite Hid. eauto.
Qed.

Lemma upsert_new_user_idempotent_witness :
  let w1 := (upsert_new_user update_from_alice cold_start).2 in
  users (upsert_new_user update_from_alice w1).2 = users w1.
Proof.
  apply (upsert_new_user_idempotent update_from_alice alice cold_start).
  - reflexivity.
  - intros i _. simpl. by rewrite lookup_nil.
Defined.

(** *** Private queries *)

Lemma upsert_new_user_private (u : User) :
  private (id u) (upsert_new_user_query u).
Proof.
  intros t i row Hi Hrow. rewrite upsert_new_user_statement. simpl.
  apply upsert_others; [done|].
  destruct (identity_row u) as (Hid & _). by rewrite Hid.
Qed.

Lemma where_user_id_first (user_id : Z) (rest : Parameters) (r : Row) :
  where_eq user_id_column "$user_id" (("$user_id", VUint64 user_id) :: rest)
           r
  = row_of user_id r.
Proof.
  unfold where_eq, row_of. simpl.
  destruct (r !! user_id_column) as [v|]; simpl; [|done].
  apply bool_decide_ext. split; congruence.
Qed.

Section Store.
Variable incremented : option Value → Value.
Variable cast_timestamp : string → option Value.

Lemma update_usage_private (user_id : Z) :
  private user_id (update_usage_query incremented user_id).
Proof.
  intros t i row Hi Hrow. simpl. unfold increment_usage. simpl.
  rewrite list_lookup_fmap, Hi. simpl. rewrite where_user_id_first.
  unfold row_of. by rewrite bool_decide_eq_false_2.
Qed.

Lemma update_user_meetings_private (user_id : Z)
    (meetings_ts : option string) :
  private user_id
          (update_user_meetings_query cast_timestamp user_id meetings_ts).
Proof.
  intros t i row Hi Hrow. unfold update_user_meetings_query.
  destruct meetings_ts as [s|]; [destruct (decide (s = "")) as [->|Hs]|];
    simpl.
  - rewrite list_lookup_fmap, Hi. simpl.
    change (where_eq _ _ _ row) with
      (where_eq user_id_column "$user_id" [("$user_id", VUint64 user_id)]
                row).
    rewrite where_user_id_first. unfold row_of.
    by rewrite bool_decide_eq_false_2.
  - rewrite bool_decide_eq_false_2 by done. simpl.
    unfold set_meetings_ts. simpl.
    rewrite list_lookup_fmap, Hi. simpl.
    rewrite where_user_id_first. unfold row_of.
    by rewrite bool_decide_eq_false_2.
  - rewrite list_lookup_fmap, Hi. simpl.
    change (where_eq _ _ _ row) with
      (where_eq user_id_column "$user_id" [("$user_id", VUint64 user_id)]
                row).
    rewrite where_user_id_first. unfold row_of.
    by rewrite bool_decide_eq_false_2.
Qed.

End Store.

(** X13.  Whatever the outcome, [update_usage] keeps the number and the
    order of the rows and every row of another user, and in a row of
    the user it changes the [usage] column only (the stored document,
    the meetings timestamp and the identity stay); when the store
    answers, the new count of such a row is the one the store computes
    from the old count alone, also when the old one is [NULL]. *)
Theorem update_usage_frame (incremented : option Value → Value)
    (user_id : Z) (w : World) (i : nat) (row : Row) :
  users w !! i = Some row →
  let w' := (update_usage incremented user_id w).2 in
  length (users w') = length (users w)
  ∧ ∃ row',
      users w' !! i = Some row'
      ∧ (row !! user_id_column ≠ Some (VUint64 user_id) → row' = row)
      ∧ (∀ c, c ≠ usage_column → row' !! c = row !! c)
      ∧ (row !! user_id_column = Some (VUint64 user_id) →
         head (outages w) ≠ Some true →
         row' !! usage_column
         = Some (incremented (row !! usage_column))).
Proof.
  intros Hi. cbv zeta. unfold update_usage. rewrite bind_eq.
  destruct (decide (head (outages w) = Some true)) as [Hdown|Hup].
  - rewrite execute_query_outage by done. simpl.
    split; [done|]. exists row. by repeat split.
  - rewrite execute_query_runs by done. simpl.
    split; [by rewrite length_fmap|].
    rewrite list_lookup_fmap, Hi. simpl. rewrite where_user_id_first.
    unfold row_of. eexists. split; [done|]. case_bool_decide as Hrow.
    + split; [done|]. split; [|by rewrite lookup_insert_eq].
      intros c Hc. by rewrite lookup_insert_ne.
    + by repeat split.
Qed.

Lemma update_usage_frame_witness :
  let incremented : option Value → Value := λ _, VUint64 4 in
  let w' := (update_usage incremented 7 cold_start).2 in
  length (users w') = length (users cold_start)
  ∧ ∃ row',
      users w' !! 0%nat = Some row'
      ∧ (alice_row !! user_id_column ≠ Some (VUint64 7) → row' = alice_row)
      ∧ (∀ c, c ≠ usage_column → row' !! c = alice_row !! c)
      ∧ (alice_row !! user_id_column = Some (VUint64 7) →
         head (outages cold_start) ≠ Some true →
         row' !! usage_column
         = Some (incremented (alice_row !! usage_column))).
Proof.
  apply (update_usage_frame (λ _, VUint64 4) 7 cold_start 0 alice_row).
  reflexivity.
Defined.

(** X14.  Whatever the outcome, [update_user_meetings] keeps the number
    and the order of the rows and every row of another user, and in a
    row of the user it changes the [meetings_ts] column only.  Called
    with [False] or with the empty string it binds the user id alone
    and, when the store answers, leaves the user's rows without a
    meetings timestamp, the stored document untouched. *)
Theorem update_user_meetings_frame (cast_timestamp : string → option Value)
    (user_id : Z) (meetings_ts : option string) (w : World)
    (i : nat) (row : Row) :
  users w !! i = Some row →
  let q := update_user_meetings_query cast_timestamp user_id meetings_ts in
  let w' := (update_user_meetings cast_timestamp user_id meetings_ts w).2 in
  length (users w') = length (users w)
  ∧ ∃ row',
      users w' !! i = Some row'
      ∧ (row !! user_id_column ≠ Some (VUint64 user_id) → row' = row)
      ∧ (∀ c, c ≠ meetings_ts_column → row' !! c = row !! c)
      ∧ (meetings_ts = None ∨ meetings_ts = Some "" →
         parameters q = [("$user_id", VUint64 user_id)]
         ∧ (row !! user_id_column = Some (VUint64 user_id) →
            head (outages w) ≠ Some true →
            row' !! meetings_ts_column = None)).
Proof.
  intros Hi. cbv zeta. unfold update_user_meetings. rewrite bind_eq.
  destruct (decide (head (outages w) = Some true)) as [Hdown|Hup].
  - rewrite execute_query_outage by done. simpl.
    split; [done|]. exists row. split; [done|]. split; [done|].
    split; [done|]. intros [-> | ->]; by split.
  - rewrite execute_query_runs by done.
    unfold update_user_meetings_query.
    destruct meetings_ts as [s|]; [destruct (decide (s = "")) as [->|Hs]|].
    + simpl. split; [by rewrite length_fmap|].
      rewrite list_lookup_fmap, Hi. simpl.
      change (where_eq _ _ _ row) with (where_eq user_id_column "$user_id"
        [("$user_id", VUint64 user_id)] row).
      rewrite where_user_id_first. unfold row_of, assign. simpl.
      eexists. split; [done|]. case_bool_decide as Hrow.
      * split; [done|]. split; [intros c Hc; by rewrite lookup_delete_ne|].
        intros _. split; [done|]. intros _ _. by rewrite lookup_delete_eq.
      * split; [done|]. split; [done|]. intros _. by split.
    + rewrite bool_decide_eq_false_2 by done. simpl.
      split; [by rewrite length_fmap|].
      rewrite list_lookup_fmap, Hi. simpl.
      rewrite where_user_id_first. unfold row_of.
      eexists. split; [done|]. case_bool_decide as Hrow.
      * split; [done|]. split; [|intros [|[= ?]]; done].
        intros c Hc. destruct (cast_timestamp s).
        -- by rewrite lookup_insert_ne.
        -- by rewrite lookup_delete_ne.
      * split; [done|]. split; [done|]. intros [|[= ?]]; done.
    + simpl. split; [by rewrite length_fmap|].
      rewrite list_lookup_fmap, Hi. simpl.
      change (where_eq _ _ _ row) with (where_eq user_id_column "$user_id"
        [("$user_id", VUint64 user_id)] row).
      rewrite where_user_id_first. unfold row_of, assign. simpl.
      eexists. split; [done|]. case_bool_decide as Hrow.
      * split; [done|]. split; [intros c Hc; by rewrite lookup_delete_ne|].
        intros _. split; [done|]. intros _ _. by rewrite lookup_delete_eq.
      * split; [done|]. split; [done|]. intros _. by split.
Qed.

Lemma update_user_meetings_frame_witness :
  let cast_timestamp : string → option Value := λ s, Some (VUtf8 s) in
  let q := update_user_meetings_query cast_timestamp 7 None in
  let w' := (update_user_meetings cast_timestamp 7 None cold_start).2 in
  length (users w') = length (users cold_start)
  ∧ ∃ row',
      users w' !! 0%nat = Some row'
      ∧ (alice_row !! user_id_column ≠ Some (VUint64 7) → row' = alice_row)
      ∧ (∀ c, c ≠ meetings_ts_column → row' !! c = alice_row !! c)
      ∧ ((None : option string) = None ∨ None = Some "" →
         parameters q = [("$user_id", VUint64 7)]
         ∧ (alice_row !! user_id_column = Some (VUint64 7) →
            head (outages cold_start) ≠ Some true →
            row' !! meetings_ts_column = None)).
Proof.
  apply (update_user_meetings_frame (λ s, Some (VUtf8 s)) 7 None cold_start
           0 alice_row).
  reflexivity.
Defined.

(** The isolation theorem, for the update of Alice answered by [on_start]
    and [on_every]: Bob's row stays. *)
Lemma invocation_keeps_other_users_witness :
  let run := Some [Issue (upsert_new_user_query alice);
                   Issue (update_usage_query (λ _, VUint64 4) 7)] in
  users (process_update (Readable (Some update_from_alice)) run
           (mkWorld started_dispatcher [alice_row; bob_row] [] [])).2
  !! 1%nat = Some bob_row.
Proof.
  apply (invocation_keeps_other_users update_from_alice alice
           (Some [Issue (upsert_new_user_query alice);
                  Issue (update_usage_query (λ _, VUint64 4) 7)])
           (mkWorld started_dispatcher [alice_row; bob_row] [] [])
           1 bob_row).
  - reflexivity.
  - simpl. constructor; [apply (upsert_new_user_private alice)|].
    constructor; [|constructor].
    apply (update_usage_private (λ _, VUint64 4) 7).
  - reflexivity.
  - vm_compute. discriminate.
Defined.

(** Reading the profile out of the aggregate's result sends nothing
    more and writes nothing. *)
Lemma read_profile_frame
    (aggregate : Bound → Parameters → Table → ResultSet)
    (bound : Bound) (ps : Parameters) (w : World) :
  let q := meetings_profile_query aggregate bound ps in
  let r :=
    (result_sets ← execute_query q;
     match result_sets with
     | [] => raise IndexError
     | result_set :: _ =>
         match result_set with
         | [] => raise IndexError
         | row :: _ =>
             let num_users := row !! "num_users" in
             match row !! "user_data" with
             | None => mret (num_users, JObj ∅)
             | Some (VJson (JObj document)) =>
                 mret (num_users, dict_get "user_data" document)
             | Some (VJson _) => raise AttributeError
             | Some _ => raise (ValueError "Expected object or value")
             end
         end
     end : M (option Value * json)) w in
  users r.2 = users w ∧ issued r.2 = issued w ++ [q].
Proof.
  cbv zeta. rewrite bind_eq.
  set (q := meetings_profile_query aggregate bound ps).
  pose proof (execute_query_issued q w) as Hlog.
  assert (Husers : users (execute_query q w).2 = users w).
  { unfold execute_query. simpl.
    destruct (outages w) as [|[] later]; simpl; try done. }
  destruct (execute_query _ w) as [[[|[|row rs] rss]|e] w1];
    cbn [fst snd] in *; try done.
  by destruct (row !! "user_data") as [[| |[| | | | |d]]|].
Qed.

(** X21.  [get_meetings_profile] with both timestamps raises
    [ValueError] before anything is sent.  Otherwise it issues exactly
    one query and leaves the table as it is; the text of the query is
    fixed by which of the two timestamps is given, not by its value,
    which travels as the one bound parameter ([$after_ts] or
    [$before_ts]); without a timestamp nothing is bound. *)
Theorem get_meetings_profile_queries
    (aggregate : Bound → Parameters → Table → ResultSet)
    (after_ts before_ts : option string) (w : World) :
  let r := get_meetings_profile aggregate after_ts before_ts w in
  match after_ts, before_ts with
  | Some _, Some _ =>
      r = (Raised (ValueError
             "after_ts and before_ts could not be not None at the same time"),
           w)
  | _, _ =>
      users r.2 = users w
      ∧ ∃ q, issued r.2 = issued w ++ [q]
             ∧ text q = meetings_profile_text
                          (match after_ts, before_ts with
                           | Some _, _ => After
                           | None, Some _ => Before
                           | None, None => Unbounded
                           end)
             ∧ parameters q =
                 match after_ts, before_ts with
                 | Some a, _ => [("$after_ts", VUtf8 a)]
                 | None, Some b => [("$before_ts", VUtf8 b)]
                 | None, None => []
                 end
  end.
Proof.
  cbv zeta. unfold get_meetings_profile.
  destruct after_ts as [a|], before_ts as [b|]; [done| | |];
    rewrite bind_eq; unfold mret at 1, M_ret at 1; cbv beta iota;
    (split; [apply read_profile_frame|]);
    eexists; (split; [apply read_profile_frame|]); by split.
Qed.

(* ===================================================================== *)
(** ** The invocation without flags *)
(* ===================================================================== *)







(* ===================================================================== *)
(** ** More on registration *)
(* ===================================================================== *)

(** What [add_handler] leaves in the dispatcher, accepted or not. *)
Lemma add_handler_dispatcher (handler : Handler) (group : Z)
    (d : PersistentDispatcher) (p : YDBPersistence) :
  persistence d = Some p →
  let d' := (add_handler handler group d).2 in
  user_data d' = user_data d
  ∧ is_Some (persistence d')
  ∧ groups d' = match handlers d !! group with
                | Some _ => groups d
                | None => merge_sort Z.le (groups d ++ [group])
                end
  ∧ handlers d' = <[group := default [] (handlers d !! group)
                             ++ [attached handler p]]> (handlers d).
Proof.
  intros Hp. cbv zeta. unfold add_handler, Ptb.add_handler, attached.
  rewrite Hp. destruct handler as [h|]; [|by simpl].
  destruct (persistent h && negb (bool_decide (name h = ""))) eqn:Hattach;
    simpl.
  - destruct (negb (per_user h)); [by simpl|].
    destruct (per_chat h); [by simpl|].
    destruct (per_message h); [by simpl|].
    by destruct (negb (persistent h)).
  - destruct (negb (per_user h)); [by simpl|].
    destruct (per_chat h); [by simpl|].
    destruct (per_message h); [by simpl|].
    by destruct (negb (persistent h)).
Qed.

Lemma add_handler_accepts (handler : Handler) (group : Z)
    (d : PersistentDispatcher) :
  is_Some (persistence d) →
  accepted_handler handler →
  (add_handler handler group d).1 = Returned tt.
Proof.
  intros [p Hp] Hok. unfold add_handler, Ptb.add_handler. rewrite Hp.
  destruct handler as [h|]; [|by simpl].
  destruct Hok as (Hu & Hc & Hm & Hpers & Hname).
  rewrite Hpers, Hu, Hc, Hm, bool_decide_eq_false_2 by done. done.
Qed.

Lemma registered_after_add (handler : Handler) (group : Z)
    (d : PersistentDispatcher) (p : YDBPersistence)
    (h' : ConversationHandler) :
  persistence d = Some p →
  (∀ g, is_Some (handlers d !! g) → g ∈ groups d) →
  let d' := (add_handler handler group d).2 in
  registered h' d' ↔
    registered h' d ∨ attached handler p = Conversation h'.
Proof.
  intros Hp Hkeys. cbv zeta.
  destruct (add_handler_dispatcher handler group d p Hp)
    as (_ & _ & Hgs & Hhs).
  unfold registered, registered_at. rewrite Hhs, Hgs.
  assert (Hin : ∀ g, g ∈ match handlers d !! group with
                         | Some _ => groups d
                         | None => merge_sort Z.le (groups d ++ [group])
                         end ↔ g ∈ groups d ∨ g = group).
  { intros g. destruct (handlers d !! group) eqn:Hg.
    - split; [eauto|]. intros [?| ->]; [done|]. apply Hkeys. eauto.
    - rewrite merge_sort_Permutation, elem_of_app, list_elem_of_singleton.
      done. }
  split.
  - intros (g & i & Hg & l & Hl & Hi).
    destruct (decide (g = group)) as [->|Hne].
    + rewrite lookup_insert_eq in Hl. injection Hl as <-.
      apply lookup_app_Some in Hi as [Hi|[_ Hi]].
      * left. exists group, i. split.
        -- apply Hkeys. destruct (handlers d !! group); [eauto|].
           simpl in Hi. by rewrite lookup_nil in Hi.
        -- exists (default [] (handlers d !! group)). split; [|done].
           destruct (handlers d !! group); [done|].
           simpl in Hi. by rewrite lookup_nil in Hi.
      * right. apply list_lookup_singleton_Some in Hi as [_ ?]. done.
    + rewrite lookup_insert_ne in Hl by done. left. exists g, i.
      split; [|eauto]. apply Hin in Hg as [?|?]; done.
  - intros [(g & i & Hg & l & Hl & Hi)|Hnew].
    + destruct (decide (g = group)) as [->|Hne].
      * exists group, i. split; [apply Hin; eauto|].
        eexists. rewrite lookup_insert_eq. split; [done|].
        rewrite Hl. simpl. by apply lookup_app_l_Some.
      * exists g, i. split; [apply Hin; eauto|].
        exists l. by rewrite lookup_insert_ne.
    + exists group, (length (default [] (handlers d !! group))).
      split; [apply Hin; eauto|]. eexists.
      rewrite lookup_insert_eq. split; [done|].
      rewrite lookup_app_r by done. rewrite Nat.sub_diag. by rewrite Hnew.
Qed.

(** X16.  A refused registration is not undone.  On a well-formed
    dispatcher with a persistence object, [add_handler] with a
    conversation in one of the four refused settings raises, but the
    library has already stored the handler: the dispatcher it leaves
    has the conversation registered, and is therefore not well-formed
    any more. *)
Theorem refused_handler_stays (h : ConversationHandler) (group : Z)
    (d : PersistentDispatcher) :
  is_Some (persistence d) →
  well_formed d →
  misconfigured h →
  let d' := (add_handler (Conversation h) group d).2 in
  (∃ h', registered h' d' ∧ name h' = name h ∧ ¬ accepted h')
  ∧ ¬ well_formed d'.
Proof.
  intros [p Hp] (Hnodup & Hkeys & Hacc) Hbad. cbv zeta.
  assert (∃ h', attached (Conversation h) p = Conversation h'
                ∧ name h' = name h ∧ ¬ accepted h') as (h' & Hh' & Hn & Hna).
  { unfold attached.
    destruct (persistent h && negb (bool_decide (name h = "")));
      eexists; (split; [done|]); (split; [done|]);
      intros (Hu & Hc & Hm & Hpers & _); simpl in *;
      destruct Hbad as [? | [? | [? | ?]]]; congruence. }
  assert (Hreg : registered h' (add_handler (Conversation h) group d).2).
  { apply (registered_after_add _ _ _ p); [done|done|]. by right. }
  split; [by exists h'|].
  intros (_ & _ & Hacc'). by apply Hna, Hacc'.
Qed.

Lemma refused_handler_stays_witness :
  let h := mkConversationHandler "mortuary_conv" true true false true ∅ in
  let d' := (add_handler (Conversation h) 0 started_dispatcher).2 in
  (∃ h', registered h' d' ∧ name h' = name h ∧ ¬ accepted h')
  ∧ ¬ well_formed d'.
Proof.
  apply (refused_handler_stays
           (mkConversationHandler "mortuary_conv" true true false true ∅)
           0 started_dispatcher).
  - by eexists.
  - apply well_formed_check_correct, (bool_decide_unpack _).
    vm_compute. exact I.
  - unfold misconfigured. simpl. by left.
Defined.

(** X17.  Registration keeps the registry in order.  On a dispatcher
    with a persistence object whose registry is in order, [add_handler]
    with a handler that is not a conversation, or with a conversation in
    the accepted setting, returns, and the registry is still in order:
    [groups] has no duplicates and is ascending, every group has its
    handlers, every conversation is in the accepted setting.  The
    handler is added at the end of its group, the other groups and
    [user_data] are untouched, and a conversation starts from the
    states the persistence object holds under its name. *)
Theorem registration_keeps_registry (handler : Handler) (group : Z)
    (d : PersistentDispatcher) (p : YDBPersistence) :
  persistence d = Some p →
  registry d →
  accepted_handler handler →
  let d' := (add_handler handler group d).2 in
  (add_handler handler group d).1 = Returned tt
  ∧ registry d'
  ∧ user_data d' = user_data d
  ∧ handlers d' !! group
    = Some (default [] (handlers d !! group) ++ [attached handler p])
  ∧ (∀ g, g ≠ group → handlers d' !! g = handlers d !! g)
  ∧ ∀ h, handler = Conversation h →
      ∃ h', attached handler p = Conversation h'
            ∧ name h' = name h
            ∧ ∀ key, dict_get key (conversations h')
                     = stored_state key (name h) p.
Proof.
  intros Hp ((Hnodup & Hkeys & Hacc) & Hgroups & Hsorted) Hok. cbv zeta.
  split; [apply add_handler_accepts; eauto|].
  destruct (add_handler_dispatcher handler group d p Hp)
    as (Hud & Hp' & Hgs & Hhs).
  assert (Hin : ∀ g, g ∈ groups (add_handler handler group d).2
                     ↔ g ∈ groups d ∨ g = group).
  { intros g. rewrite Hgs. destruct (handlers d !! group) eqn:Hg.
    - split; [eauto|]. intros [?| ->]; [done|]. apply Hkeys. eauto.
    - rewrite merge_sort_Permutation, elem_of_app, list_elem_of_singleton.
      done. }
  split; [|split; [done|split; [by rewrite Hhs, lookup_insert_eq|split]]].
  - split; [split; [|split]|split].
    + rewrite Hgs. destruct (handlers d !! group) eqn:Hg; [done|].
      rewrite merge_sort_Permutation. apply NoDup_app.
      split; [done|]. split; [|apply NoDup_singleton].
      intros g Hg1 ->%list_elem_of_singleton.
      apply Hgroups in Hg1. rewrite Hg in Hg1. by destruct Hg1.
    + intros g Hg. apply Hin. rewrite Hhs in Hg.
      destruct (decide (g = group)) as [->|Hne]; [by right|].
      rewrite lookup_insert_ne in Hg by done. left. by apply Hkeys.
    + intros h' Hh'.
      apply (registered_after_add handler group d p h' Hp Hkeys) in Hh'
        as [Hold|Hnew]; [by apply Hacc|].
      unfold attached in Hnew. destruct handler as [h|]; [|done].
      simpl in Hok.
      destruct (persistent h && negb (bool_decide (name h = "")));
        injection Hnew as <-; done.
    + intros g Hg. apply Hin in Hg as [Hg| ->].
      * rewrite Hhs. destruct (decide (g = group)) as [->|Hne].
        -- rewrite lookup_insert_eq. eauto.
        -- rewrite lookup_insert_ne by done. by apply Hgroups.
      * rewrite Hhs, lookup_insert_eq. eauto.
    + rewrite Hgs. destruct (handlers d !! group); [done|].
      apply Sorted_merge_sort. apply _.
  - intros g Hne. by rewrite Hhs, lookup_insert_ne.
  - intros h ->. simpl in Hok.
    destruct Hok as (_ & _ & _ & Hpers & Hname).
    unfold attached. rewrite Hpers, bool_decide_eq_false_2 by done. simpl.
    eexists. split; [done|]. split; [done|]. done.
Qed.

Lemma registration_keeps_registry_witness :
  let p := mkYDBPersistence None (Some ∅) in
  let d' := (add_handler (Conversation conv_C) 1 started_dispatcher).2 in
  (add_handler (Conversation conv_C) 1 started_dispatcher).1 = Returned tt
  ∧ registry d'
  ∧ user_data d' = user_data started_dispatcher
  ∧ handlers d' !! 1
    = Some (default [] (handlers started_dispatcher !! 1)
            ++ [attached (Conversation conv_C) p])
  ∧ (∀ g, g ≠ 1 → handlers d' !! g = handlers started_dispatcher !! g)
  ∧ ∀ h, Conversation conv_C = Conversation h →
      ∃ h', attached (Conversation conv_C) p = Conversation h'
            ∧ name h' = name h
            ∧ ∀ key, dict_get key (conversations h')
                     = stored_state key (name h) p.
Proof.
  apply (registration_keeps_registry (Conversation conv_C) 1
           started_dispatcher (mkYDBPersistence None (Some ∅))).
  - reflexivity.
  - split; [|split].
    + apply well_formed_check_correct, (bool_decide_unpack _).
      vm_compute. exact I.
    + intros g Hg. vm_compute in Hg.
      apply elem_of_cons in Hg as [->|Hg]; [by eexists|].
      apply elem_of_cons in Hg as [->|Hg]; [by eexists|].
      by apply elem_of_nil in Hg.
    + vm_compute. repeat constructor; discriminate.
  - simpl. unfold accepted. simpl. by repeat split.
Defined.

(* ===================================================================== *)
(** ** What stays in memory *)
(* ===================================================================== *)

(** X18.  The wipe does not reach the process.  In an invocation whose
    dispatch leaves the ERROR flag set, the persistence object of the
    process still holds, after the invocation, the user's scratch entry
    as the handlers left it (without the two flags), whether the wipe
    was executed or not: only the row is cleared. *)
Theorem fault_keeps_memory
    (update : Update) (u : User) (run : option (list Action))
    (w w1 : World) (entry : gmap string json) (v : json) :
  effective_user update = Some u →
  is_Some (persistence (dispatcher w)) →
  well_formed (dispatcher w) →
  load_and_dispatch update u run w = (Returned tt, w1) →
  user_data (dispatcher w1) !! id u = Some (JObj entry) →
  entry !! "ERROR" = Some v →
  truthy v = true →
  let w' := (process_update (Readable (Some update)) run w).2 in
  ∃ p', persistence (dispatcher w') = Some p'
        ∧ scratch_of (id u) p'
          = JObj (delete "ERROR" (delete "UNKNOWN" entry))
        ∧ dict_get (id u) (user_data (dispatcher w'))
          = JObj (delete "ERROR" (delete "UNKNOWN" entry)).
Proof.
  intros Hu Hp Hwf Hw1 Hentry Herror Hv.
  destruct (load_and_dispatch_kept update u run w w1 Hu Hp Hwf Hw1)
    as (Hwf1 & _ & _).
  assert (Hp1 : is_Some (persistence (dispatcher w1))).
  { revert Hw1. unfold load_and_dispatch. rewrite bind_eq.
    pose proof (load_persistence_data_persistence (id u) w) as Hl.
    destruct (load_persistence_data (id u) w) as [[[]|e] w0]; [|done].
    destruct (Dispatcher_process_update_returns update run w0)
      as (w1' & -> & _ & Hd).
    intros [= <-]. apply Hd, Hl, Hp. }
  cbv zeta.
  remember (process_update (Readable (Some update)) run w) as result
    eqn:Hrun.
  rewrite (process_update_stages update u) in Hrun by done.
  rewrite bind_eq, Hw1 in Hrun. unfold strip_and_save in Hrun.
  rewrite bind_eq, (pop_flag_entry _ _ _ entry) in Hrun by done.
  set (w2 := set_dispatcher _ w1) in Hrun.
  assert (Hentry2 : user_data (dispatcher w2) !! id u
                    = Some (JObj (delete "UNKNOWN" entry))).
  { unfold w2. simpl. by rewrite lookup_insert_eq. }
  rewrite bind_eq, (pop_flag_entry _ _ _ (delete "UNKNOWN" entry))
    in Hrun by done.
  rewrite lookup_delete_ne, Herror in Hrun by done. simpl in Hrun.
  set (w3 := set_dispatcher _ w2) in Hrun.
  assert (Hentry3 : user_data (dispatcher w3) !! id u
                    = Some (JObj (delete "ERROR" (delete "UNKNOWN" entry)))).
  { unfold w3. simpl. by rewrite lookup_insert_eq. }
  assert (Hp3 : persistence (dispatcher w3) = persistence (dispatcher w1))
    by done.
  assert (Hwf3 : well_formed (dispatcher w3)).
  { by apply (well_formed_same_handlers (dispatcher w1)). }
  rewrite Hv, orb_true_r in Hrun. simpl in Hrun. rewrite bind_eq in Hrun.
  rewrite update_persistence_world in Hrun.
  set (w4 := set_dispatcher _ w3) in Hrun.
  destruct Hp1 as [p1 Hp1].
  assert (∃ p4, persistence (dispatcher w4) = Some p4
                ∧ scratch_of (id u) p4
                  = JObj (delete "ERROR" (delete "UNKNOWN" entry))
                ∧ dict_get (id u) (user_data (dispatcher w4))
                  = JObj (delete "ERROR" (delete "UNKNOWN" entry))
                ∧ well_formed (dispatcher w4))
    as (p4 & Hp4 & Hs4 & Hud4 & Hwf4).
  { unfold w4. cbn [dispatcher set_dispatcher].
    unfold Ptb.update_persistence. rewrite Hp3, Hp1, Hu, Hentry3.
    eexists. split; [done|]. cbn [user_data default].
    split; [by rewrite scratch_of_update_user_data|].
    split; [by rewrite dict_get_insert|].
    by apply (well_formed_same_handlers (dispatcher w3)). }
  clearbody w4. clear w2 w3 Hentry2 Hentry3 Hp3 Hwf3.
  rewrite bind_eq in Hrun.
  assert (∃ w5 p5, when (truthy (default (JBool false) (entry !! "UNKNOWN")))
                     (end_conversations update) w4 = (Returned tt, w5)
                   ∧ persistence (dispatcher w5) = Some p5
                   ∧ _user_data p5 = _user_data p4
                   ∧ user_data (dispatcher w5) = user_data (dispatcher w4))
    as (w5 & p5 & Hend & Hp5 & Hud5 & Hd5).
  { unfold when.
    destruct (truthy (default (JBool false) (entry !! "UNKNOWN")));
      [|by exists w4, p4].
    destruct (end_conversations_returns update u w4 p4 Hu Hp4 Hwf4)
      as (w5 & p5 & Hend & Hp5 & Hud5 & _ & _ & _ & Hd5 & _).
    by exists w5, p5. }
  rewrite Hend, bind_eq in Hrun.
  unfold update_persistence_database in Hrun.
  rewrite bind_eq in Hrun. unfold get_dispatcher in Hrun.
  rewrite Hp5 in Hrun.
  pose proof (update_database_dispatcher (id u) v p5 w5) as Hdisp.
  assert (Hw' : dispatcher result.2 = dispatcher w5).
  { destruct (update_database (id u) v p5 w5) as [[[]|e] w6];
      subst result; simpl in *; done. }
  rewrite Hw'. exists p5. split; [done|].
  split; [unfold scratch_of in *; by rewrite Hud5|by rewrite Hd5].
Qed.

Lemma fault_keeps_memory_witness :
  let run := Some [Scratch (λ user_data,
                              <["seen_memes" := JArr [JInt 4]]> user_data);
                   Scratch error_reported] in
  let entry : gmap string json :=
    error_reported (<["seen_memes" := JArr [JInt 4]]> ∅) in
  let w' := (process_update (Readable (Some update_from_alice)) run
               cold_start).2 in
  ∃ p', persistence (dispatcher w') = Some p'
        ∧ scratch_of (id alice) p'
          = JObj (delete "ERROR" (delete "UNKNOWN" entry))
        ∧ dict_get (id alice) (user_data (dispatcher w'))
          = JObj (delete "ERROR" (delete "UNKNOWN" entry)).
Proof.
  intros run entry.
  apply (fault_keeps_memory update_from_alice alice run cold_start
           (load_and_dispatch update_from_alice alice run cold_start).2
           entry (JBool true)).
  - reflexivity.
  - vm_compute. eauto.
  - apply well_formed_check_correct, (bool_decide_unpack _).
    vm_compute. exact I.
  - vm_compute. reflexivity.
  - vm_compute. reflexivity.
  - vm_compute. reflexivity.
  - reflexivity.
Defined.

Lemma visit_reload_conversations (l : list Handler) (p : YDBPersistence) :
  default ∅ (_conversations (Ptb.visit reload l p).2)
  = default ∅ (_conversations p).
Proof.
  revert p. induction l as [|h l IH]; intros p; [done|]. simpl.
  assert (Hstep : default ∅ (_conversations (reload h p).2)
                  = default ∅ (_conversations p)).
  { unfold reload. destruct h as [c|]; [|done].
    by destruct (persistent c). }
  destruct (reload h p) as [[h'|e] p1]; [|done].
  specialize (IH p1).
  destruct (Ptb.visit reload l p1) as [[e l'] p2]. simpl in *. congruence.
Qed.

Lemma visit_groups_reload_conversations (gs : list Z)
    (hs : gmap Z (list Handler)) (p : YDBPersistence) :
  default ∅ (_conversations (Ptb.visit_groups reload gs hs p).2)
  = default ∅ (_conversations p).
Proof.
  revert hs p. induction gs as [|g gs IH]; intros hs p; [done|]. simpl.
  destruct (hs !! g) as [l|]; [|apply IH].
  pose proof (visit_reload_conversations l p) as Hl.
  destruct (Ptb.visit reload l p) as [[[e|] l'] p1]; [done|].
  simpl in Hl. rewrite IH. done.
Qed.

(** X19.  A load that finds no document clears nothing.  When the user
    has no row, or one row with a [NULL] document, and the store
    answers, [load_persistence_data] returns and the process keeps all
    it held: [dispatcher.user_data] is the scratch data of the
    persistence object as it was before the call, and the persistence
    object holds the same scratch entries and conversation states, for
    this user and for the others. *)
Theorem load_without_document (user_id : Z) (w : World)
    (p : YDBPersistence) :
  persistence (dispatcher w) = Some p →
  head (outages w) ≠ Some true →
  match rows_of user_id (users w) with
  | [] => True
  | [row] => row !! data_column = None
  | _ => False
  end →
  ∃ w0 p0,
    load_persistence_data user_id w = (Returned tt, w0)
    ∧ persistence (dispatcher w0) = Some p0
    ∧ user_data (dispatcher w0) = default ∅ (_user_data p)
    ∧ (∀ uid, scratch_of uid p0 = scratch_of uid p)
    ∧ (∀ key n, stored_state key n p0 = stored_state key n p)
    ∧ users w0 = users w.
Proof.
  intros Hp Hup Hrows.
  assert (Hread : (get_data user_id w).1 = Returned (JObj ∅)).
  { rewrite get_data_result by done.
    destruct (rows_of user_id (users w)) as [|row [|row' rows]];
      [done| |done].
    by rewrite Hrows. }
  pose proof (get_data_world user_id w) as Hworld.
  unfold load_persistence_data. rewrite bind_eq.
  unfold get_dispatcher at 1. rewrite Hp, bind_eq.
  destruct (get_data user_id w) as [o w_read]. simpl in Hread, Hworld.
  subst o w_read.
  unfold update_data. rewrite !dict_get_empty. simpl.
  pose proof (visit_groups_reload_user_data (groups (dispatcher w))
                (handlers (dispatcher w))
                (mkYDBPersistence (Some (default ∅ (_user_data p)))
                                  (_conversations p))) as Hud.
  pose proof (visit_groups_reload_conversations (groups (dispatcher w))
                (handlers (dispatcher w))
                (mkYDBPersistence (Some (default ∅ (_user_data p)))
                                  (_conversations p))) as Hcs.
  destruct (Ptb.visit_groups _ _ _ _) as [[e hs] p3]. simpl in Hud, Hcs.
  eexists _, p3. split; [reflexivity|]. simpl.
  split; [done|]. split; [done|]. split; [|split; [|done]].
  - intros uid. unfold scratch_of. by rewrite Hud.
  - intros key n. unfold stored_state. by rewrite Hcs.
Qed.

Lemma load_without_document_witness :
  let w := mkWorld (set_persistence (Some browsing_memes) started_dispatcher)
                   [alice_row] [] [] in
  ∃ w0 p0,
    load_persistence_data 7 w = (Returned tt, w0)
    ∧ persistence (dispatcher w0) = Some p0
    ∧ user_data (dispatcher w0) = default ∅ (_user_data browsing_memes)
    ∧ (∀ uid, scratch_of uid p0 = scratch_of uid browsing_memes)
    ∧ (∀ key n, stored_state key n p0 = stored_state key n browsing_memes)
    ∧ users w0 = users w.
Proof.
  apply (load_without_document 7
           (mkWorld (set_persistence (Some browsing_memes) started_dispatcher)
                    [alice_row] [] [])
           browsing_memes).
  - reflexivity.
  - simpl. discriminate.
  - vm_compute. reflexivity.
Defined.

(* ===================================================================== *)
(** ** Ending the conversations of one user *)
(* ===================================================================== *)

(** X20.  [end_conversations] on a well-formed dispatcher touches the
    conversations of the update's user only: it returns; every
    registered conversation stays at its place and loses its state
    under the key of this user, keeping every other key of its
    dictionary; the persistence object keeps the scratch entries of
    all users and the states stored under every other key;
    [dispatcher.user_data] and the table are untouched. *)
Theorem end_conversations_of_one_user (update : Update) (u : User)
    (w : World) (p : YDBPersistence) :
  effective_user update = Some u →
  persistence (dispatcher w) = Some p →
  well_formed (dispatcher w) →
  ∃ w' p',
    end_conversations update w = (Returned tt, w')
    ∧ persistence (dispatcher w') = Some p'
    ∧ (∀ g i h, registered_at g i h (dispatcher w) →
         ∃ h', registered_at g i h' (dispatcher w')
               ∧ name h' = name h
               ∧ conversations h' = delete [id u] (conversations h))
    ∧ (∀ uid, scratch_of uid p' = scratch_of uid p)
    ∧ (∀ key n, key ≠ [id u] →
         stored_state key n p' = stored_state key n p)
    ∧ user_data (dispatcher w') = user_data (dispatcher w)
    ∧ users w' = users w.
Proof.
  intros Hu Hp (Hnd & Hkeys & Hacc).
  unfold end_conversations. rewrite bind_eq. unfold get_dispatcher at 1.
  set (d := dispatcher w) in *.
  destruct (visit_groups_inv (end_conversation update)
              (lift (ended [id u]))
              (λ (done : list Handler) s,
                 ∃ q, s = Some q ∧ _user_data q = _user_data p
                      ∧ ∀ key n, key ≠ [id u] →
                          stored_state key n q = stored_state key n p)
              (groups d) (handlers d) [] (persistence d))
    as (hs' & s' & Hvisit & (p' & -> & Hud & Hstates) & Hhs'); [done| | |].
  - intros h done s Hh (q & -> & Hq & Hst).
    destruct h as [c|].
    + rewrite (end_conversation_step update u c q); [|done|].
      2:{ apply Hacc. by apply registered_flat. }
      eexists. split; [done|]. eexists. split; [done|].
      destruct (bool_decide (is_Some (conversations c !! [id u]))).
      * split; [by rewrite user_data_update_conversation|].
        intros key n Hkey.
        rewrite stored_state_update_conversation_key by done.
        by apply Hst.
      * by split.
    + simpl. eexists. split; [done|]. by exists q.
  - exists p. by rewrite Hp.
  - rewrite Hvisit. unfold put_dispatcher, set_dispatcher.
    rewrite bind_eq. eexists _, p'. split; [done|]. simpl.
    split; [done|]. split; [|split; [|split; [done|done]]].
    + intros g i h Hreg. exists (ended [id u] h).
      split; [|done].
      apply (registered_at_lift (ended [id u]) d
               (mkDispatcher (Some p') (user_data d) (groups d) hs'));
        [done|done|]. by exists h.
    + intros uid. unfold scratch_of. by rewrite Hud.
Qed.

Lemma end_conversations_of_one_user_witness :
  let w := mkWorld (dispatcher after_meme) [alice_row] [] [] in
  ∃ w' p',
    end_conversations update_from_alice w = (Returned tt, w')
    ∧ persistence (dispatcher w') = Some p'
    ∧ (∀ g i h, registered_at g i h (dispatcher w) →
         ∃ h', registered_at g i h' (dispatcher w')
               ∧ name h' = name h
               ∧ conversations h' = delete [id alice] (conversations h))
    ∧ (∀ uid, scratch_of uid p' = scratch_of uid browsing_memes)
    ∧ (∀ key n, key ≠ [id alice] →
         stored_state key n p' = stored_state key n browsing_memes)
    ∧ user_data (dispatcher w') = user_data (dispatcher w)
    ∧ users w' = users w.
Proof.
  apply (end_conversations_of_one_user update_from_alice alice
           (mkWorld (dispatcher after_meme) [alice_row] [] [])
           browsing_memes).
  - reflexivity.
  - vm_compute. reflexivity.
  - apply well_formed_check_correct, (bool_decide_unpack _).
    vm_compute. exact I.
Defined.

(* ===================================================================== *)
(** ** [decode_entities] *)
(* ===================================================================== *)

Lemma encode_point_units (c : Z) (us : list Z) :
  Helpers.encode_point c = Some us →
  (us = [c] ∧ Helpers.is_high c = false ∧ Helpers.is_low c = false)
  ∨ (∃ h l, us = [h; l] ∧ Helpers.is_high h = true
            ∧ Helpers.is_low l = true
            ∧ 0x10000 + (h - 0xD800) * 0x400 + (l - 0xDC00) = c).
Proof.
  unfold Helpers.encode_point.
  destruct (c <? 0) eqn:Hneg; [done|].
  destruct (Helpers.is_high c) eqn:Hh; [done|].
  destruct (Helpers.is_low c) eqn:Hl; [done|]. simpl.
  destruct (c <? 0x10000) eqn:Hbmp; [intros [= <-]; by left|].
  destruct (c <? 0x110000) eqn:Hmax; [|done].
  intros [= <-]. right. eexists _, _. split; [done|].
  apply Z.ltb_ge in Hbmp. apply Z.ltb_lt in Hmax.
  assert (0 ≤ (c - 0x10000) / 0x400 < 0x400).
  { split; [apply Z.div_pos; lia|].
    apply Z.div_lt_upper_bound; lia. }
  assert (0 ≤ (c - 0x10000) mod 0x400 < 0x400)
    by (apply Z.mod_pos_bound; lia).
  unfold Helpers.is_high, Helpers.is_low.
  split; [apply andb_true_iff; split;
          [apply Z.leb_le|apply Z.ltb_lt]; lia|].
  split; [apply andb_true_iff; split;
          [apply Z.leb_le|apply Z.ltb_lt]; lia|].
  pose proof (Z.div_mod (c - 0x10000) 0x400). lia.
Qed.

Lemma decode_encode_point (c : Z) (us rest : list Z) :
  Helpers.encode_point c = Some us →
  Helpers.decode (us ++ rest) = cons c <$> Helpers.decode rest.
Proof.
  intros [(-> & Hh & Hl)|(h & l & -> & Hh & Hl & <-)]%encode_point_units;
    simpl.
  - by rewrite Hh, Hl.
  - by rewrite Hh, Hl.
Qed.

Lemma encode_app (s s' : Helpers.pystr) (us us' : list Z) :
  Helpers.encode s = Some us → Helpers.encode s' = Some us' →
  Helpers.encode (s ++ s') = Some (us ++ us').
Proof.
  revert us. induction s as [|c s IH]; intros us; simpl.
  - by intros [= <-].
  - destruct (Helpers.encode_point c) as [uc|]; [|done].
    destruct (Helpers.encode s) as [us0|]; [|done].
    intros [= <-] Hs'. rewrite (IH us0) by done. by rewrite <- app_assoc.
Qed.

(** Decoding what was encoded, with more units behind. *)
Lemma decode_encode_app (s : Helpers.pystr) (us rest : list Z) :
  Helpers.encode s = Some us →
  Helpers.decode (us ++ rest) = app s <$> Helpers.decode rest.
Proof.
  revert us. induction s as [|c s IH]; intros us; simpl.
  - intros [= <-]. simpl. by destruct (Helpers.decode rest).
  - destruct (Helpers.encode_point c) as [uc|] eqn:Hc; [|done].
    destruct (Helpers.encode s) as [us0|]; [|done].
    intros [= <-]. rewrite <- app_assoc.
    rewrite (decode_encode_point c uc) by done.
    rewrite (IH us0) by done. by destruct (Helpers.decode rest).
Qed.

Lemma decode_encode (s : Helpers.pystr) (us : list Z) :
  Helpers.encode s = Some us → Helpers.decode us = Some s.
Proof.
  intros Hs. rewrite <- (app_nil_r us).
  rewrite (decode_encode_app s us []) by done. simpl.
  by rewrite app_nil_r.
Qed.

Lemma slice_middle (done us rest : list Z) (i j : nat) :
  i = length done → j = (i + length us)%nat →
  Helpers.slice i j (done ++ us ++ rest) = us.
Proof.
  intros -> ->. unfold Helpers.slice.
  rewrite drop_app_length.
  replace (length done + length us - length done)%nat with (length us)
    by lia.
  by rewrite take_app_length.
Qed.

(** The stable sort leaves items that are in the order of their offsets
    as they are. *)
Lemma insert_by_offset_last (item : Helpers.MessageEntity * Helpers.pystr)
    (l : list (Helpers.MessageEntity * Helpers.pystr)) :
  Forall (λ item', (Helpers.offset item'.1 ≤ Helpers.offset item.1)%nat) l →
  Helpers.insert_by_offset item l = l ++ [item].
Proof.
  induction l as [|item' l IH]; [done|]. intros [Hle Hl]%Forall_cons.
  simpl. rewrite (proj2 (Nat.ltb_ge _ _)) by done. by rewrite IH.
Qed.

Lemma foldl_insert_in_order
    (acc items : list (Helpers.MessageEntity * Helpers.pystr)) :
  (∀ x y, x ∈ acc → y ∈ items →
          (Helpers.offset x.1 ≤ Helpers.offset y.1)%nat) →
  StronglySorted (λ x y, (Helpers.offset x.1 ≤ Helpers.offset y.1)%nat)
                 items →
  foldl (λ acc item, Helpers.insert_by_offset item acc) acc items
  = acc ++ items.
Proof.
  revert acc. induction items as [|item items IH]; intros acc Hacc Hsorted.
  - by rewrite app_nil_r.
  - apply StronglySorted_inv in Hsorted as [Hsorted Hall]. simpl.
    rewrite insert_by_offset_last.
    + rewrite IH; [by rewrite <- app_assoc| |done].
      intros x y [Hx| ->%list_elem_of_singleton]%elem_of_app Hy.
      * apply Hacc; [done|]. by apply list_elem_of_further.
      * by apply (proj1 (Forall_forall _ _) Hall).
    + apply Forall_forall. intros x Hx. apply Hacc; [done|].
      apply list_elem_of_here.
Qed.

Lemma sorted_in_order
    (items : list (Helpers.MessageEntity * Helpers.pystr)) :
  StronglySorted (λ x y, (Helpers.offset x.1 ≤ Helpers.offset y.1)%nat)
                 items →
  Helpers.sorted items = items.
Proof.
  intros Hsorted. unfold Helpers.sorted.
  rewrite foldl_insert_in_order; [done| |done].
  intros x y Hx. by apply elem_of_nil in Hx.
Qed.

Lemma placed_from (start : nat) (segments : list Segment) :
  placed start segments →
  Forall (λ item, (start ≤ Helpers.offset item.1)%nat) (items_of segments)
  ∧ StronglySorted
      (λ x y, (Helpers.offset x.1 ≤ Helpers.offset y.1)%nat)
      (items_of segments).
Proof.
  revert start. induction segments as [|[[gap e] text] segments IH];
    intros start; simpl.
  - intros _. split; constructor.
  - intros (ug & ut & _ & _ & Hoff & _ & Hrest).
    destruct (IH _ Hrest) as [Hfrom Hsorted].
    assert (Hlater : Forall (λ item, (Helpers.offset e
                                      ≤ Helpers.offset item.1)%nat)
                            (items_of segments)).
    { eapply Forall_impl; [exact Hfrom|]. simpl. intros item. lia. }
    split.
    + constructor; [simpl; lia|].
      eapply Forall_impl; [exact Hlater|]. simpl. intros item. lia.
    + by constructor.
Qed.

(** The loop on a message cut at its entities. *)
Lemma render_segments (segments : list Segment) (rest : Helpers.pystr)
    (rest_units done : list Z) (html_text : Helpers.pystr) :
  Helpers.encode rest = Some rest_units →
  placed (length done) segments →
  ∃ units,
    Helpers.encode (message_of segments rest) = Some units
    ∧ Helpers.render (done ++ units) (items_of segments) html_text
                     (length done)
      = Helpers.Returns (Some (html_text ++ html_of segments rest)).
Proof.
  intros Hrest. revert done html_text.
  induction segments as [|[[gap e] text] segments IH];
    intros done html_text; simpl.
  - intros _. exists rest_units. split; [done|].
    rewrite drop_app_length. by rewrite (decode_encode rest).
  - intros (ug & ut & Hgap & Htext & Hoff & Hlen & Hplaced).
    rewrite Hoff, Hlen in Hplaced.
    replace (length done + length ug + length ut)%nat
      with (length ((done ++ ug) ++ ut)) in Hplaced
      by (rewrite !length_app; lia).
    destruct (IH ((done ++ ug) ++ ut) (html_text ++ gap
                                       ++ Helpers.insert e text) Hplaced)
      as (units & Hunits & Hrender).
    exists (ug ++ ut ++ units). split.
    { apply encode_app; [done|]. by apply encode_app. }
    rewrite (slice_middle done ug (ut ++ units)) by done.
    rewrite (decode_encode gap) by done.
    rewrite Hoff, Hlen.
    replace (length done + length ug + length ut)%nat
      with (length ((done ++ ug) ++ ut)) by (rewrite !length_app; lia).
    replace (done ++ ug ++ ut ++ units) with (((done ++ ug) ++ ut) ++ units)
      by (by rewrite <- !app_assoc).
    rewrite Hrender. by rewrite <- !app_assoc.
Qed.

(** X22.  A message whose entities lie one after the other, each at
    the offset and with the length of its text (in UTF-16 code units,
    surrogate pairs included): [decode_entities] returns the message
    with the text of each entity replaced by its markup and every
    stretch between the entities copied as it is, nothing escaped.
    When no entity is of a kind the function formats, the message
    comes back unchanged. *)
Theorem decode_entities_segments (segments : list Segment)
    (rest : Helpers.pystr) :
  segments ≠ [] →
  placed 0 segments →
  is_Some (Helpers.encode rest) →
  Helpers.decode_entities (Some (message_of segments rest))
                          (items_of segments)
  = Helpers.Returns (Some (html_of segments rest))
  ∧ ((∀ segment, segment ∈ segments →
        Helpers.insert segment.1.2 segment.2 = segment.2) →
     html_of segments rest = message_of segments rest).
Proof.
  intros Hne Hplaced [rest_units Hrest]. split.
  - unfold Helpers.decode_entities.
    destruct (items_of segments) as [|item items] eqn:Hitems.
    { destruct segments; [done|discriminate]. }
    rewrite <- Hitems.
    destruct (render_segments segments rest rest_units [] [] Hrest Hplaced)
      as (units & -> & Hrender).
    destruct (placed_from 0 segments Hplaced) as [_ Hsorted].
    by rewrite sorted_in_order.
  - clear. induction segments as [|[[gap e] text] segments IH];
      [done|]. intros Hplain. simpl.
    pose proof (Hplain (gap, e, text) ltac:(apply list_elem_of_here))
      as Hhere. simpl in Hhere. rewrite Hhere.
    rewrite IH; [done|]. intros segment Hin. apply Hplain.
    by apply list_elem_of_further.
Qed.

Lemma decode_entities_segments_witness :
  Helpers.decode_entities (Some (message_of greeting (Helpers.lit "!")))
                          (items_of greeting)
  = Helpers.Returns (Some (html_of greeting (Helpers.lit "!")))
  ∧ ((∀ segment, segment ∈ greeting →
        Helpers.insert segment.1.2 segment.2 = segment.2) →
     html_of greeting (Helpers.lit "!")
     = message_of greeting (Helpers.lit "!")).
Proof.
  apply (decode_entities_segments greeting (Helpers.lit "!")).
  - discriminate.
  - simpl. eexists _, _. split; [by vm_compute|].
    split; [by vm_compute|]. by vm_compute.
  - vm_compute. eauto.
Defined.

(** A text that holds a surrogate code point cannot be encoded. *)
Lemma encode_surrogate (before after : Helpers.pystr) (c : Z) :
  0xD800 ≤ c < 0xE000 →
  Helpers.encode (before ++ c :: after) = None.
Proof.
  intros Hc. induction before as [|x before IH]; simpl.
  - assert (Helpers.encode_point c = None) as ->; [|done].
    unfold Helpers.encode_point, Helpers.is_high, Helpers.is_low.
    destruct (decide (c < 0xDC00)).
    + rewrite (proj2 (Z.leb_le 0xD800 c)), (proj2 (Z.ltb_lt c 0xDC00))
        by lia. simpl. by rewrite orb_true_r.
    + rewrite (proj2 (Z.leb_le 0xDC00 c)), (proj2 (Z.ltb_lt c 0xE000))
        by lia. simpl. by rewrite orb_true_r.
  - rewrite IH. by destruct (Helpers.encode_point x).
Qed.

(** A character outside the basic plane is two code units, the first a
    high surrogate. *)
Lemma encode_point_pair (c : Z) :
  0x10000 ≤ c < 0x110000 →
  ∃ h l, Helpers.encode_point c = Some [h; l] ∧ Helpers.is_high h = true.
Proof.
  intros Hc.
  unfold Helpers.encode_point, Helpers.is_high, Helpers.is_low.
  rewrite (proj2 (Z.ltb_ge c 0)) by lia.
  rewrite (proj2 (Z.ltb_ge c 0xDC00)), (proj2 (Z.ltb_ge c 0xE000))
    by lia.
  rewrite !andb_false_r. simpl.
  rewrite (proj2 (Z.ltb_ge c 0x10000)) by lia.
  rewrite (proj2 (Z.ltb_lt c 0x110000)) by lia.
  eexists _, _. split; [done|].
  assert (0 ≤ (c - 0x10000) / 0x400 < 0x400).
  { split; [apply Z.div_pos; lia|].
    apply Z.div_lt_upper_bound; lia. }
  apply andb_true_iff. split; [apply Z.leb_le|apply Z.ltb_lt]; lia.
Qed.

(** X23.  A text that holds a surrogate code point comes back as it
    is when there are no entities, and raises [UnicodeEncodeError] as
    soon as there is one, wherever the entity lies. *)
Theorem decode_entities_surrogate (before after : Helpers.pystr) (c : Z)
    (entities : list (Helpers.MessageEntity * Helpers.pystr)) :
  0xD800 ≤ c < 0xE000 →
  entities ≠ [] →
  Helpers.decode_entities (Some (before ++ c :: after)) []
  = Helpers.Returns (Some (before ++ c :: after))
  ∧ Helpers.decode_entities (Some (before ++ c :: after)) entities
    = Helpers.UnicodeEncodeError.
Proof.
  intros Hc Hne. split; [done|].
  destruct entities as [|item items]; [done|].
  unfold Helpers.decode_entities. by rewrite encode_surrogate.
Qed.

Lemma decode_entities_surrogate_witness :
  Helpers.decode_entities (Some (Helpers.lit "a" ++ 0xD83D :: [])) []
  = Helpers.Returns (Some (Helpers.lit "a" ++ 0xD83D :: []))
  ∧ Helpers.decode_entities (Some (Helpers.lit "a" ++ 0xD83D :: []))
                            [(bold_word, Helpers.lit "bold")]
    = Helpers.UnicodeEncodeError.
Proof.
  apply (decode_entities_surrogate (Helpers.lit "a") [] 0xD83D
           [(bold_word, Helpers.lit "bold")]).
  - lia.
  - discriminate.
Defined.

(** X24.  An entity whose offset falls between the two code units of a
    character outside the basic plane raises [UnicodeDecodeError]:
    the stretch before the entity ends in half a surrogate pair. *)
Theorem decode_entities_split_pair (before after : Helpers.pystr)
    (units : list Z) (c : Z) (entity : Helpers.MessageEntity)
    (text : Helpers.pystr) :
  Helpers.encode before = Some units →
  is_Some (Helpers.encode after) →
  0x10000 ≤ c < 0x110000 →
  Helpers.offset entity = (length units + 1)%nat →
  Helpers.decode_entities (Some (before ++ c :: after)) [(entity, text)]
  = Helpers.UnicodeDecodeError.
Proof.
  intros Hbefore [after_units Hafter] Hc Hoffset.
  unfold Helpers.decode_entities.
  destruct (encode_point_pair c Hc) as (h & l & Hcl & Hh).
  assert (Hunits : Helpers.encode (before ++ c :: after)
                   = Some (units ++ [h; l] ++ after_units)).
  { apply encode_app; [done|]. simpl. by rewrite Hcl, Hafter. }
  rewrite Hunits. unfold Helpers.sorted. simpl.
  unfold Helpers.slice. rewrite Hoffset, Nat.sub_0_r, drop_0.
  rewrite take_app_add. cbn [take].
  rewrite (decode_encode_app before units [h]) by done. simpl.
  by rewrite Hh.
Qed.

Lemma decode_entities_split_pair_witness :
  Helpers.decode_entities
    (Some (Helpers.lit "hi " ++ 0x1F600 :: Helpers.lit " bold"))
    [(Helpers.mkMessageEntity "bold" 4 4 None None None,
      Helpers.lit "bold")]
  = Helpers.UnicodeDecodeError.
Proof.
  apply (decode_entities_split_pair (Helpers.lit "hi ")
           (Helpers.lit " bold") (Helpers.lit "hi ") 0x1F600).
  - by vm_compute.
  - vm_compute. eauto.
  - lia.
  - by vm_compute.
Defined.
